(** * ESP8266 NAPT router: lifecycle controller, provisioning and port map

    A shallow embedding of [user/router.c], [user/esp_touch.c],
    [user/device_info.c] and [user/user_main.c].  The global variables of the
    four translation units become the fields of one [device] record, every C
    function becomes a function on that record, and the Espressif SDK is
    modelled by the registers and handles the code can observe plus an
    [sdk_env] record that fixes the return value of each fallible SDK call
    of one callback invocation. *)

From Stdlib Require Import ZArith Lia Bool String Sorted.
From stdpp Require Import base option list.

Open Scope Z_scope.

(** ** Static configuration ([user_config.h]) *)

(** One [PORTMAP_*_n] block.  [PORTMAP_DADDR_n] is either a string literal
    or the integer [0], i.e. a possibly null [char *]. *)
Record portmap_slot := {
  PORTMAP_ENABLE : Z;
  PORTMAP_PROTO : Z;
  PORTMAP_MPORT : Z;
  PORTMAP_DADDR : option string;
  PORTMAP_DPORT : Z;
  PORTMAP_DIR : Z
}.

Record user_config := {
  WIFI_AP_SSID_PREFIX : string;
  WIFI_AP_PASSWORD : string;
  MAX_CLIENTS : Z;
  WIFI_AP_OPEN : Z;
  WIFI_AP_HIDDEN : Z;
  WIFI_AP_NETWORK_ADDR : string;
  WIFI_AP_NETWORK_NETMASK : string;
  WIFI_AP_NETWORK_GW : string;
  DHCP_START_ADDR : string;
  DHCP_STOP_ADDR : string;
  DNS_SERVER_IP : option string;
  PORTMAP_1 : portmap_slot;
  PORTMAP_2 : portmap_slot;
  PORTMAP_3 : portmap_slot;
  PORTMAP_4 : portmap_slot;
  PORTMAP_5 : portmap_slot;
  PORTMAP_6 : portmap_slot;
  PORTMAP_7 : portmap_slot;
  PORTMAP_8 : portmap_slot;
  ROUTER_CONN_TIMEOUT_WDT_INTERVAL : Z;
  LED_BLINK_INTERVAL : Z;
  VITAL_SIGN_TIME_INTERVAL : Z;
  ESP_TOUCH_ATTEMPTS_LIMIT : Z;
  ESP_TOUCH_CONFIG_TIMEOUT_THRESHOLD : Z;
  ESP_TOUCH_RECV_TIMEOUT_THRESHOLD : Z;
  ESP_TOUCH_CONNECTION_TIMEOUT_THRESHOLD : Z
}.

Definition OUTPUT_POWER_RELAY_GPIO : Z := 12.
Definition BUTTON_INTERRUPT_GPIO : Z := 0.
Definition STATUS_LED_GPIO : Z := 13.

Definition portmap_disabled : portmap_slot :=
  {| PORTMAP_ENABLE := 0; PORTMAP_PROTO := 0; PORTMAP_MPORT := 0;
     PORTMAP_DADDR := None; PORTMAP_DPORT := 0; PORTMAP_DIR := 0 |}.

(** The values shipped in [user_config.h]. *)
Definition shipped_config : user_config :=
  {| WIFI_AP_SSID_PREFIX := "ESP_ROUTER";
     WIFI_AP_PASSWORD := "S20_SmartSocket-WiFi_NAPT_Router";
     MAX_CLIENTS := 8;
     WIFI_AP_OPEN := 0;
     WIFI_AP_HIDDEN := 0;
     WIFI_AP_NETWORK_ADDR := "192.168.13.1";
     WIFI_AP_NETWORK_NETMASK := "255.255.255.0";
     WIFI_AP_NETWORK_GW := "192.168.13.1";
     DHCP_START_ADDR := "192.168.13.2";
     DHCP_STOP_ADDR := "192.168.13.64";
     DNS_SERVER_IP := None;
     PORTMAP_1 := {| PORTMAP_ENABLE := 1; PORTMAP_PROTO := 6;
                     PORTMAP_MPORT := 8883;
                     PORTMAP_DADDR := Some "192.168.13.37"%string;
                     PORTMAP_DPORT := 8883; PORTMAP_DIR := 2 |};
     PORTMAP_2 := portmap_disabled;
     PORTMAP_3 := portmap_disabled;
     PORTMAP_4 := portmap_disabled;
     PORTMAP_5 := portmap_disabled;
     PORTMAP_6 := portmap_disabled;
     PORTMAP_7 := portmap_disabled;
     PORTMAP_8 := portmap_disabled;
     ROUTER_CONN_TIMEOUT_WDT_INTERVAL := 300000;
     LED_BLINK_INTERVAL := 2000;
     VITAL_SIGN_TIME_INTERVAL := 300000;
     ESP_TOUCH_ATTEMPTS_LIMIT := 3;
     ESP_TOUCH_CONFIG_TIMEOUT_THRESHOLD := 30000;
     ESP_TOUCH_RECV_TIMEOUT_THRESHOLD := 30000;
     ESP_TOUCH_CONNECTION_TIMEOUT_THRESHOLD := 60000 |}.

(** ** The patched lwip NAPT interface ([lwip/lwip_napt.h], not in the tree) *)

(** Modelled from the spec: [struct portmap_table] of [lwip/lwip_napt.h],
    which is not part of the sources.  The port-map entry of the data model
    (protocol, external port, mapping address, destination address,
    destination port, direction) plus the [valid] flag and the [maddr]
    field that [portmap_update] reads and writes. *)
Record portmap_table := {
  valid : Z;
  proto : Z;
  maddr : Z;
  mport : Z;
  daddr : Z;
  dport : Z;
  dir : Z
}.

Definition set_maddr (a : Z) (e : portmap_table) : portmap_table :=
  {| valid := valid e; proto := proto e; maddr := a; mport := mport e;
     daddr := daddr e; dport := dport e; dir := dir e |}.

(** [ip_portmap_table] is a pointer to the table: [None] is the null
    pointer of an engine that was never initialised. *)
Definition napt_table := option (list portmap_table).

(** The functions and the constant the router takes from lwip.  They are
    kept abstract: the port-map code only relies on their prototypes.
    [ip_portmap_add] gets the engine's table and returns the new table and
    its [u8_t] result (zero on failure). *)
Class lwip_napt := {
  ipaddr_addr : string -> Z;
  ip_portmap_add : napt_table -> Z -> Z -> Z -> Z -> Z -> Z -> napt_table * Z;
  IP_PORTMAP_MAX : nat
}.

(** Modelled from the spec: the lwip macro [ip4_addr4], absent from the
    sources, names the fourth octet of an address, i.e. the byte at offset 3
    of the [u32_t] kept in network byte order on the little-endian core:
    bits 24..31 of the word. *)
Definition ip4_addr4 (a : Z) : Z := Z.land (Z.shiftr a 24) 255.

Definition ip4_addr4_assign (a v : Z) : Z :=
  Z.lor (Z.land a 16777215) (Z.shiftl (Z.land v 255) 24).

Definition ip4_addr1 (a : Z) : Z := Z.land a 255.
Definition ip4_addr2 (a : Z) : Z := Z.land (Z.shiftr a 8) 255.
Definition ip4_addr3 (a : Z) : Z := Z.land (Z.shiftr a 16) 255.

(** [IP4_ADDR(&a, b1, b2, b3, b4)]. *)
Definition IP4_ADDR (b1 b2 b3 b4 : Z) : Z :=
  Z.lor (Z.lor (Z.land b1 255) (Z.shiftl (Z.land b2 255) 8))
        (Z.lor (Z.shiftl (Z.land b3 255) 16) (Z.shiftl (Z.land b4 255) 24)).

(** An engine whose table is full: every [ip_portmap_add] fails. *)
Definition lwip_table_full : lwip_napt :=
  {| ipaddr_addr := fun _ => 0;
     ip_portmap_add := fun t _ _ _ _ _ _ => (t, 0);
     IP_PORTMAP_MAX := 4 |}.

(** An engine that accepts every rule and appends it to the table. *)
Definition lwip_appending : lwip_napt :=
  {| ipaddr_addr := fun s => Z.of_nat (String.length s);
     ip_portmap_add := fun t p ma mp da dp di =>
       (Some (default [] t ++
              [ {| valid := 1; proto := p; maddr := ma; mport := mp;
                   daddr := da; dport := dp; dir := di |} ]), 1);
     IP_PORTMAP_MAX := 4 |}.

(** ** The SDK as the program sees it *)

(** The functions the program registers as timer callbacks. *)
Inductive os_timer_func_t :=
  | Led_blink_timerfunc
  | Router_conn_timeout_wdtfunc
  | Esptouch_over_timerfunc
  | Esptouch_fail_cb
  | Vital_sign_broadcast.

(** An [os_timer_t] object on the heap.  A handle is an
    [option os_timer_t]: [None] is the null pointer. *)
Record os_timer_t := {
  timer_armed : bool;
  timer_func : option os_timer_func_t;
  timer_period : Z;
  timer_repeat : bool
}.

(** [os_zalloc(sizeof(os_timer_t))]: zeroed memory. *)
Definition os_zalloc_timer : os_timer_t :=
  {| timer_armed := false; timer_func := None; timer_period := 0;
     timer_repeat := false |}.

Definition os_timer_disarm (t : os_timer_t) : os_timer_t :=
  {| timer_armed := false; timer_func := timer_func t;
     timer_period := timer_period t; timer_repeat := timer_repeat t |}.

Definition os_timer_setfn (f : option os_timer_func_t) (t : os_timer_t)
  : os_timer_t :=
  {| timer_armed := timer_armed t; timer_func := f;
     timer_period := timer_period t; timer_repeat := timer_repeat t |}.

Definition os_timer_arm (ms : Z) (repeat_flag : bool) (t : os_timer_t)
  : os_timer_t :=
  {| timer_armed := true; timer_func := timer_func t;
     timer_period := ms; timer_repeat := repeat_flag |}.

(** A handle whose timer would fire if its period elapsed. *)
Definition handle_armed (h : option os_timer_t) : bool :=
  match h with
  | Some t => timer_armed t
  | None => false
  end.

(** GPIO block: output register, output-enable register, interrupt status
    latch, and the CPU-level enable of the GPIO interrupt
    ([ETS_GPIO_INTR_ENABLE] / [ETS_GPIO_INTR_DISABLE]). *)
Record gpio_regs := {
  gpio_out : Z;
  gpio_enable : Z;
  gpio_status : Z;
  gpio_intr_enabled : bool
}.

Definition BIT (n : Z) : Z := Z.shiftl 1 n.

(** [gpio_output_set]: write-1-to-set then write-1-to-clear on the output
    and the enable registers. *)
Definition gpio_output_set (set_mask clear_mask enable_mask disable_mask : Z)
    (g : gpio_regs) : gpio_regs :=
  {| gpio_out := Z.ldiff (Z.lor (gpio_out g) set_mask) clear_mask;
     gpio_enable := Z.ldiff (Z.lor (gpio_enable g) enable_mask) disable_mask;
     gpio_status := gpio_status g;
     gpio_intr_enabled := gpio_intr_enabled g |}.

(** [GPIO_REG_WRITE(GPIO_STATUS_W1TC_ADDRESS, mask)]. *)
Definition gpio_status_w1tc (mask : Z) (g : gpio_regs) : gpio_regs :=
  {| gpio_out := gpio_out g; gpio_enable := gpio_enable g;
     gpio_status := Z.ldiff (gpio_status g) mask;
     gpio_intr_enabled := gpio_intr_enabled g |}.

Definition ets_gpio_intr (b : bool) (g : gpio_regs) : gpio_regs :=
  {| gpio_out := gpio_out g; gpio_enable := gpio_enable g;
     gpio_status := gpio_status g; gpio_intr_enabled := b |}.

(** The edge detector latches a rising edge of the button pin. *)
Definition gpio_latch_edge (pin : Z) (g : gpio_regs) : gpio_regs :=
  {| gpio_out := gpio_out g; gpio_enable := gpio_enable g;
     gpio_status := Z.lor (gpio_status g) (BIT pin);
     gpio_intr_enabled := gpio_intr_enabled g |}.

Definition NULL_MODE : Z := 0.
Definition STATION_MODE : Z := 1.
Definition SOFTAP_MODE : Z := 2.
Definition STATIONAP_MODE : Z := 3.
Definition SOFTAP_IF : Z := 1.

(** The part of the WiFi stack the program drives. *)
Record wifi_sdk := {
  wifi_opmode : Z;
  wifi_station_active : bool;
  wifi_event_handler : bool;
  smartconfig_active : bool
}.

(** Return values of the fallible SDK calls made during one callback
    invocation.  Each field names the call site it answers; an allocation
    answers [true] when [os_zalloc] returned memory. *)
Record sdk_env := {
  wifi_set_opmode_ok : bool;
  zalloc_led_blink_timer : bool;
  zalloc_router_conn_timeout_wdt : bool;
  zalloc_esptouch_wait_timer : bool;
  zalloc_esptouch_timeout_timer : bool;
  zalloc_udp_com_socket : bool;
  zalloc_proto_udp : bool;
  zalloc_vital_sign_timer : bool;
  espconn_create_ok : bool;
  wifi_station_set_config_ok : bool;
  wifi_get_macaddr_ok : bool;
  softap_macstr : string;
  wifi_softap_set_config_ok : bool;
  wifi_softap_dhcps_stop_ok : bool;
  wifi_set_ip_info_ok : bool;
  wifi_softap_set_dhcps_lease_ok : bool;
  wifi_softap_dhcps_start_ok : bool
}.

(** Every SDK call succeeds. *)
Definition env_ok : sdk_env :=
  {| wifi_set_opmode_ok := true;
     zalloc_led_blink_timer := true;
     zalloc_router_conn_timeout_wdt := true;
     zalloc_esptouch_wait_timer := true;
     zalloc_esptouch_timeout_timer := true;
     zalloc_udp_com_socket := true;
     zalloc_proto_udp := true;
     zalloc_vital_sign_timer := true;
     espconn_create_ok := true;
     wifi_station_set_config_ok := true;
     wifi_get_macaddr_ok := true;
     softap_macstr := "5c:cf:7f:00:00:01";
     wifi_softap_set_config_ok := true;
     wifi_softap_dhcps_stop_ok := true;
     wifi_set_ip_info_ok := true;
     wifi_softap_set_dhcps_lease_ok := true;
     wifi_softap_dhcps_start_ok := true |}.

(** Everything succeeds except the restart of the DHCP server. *)
Definition env_dhcps_start_fails : sdk_env :=
  {| wifi_set_opmode_ok := true;
     zalloc_led_blink_timer := true;
     zalloc_router_conn_timeout_wdt := true;
     zalloc_esptouch_wait_timer := true;
     zalloc_esptouch_timeout_timer := true;
     zalloc_udp_com_socket := true;
     zalloc_proto_udp := true;
     zalloc_vital_sign_timer := true;
     espconn_create_ok := true;
     wifi_station_set_config_ok := true;
     wifi_get_macaddr_ok := true;
     softap_macstr := "5c:cf:7f:00:00:01";
     wifi_softap_set_config_ok := true;
     wifi_softap_dhcps_stop_ok := true;
     wifi_set_ip_info_ok := true;
     wifi_softap_set_dhcps_lease_ok := true;
     wifi_softap_dhcps_start_ok := false |}.

(** Modelled from the spec: [struct softap_config] of the SDK's
    [user_interface.h], which is not part of the sources.  Its [ssid] is an
    array of 32 bytes and its [password] one of 64, followed by the scalar
    fields, the one-byte ones among them [ssid_len], [ssid_hidden] and
    [max_connection].  The record holds what [softap_init] writes into its
    [ap_conf]: the strings it formats into the two arrays, with [None] for
    an array it never writes ([os_memset] is handed the struct by value, so
    such bytes are what the stack held), the scalars it assigns, and whether
    a formatted string with its terminator is longer than its array.  Such a
    write runs over what lies behind the array, and the record then no
    longer tells what the SDK receives. *)
Record softap_config := {
  ssid : string;
  ssid_len : Z;
  password : option string;
  authmode : Z;
  max_connection : Z;
  ssid_hidden : Z;
  ap_conf_overrun : bool
}.

Definition SOFTAP_SSID_SIZE : Z := 32.
Definition SOFTAP_PASSWORD_SIZE : Z := 64.

(** The SDK calls of [router.c] whose arguments matter, in call order. *)

Definition AUTH_OPEN : Z := 0.
Definition AUTH_WPA_WPA2_PSK : Z := 4.

Inductive sdk_call :=
  | Call_wifi_get_macaddr (if_index : Z)
  | Call_wifi_softap_set_config (conf : softap_config)
  | Call_wifi_softap_dhcps_stop
  | Call_wifi_set_ip_info (if_index : Z) (ip netmask gw : Z)
  | Call_wifi_softap_set_dhcps_lease (start_ip end_ip : Z)
  | Call_wifi_softap_dhcps_start
  | Call_ip_napt_enable (addr : Z) (enable : Z)
  | Call_wifi_set_broadcast_if (mode : Z)
  | Call_dhcps_set_DNS (addr : Z).

(** One call of [ip_portmap_add] made by [portmap_init], tagged with the
    number of the configuration slot it comes from. *)
Record portmap_call := {
  call_slot : nat;
  call_proto : Z;
  call_maddr : Z;
  call_mport : Z;
  call_daddr : Z;
  call_dport : Z;
  call_dir : Z;
  call_result : Z
}.

(** ** Program state *)

(** [struct esptouch_cb]: each field tells whether the function pointer
    has been assigned (the only values ever stored are the module's own
    callbacks). *)
Record esptouch_cb := {
  esptouch_start_cb_set : bool;
  esptouch_fail_cb_set : bool;
  esptouch_suc_cb_set : bool
}.

(** File-scope variables of [esp_touch.c]. *)
Record esp_touch_vars := {
  esptouch_func : esptouch_cb;
  esptouch_running : bool;
  esptouch_success : bool;
  esptouch_attempt_count : Z;
  esptouch_timeout_timer : option os_timer_t
}.

(** File-scope variables of [user_main.c], and the poll timers:
    [router_enable] keeps its [esptouch_wait_timer] in a local variable and
    hands the pointer to the timer as its own callback argument, so the
    live objects are kept here as a list. *)
Record user_main_vars := {
  led_blink_timer : option os_timer_t;
  router_conn_timeout_wdt : option os_timer_t;
  esptouch_wait_timers : list os_timer_t
}.

(** [struct espconn] as far as [device_info.c] uses it: the [proto.udp]
    pointer (with the local port it holds) and whether the receive callback
    is registered. *)
Record espconn := {
  proto_udp : option Z;
  recv_cb_registered : bool
}.

(** File-scope variables of [device_info.c]. *)
Record device_info_vars := {
  udp_com_socket : option espconn;
  vital_sign_timer : option os_timer_t
}.

(** The whole device.  [orphan_timers] are timeout timers that
    [esptouch_init] lost by overwriting [esptouch_timeout_timer] without
    releasing the object it pointed to; they stay on the SDK's timer list.
    [leaked_sockets] are the sockets [device_info_disable] released while
    they still owned an [esp_udp] block: [os_free(udp_com_socket)] frees the
    [espconn] alone, so the block stays allocated and the connection, once
    created, is never deleted. *)
Record device := {
  main : user_main_vars;
  touch : esp_touch_vars;
  info : device_info_vars;
  router_connected : bool;
  ip_portmap_table : napt_table;
  orphan_timers : list os_timer_t;
  leaked_sockets : list espconn;
  gpio : gpio_regs;
  wifi : wifi_sdk
}.

Definition set_esptouch_func v (t : esp_touch_vars) : esp_touch_vars :=
  {| esptouch_func := v; esptouch_running := esptouch_running t;
     esptouch_success := esptouch_success t;
     esptouch_attempt_count := esptouch_attempt_count t;
     esptouch_timeout_timer := esptouch_timeout_timer t |}.

Definition set_esptouch_running v (t : esp_touch_vars) : esp_touch_vars :=
  {| esptouch_func := esptouch_func t; esptouch_running := v;
     esptouch_success := esptouch_success t;
     esptouch_attempt_count := esptouch_attempt_count t;
     esptouch_timeout_timer := esptouch_timeout_timer t |}.

Definition set_esptouch_success v (t : esp_touch_vars) : esp_touch_vars :=
  {| esptouch_func := esptouch_func t; esptouch_running := esptouch_running t;
     esptouch_success := v;
     esptouch_attempt_count := esptouch_attempt_count t;
     esptouch_timeout_timer := esptouch_timeout_timer t |}.

Definition set_esptouch_attempt_count v (t : esp_touch_vars) : esp_touch_vars :=
  {| esptouch_func := esptouch_func t; esptouch_running := esptouch_running t;
     esptouch_success := esptouch_success t;
     esptouch_attempt_count := v;
     esptouch_timeout_timer := esptouch_timeout_timer t |}.

Definition set_esptouch_timeout_timer v (t : esp_touch_vars) : esp_touch_vars :=
  {| esptouch_func := esptouch_func t; esptouch_running := esptouch_running t;
     esptouch_success := esptouch_success t;
     esptouch_attempt_count := esptouch_attempt_count t;
     esptouch_timeout_timer := v |}.

Definition set_led_blink_timer v (m : user_main_vars) : user_main_vars :=
  {| led_blink_timer := v;
     router_conn_timeout_wdt := router_conn_timeout_wdt m;
     esptouch_wait_timers := esptouch_wait_timers m |}.

Definition set_router_conn_timeout_wdt v (m : user_main_vars) : user_main_vars :=
  {| led_blink_timer := led_blink_timer m;
     router_conn_timeout_wdt := v;
     esptouch_wait_timers := esptouch_wait_timers m |}.

Definition set_esptouch_wait_timers v (m : user_main_vars) : user_main_vars :=
  {| led_blink_timer := led_blink_timer m;
     router_conn_timeout_wdt := router_conn_timeout_wdt m;
     esptouch_wait_timers := v |}.

Definition set_udp_com_socket v (i : device_info_vars) : device_info_vars :=
  {| udp_com_socket := v; vital_sign_timer := vital_sign_timer i |}.

Definition set_vital_sign_timer v (i : device_info_vars) : device_info_vars :=
  {| udp_com_socket := udp_com_socket i; vital_sign_timer := v |}.

Definition set_wifi_opmode v (w : wifi_sdk) : wifi_sdk :=
  {| wifi_opmode := v; wifi_station_active := wifi_station_active w;
     wifi_event_handler := wifi_event_handler w;
     smartconfig_active := smartconfig_active w |}.

Definition set_wifi_station_active v (w : wifi_sdk) : wifi_sdk :=
  {| wifi_opmode := wifi_opmode w; wifi_station_active := v;
     wifi_event_handler := wifi_event_handler w;
     smartconfig_active := smartconfig_active w |}.

Definition set_wifi_event_handler v (w : wifi_sdk) : wifi_sdk :=
  {| wifi_opmode := wifi_opmode w;
     wifi_station_active := wifi_station_active w;
     wifi_event_handler := v;
     smartconfig_active := smartconfig_active w |}.

Definition set_smartconfig_active v (w : wifi_sdk) : wifi_sdk :=
  {| wifi_opmode := wifi_opmode w;
     wifi_station_active := wifi_station_active w;
     wifi_event_handler := wifi_event_handler w;
     smartconfig_active := v |}.

Definition upd_main (f : user_main_vars -> user_main_vars) (d : device) : device :=
  {| main := f (main d); touch := touch d; info := info d;
     router_connected := router_connected d;
     ip_portmap_table := ip_portmap_table d;
     orphan_timers := orphan_timers d;
     leaked_sockets := leaked_sockets d; gpio := gpio d; wifi := wifi d |}.

Definition upd_touch (f : esp_touch_vars -> esp_touch_vars) (d : device) : device :=
  {| main := main d; touch := f (touch d); info := info d;
     router_connected := router_connected d;
     ip_portmap_table := ip_portmap_table d;
     orphan_timers := orphan_timers d;
     leaked_sockets := leaked_sockets d; gpio := gpio d; wifi := wifi d |}.

Definition upd_info (f : device_info_vars -> device_info_vars) (d : device) : device :=
  {| main := main d; touch := touch d; info := f (info d);
     router_connected := router_connected d;
     ip_portmap_table := ip_portmap_table d;
     orphan_timers := orphan_timers d;
     leaked_sockets := leaked_sockets d; gpio := gpio d; wifi := wifi d |}.

Definition set_router_connected (v : bool) (d : device) : device :=
  {| main := main d; touch := touch d; info := info d;
     router_connected := v;
     ip_portmap_table := ip_portmap_table d;
     orphan_timers := orphan_timers d;
     leaked_sockets := leaked_sockets d; gpio := gpio d; wifi := wifi d |}.

Definition set_ip_portmap_table (v : napt_table) (d : device) : device :=
  {| main := main d; touch := touch d; info := info d;
     router_connected := router_connected d;
     ip_portmap_table := v;
     orphan_timers := orphan_timers d;
     leaked_sockets := leaked_sockets d; gpio := gpio d; wifi := wifi d |}.

Definition set_orphan_timers (v : list os_timer_t) (d : device) : device :=
  {| main := main d; touch := touch d; info := info d;
     router_connected := router_connected d;
     ip_portmap_table := ip_portmap_table d;
     orphan_timers := v;
     leaked_sockets := leaked_sockets d; gpio := gpio d; wifi := wifi d |}.

Definition set_leaked_sockets (v : list espconn) (d : device) : device :=
  {| main := main d; touch := touch d; info := info d;
     router_connected := router_connected d;
     ip_portmap_table := ip_portmap_table d;
     orphan_timers := orphan_timers d;
     leaked_sockets := v; gpio := gpio d; wifi := wifi d |}.

Definition upd_gpio (f : gpio_regs -> gpio_regs) (d : device) : device :=
  {| main := main d; touch := touch d; info := info d;
     router_connected := router_connected d;
     ip_portmap_table := ip_portmap_table d;
     orphan_timers := orphan_timers d;
     leaked_sockets := leaked_sockets d; gpio := f (gpio d); wifi := wifi d |}.

Definition upd_wifi (f : wifi_sdk -> wifi_sdk) (d : device) : device :=
  {| main := main d; touch := touch d; info := info d;
     router_connected := router_connected d;
     ip_portmap_table := ip_portmap_table d;
     orphan_timers := orphan_timers d;
     leaked_sockets := leaked_sockets d; gpio := gpio d; wifi := f (wifi d) |}.

(** SDK calls on the WiFi stack. *)
Definition wifi_station_disconnect : device -> device :=
  upd_wifi (set_wifi_station_active false).

Definition wifi_station_connect : device -> device :=
  upd_wifi (set_wifi_station_active true).

(** [wifi_set_opmode] changes the mode only when it reports success. *)
Definition wifi_set_opmode (env : sdk_env) (mode : Z) (d : device) : device * bool :=
  if wifi_set_opmode_ok env
  then (upd_wifi (set_wifi_opmode mode) d, true)
  else (d, false).

Definition wifi_set_event_handler_cb (registered : bool) : device -> device :=
  upd_wifi (set_wifi_event_handler registered).

Definition smartconfig_start : device -> device :=
  upd_wifi (set_smartconfig_active true).

Definition smartconfig_stop : device -> device :=
  upd_wifi (set_smartconfig_active false).

(** C truth values. *)
Definition c_true (z : Z) : bool := negb (z =? 0).

Definition ptr_true {A : Type} (p : option A) : bool :=
  match p with
  | Some _ => true
  | None => false
  end.

Section Program.

Context {lw : lwip_napt}.
Variable cfg : user_config.

(** ** [router.c] *)

Definition is_connected (d : device) : bool := router_connected d.

(** One iteration of the loop of [portmap_update].  The table has
    [IP_PORTMAP_MAX] entries, so the lookup succeeds for every index the
    loop visits. *)
Definition portmap_update_entry (new_addr : Z) (tbl : list portmap_table)
    (idx : nat) : list portmap_table :=
  match tbl !! idx with
  | Some e => if c_true (valid e) then <[idx := set_maddr new_addr e]> tbl else tbl
  | None => tbl
  end.

(** [portmap_update(station_ip_addr)] on the global [ip_portmap_table]. *)
Definition portmap_update (station_ip_addr : option Z) (table : napt_table)
  : napt_table :=
  match station_ip_addr with
  | None => table
  | Some new_addr =>
      match table with
      | None => None
      | Some tbl =>
          Some (foldl (portmap_update_entry new_addr) tbl (seq 0 IP_PORTMAP_MAX))
      end
  end.

(** [dns_set]: the address handed to [dhcps_set_DNS]. *)
Definition dns_set : list sdk_call :=
  [ Call_dhcps_set_DNS
      match DNS_SERVER_IP cfg with
      | Some s => ipaddr_addr s
      | None => IP4_ADDR 8 8 8 8
      end ].

(** [softap_network_config]: the SDK calls made, in order, and the result. *)
Definition softap_network_config (env : sdk_env) : list sdk_call * bool :=
  if wifi_softap_dhcps_stop_ok env then
    let ip := ip4_addr4_assign (ipaddr_addr (WIFI_AP_NETWORK_ADDR cfg)) 1 in
    let netmask := ipaddr_addr (WIFI_AP_NETWORK_NETMASK cfg) in
    let gw := ipaddr_addr (WIFI_AP_NETWORK_GW cfg) in
    if wifi_set_ip_info_ok env then
      let start_ip := ipaddr_addr (DHCP_START_ADDR cfg) in
      let end_ip := ipaddr_addr (DHCP_STOP_ADDR cfg) in
      if wifi_softap_set_dhcps_lease_ok env then
        if wifi_softap_dhcps_start_ok env then
          ([ Call_wifi_softap_dhcps_stop;
             Call_wifi_set_ip_info SOFTAP_IF ip netmask gw;
             Call_wifi_softap_set_dhcps_lease start_ip end_ip;
             Call_wifi_softap_dhcps_start;
             Call_ip_napt_enable ip 1;
             Call_wifi_set_broadcast_if STATIONAP_MODE ], true)
        else
          ([ Call_wifi_softap_dhcps_stop;
             Call_wifi_set_ip_info SOFTAP_IF ip netmask gw;
             Call_wifi_softap_set_dhcps_lease start_ip end_ip;
             Call_wifi_softap_dhcps_start ], false)
      else
        ([ Call_wifi_softap_dhcps_stop;
           Call_wifi_set_ip_info SOFTAP_IF ip netmask gw;
           Call_wifi_softap_set_dhcps_lease start_ip end_ip ], false)
    else
      ([ Call_wifi_softap_dhcps_stop;
         Call_wifi_set_ip_info SOFTAP_IF ip netmask gw ], false)
  else
    ([ Call_wifi_softap_dhcps_stop ], false).

(** [softap_init], given the current operation mode.  The open branch
    assigns the authentication mode only; the strings are formatted with
    [os_sprintf], which does not look at the size of its target. *)
Definition softap_init (env : sdk_env) (opmode : Z) : list sdk_call * bool :=
  if SOFTAP_MODE <=? opmode then
    if wifi_get_macaddr_ok env then
      let ap_ssid : string :=
        (WIFI_AP_SSID_PREFIX cfg ++ "_" ++ softap_macstr env)%string in
      let ap_conf :=
        {| ssid := ap_ssid;
           ssid_len := Z.of_nat (String.length ap_ssid) mod 256;
           password := if c_true (WIFI_AP_OPEN cfg) then None
                       else Some (WIFI_AP_PASSWORD cfg);
           authmode := if c_true (WIFI_AP_OPEN cfg) then AUTH_OPEN
                       else AUTH_WPA_WPA2_PSK;
           max_connection := MAX_CLIENTS cfg mod 256;
           ssid_hidden := WIFI_AP_HIDDEN cfg mod 256;
           ap_conf_overrun :=
             (SOFTAP_SSID_SIZE <=? Z.of_nat (String.length ap_ssid))
             || negb (c_true (WIFI_AP_OPEN cfg))
                && (SOFTAP_PASSWORD_SIZE
                    <=? Z.of_nat (String.length (WIFI_AP_PASSWORD cfg))) |} in
      ([ Call_wifi_get_macaddr SOFTAP_IF; Call_wifi_softap_set_config ap_conf ],
       wifi_softap_set_config_ok env)
    else ([ Call_wifi_get_macaddr SOFTAP_IF ], false)
  else ([], false).

(** The test [PORTMAP_PROTO_n && PORTMAP_MPORT_n && PORTMAP_DADDR_n &&
    PORTMAP_DPORT_n && PORTMAP_DIR_n]. *)
Definition portmap_slot_complete (s : portmap_slot) : bool :=
  c_true (PORTMAP_PROTO s) && c_true (PORTMAP_MPORT s)
  && ptr_true (PORTMAP_DADDR s)
  && c_true (PORTMAP_DPORT s) && c_true (PORTMAP_DIR s).

(** A slot [portmap_init] hands to the engine: enabled and complete. *)
Definition portmap_slot_loadable (s : portmap_slot) : bool :=
  c_true (PORTMAP_ENABLE s) && portmap_slot_complete s.

(** The blocks of [portmap_init], one per numbered slot: the table after
    them, the [ip_portmap_add] calls made, and the return value.  A failed
    call returns [false] on the spot. *)
Fixpoint portmap_load (slots : list (nat * portmap_slot)) (table : napt_table)
  : napt_table * list portmap_call * bool :=
  match slots with
  | [] => (table, [], true)
  | (n, s) :: rest =>
      if c_true (PORTMAP_ENABLE s) then
        if portmap_slot_complete s then
          let daddr_addr := ipaddr_addr (default EmptyString (PORTMAP_DADDR s)) in
          let '(table', r) :=
            ip_portmap_add table (PORTMAP_PROTO s) 0 (PORTMAP_MPORT s)
                           daddr_addr (PORTMAP_DPORT s) (PORTMAP_DIR s) in
          let call :=
            {| call_slot := n; call_proto := PORTMAP_PROTO s; call_maddr := 0;
               call_mport := PORTMAP_MPORT s; call_daddr := daddr_addr;
               call_dport := PORTMAP_DPORT s; call_dir := PORTMAP_DIR s;
               call_result := r |} in
          if c_true r then
            let '(table'', calls, ok) := portmap_load rest table' in
            (table'', call :: calls, ok)
          else (table', [call], false)
        else portmap_load rest table
      else portmap_load rest table
  end.

Definition portmap_slots : list (nat * portmap_slot) :=
  [ (1%nat, PORTMAP_1 cfg); (2%nat, PORTMAP_2 cfg); (3%nat, PORTMAP_3 cfg);
    (4%nat, PORTMAP_4 cfg); (5%nat, PORTMAP_5 cfg); (6%nat, PORTMAP_6 cfg);
    (7%nat, PORTMAP_7 cfg); (8%nat, PORTMAP_8 cfg) ].

Definition portmap_init (table : napt_table)
  : napt_table * list portmap_call * bool :=
  portmap_load portmap_slots table.

(** The parts of what [portmap_init] yields. *)
Definition load_table (r : napt_table * list portmap_call * bool) : napt_table :=
  fst (fst r).

Definition load_calls (r : napt_table * list portmap_call * bool)
  : list portmap_call := snd (fst r).

Definition load_ok (r : napt_table * list portmap_call * bool) : bool := snd r.

(** The addresses handed to [wifi_set_ip_info] by a sequence of calls. *)
Definition set_ip_info_calls (calls : list sdk_call) : list (Z * Z * Z * Z) :=
  flat_map (fun c =>
    match c with
    | Call_wifi_set_ip_info i ip netmask gw => [(i, ip, netmask, gw)]
    | _ => []
    end) calls.

(** The WiFi events [wifi_handle_event_cb] distinguishes. *)
Inductive System_Event_t :=
  | EVENT_STAMODE_CONNECTED
  | EVENT_STAMODE_DISCONNECTED
  | EVENT_STAMODE_AUTHMODE_CHANGE
  | EVENT_STAMODE_GOT_IP (ip : Z)
  | EVENT_SOFTAPMODE_STACONNECTED
  | EVENT_SOFTAPMODE_STADISCONNECTED
  | EVENT_OTHER.

Definition wifi_handle_event_cb (evt : System_Event_t) (env : sdk_env)
    (d : device) : device :=
  match evt with
  | EVENT_STAMODE_DISCONNECTED => set_router_connected false d
  | EVENT_STAMODE_GOT_IP ip =>
      let d1 := set_ip_portmap_table
                  (portmap_update (Some ip) (ip_portmap_table d)) d in
      let '(d2, opmode_ok) := wifi_set_opmode env STATIONAP_MODE d1 in
      if opmode_ok && snd (softap_init env (wifi_opmode (wifi d2))) then
        if snd (softap_network_config env)
        then set_router_connected true d2
        else d2
      else d2
  | _ => d
  end.

Definition router_init (d : device) : device :=
  let d1 := set_router_connected false d in
  let d2 := set_ip_portmap_table (load_table (portmap_init (ip_portmap_table d1))) d1 in
  wifi_set_event_handler_cb true d2.

(** ** [esp_touch.c] *)

Inductive sc_status :=
  | SC_STATUS_WAIT
  | SC_STATUS_FIND_CHANNEL
  | SC_STATUS_GETTING_SSID_PSWD
  | SC_STATUS_LINK
  | SC_STATUS_LINK_OVER.

Definition esptouch_is_running (d : device) : bool :=
  esptouch_running (touch d).

Definition esptouch_was_successful (d : device) : bool :=
  esptouch_success (touch d).

(** The value of the pointer [esptouch_func.esptouch_fail_cb]. *)
Definition esptouch_fail_cb_ptr (d : device) : option os_timer_func_t :=
  if esptouch_fail_cb_set (esptouch_func (touch d))
  then Some Esptouch_fail_cb else None.

Definition esptouch_success_cb (d : device) : device :=
  let d1 :=
    match esptouch_timeout_timer (touch d) with
    | Some _ => upd_touch (set_esptouch_timeout_timer None) d
    | None => d
    end in
  let d2 := upd_touch (set_esptouch_running false) d1 in
  upd_touch (set_esptouch_success true) d2.

(** Only prints. *)
Definition esptouch_start_cb (d : device) : device := d.

Definition esptouch_disable (d : device) : device :=
  let d1 := smartconfig_stop d in
  let d2 :=
    match esptouch_timeout_timer (touch d1) with
    | Some _ => upd_touch (set_esptouch_timeout_timer None) d1
    | None => d1
    end in
  upd_touch (set_esptouch_running false) d2.

(** The block [if (esptouch_timeout_timer && esptouch_func.esptouch_fail_cb)
    { disarm; setfn; arm(threshold, false) }]. *)
Definition esptouch_arm_timeout (threshold : Z) (d : device) : device :=
  match esptouch_timeout_timer (touch d) with
  | Some t =>
      if esptouch_fail_cb_set (esptouch_func (touch d)) then
        upd_touch (set_esptouch_timeout_timer
          (Some (os_timer_arm threshold false
                   (os_timer_setfn (esptouch_fail_cb_ptr d)
                      (os_timer_disarm t))))) d
      else d
  | None => d
  end.

Definition esptouch_status_cb (status : sc_status) (env : sdk_env)
    (d : device) : device :=
  match status with
  | SC_STATUS_WAIT => d
  | SC_STATUS_FIND_CHANNEL =>
      if esptouch_start_cb_set (esptouch_func (touch d))
      then esptouch_start_cb d else d
  | SC_STATUS_GETTING_SSID_PSWD =>
      esptouch_arm_timeout (ESP_TOUCH_RECV_TIMEOUT_THRESHOLD cfg) d
  | SC_STATUS_LINK =>
      let d1 := wifi_station_disconnect d in
      let d2 :=
        if wifi_station_set_config_ok env
        then wifi_station_connect d1
        else esptouch_disable d1 in
      esptouch_arm_timeout (ESP_TOUCH_CONNECTION_TIMEOUT_THRESHOLD cfg) d2
  | SC_STATUS_LINK_OVER =>
      let d1 := smartconfig_stop d in
      if esptouch_suc_cb_set (esptouch_func (touch d1))
      then esptouch_success_cb d1 else d1
  end.

(** [esptouch_attempt_count] is a [uint8_t]: the increment wraps. *)
Definition esptouch_fail_cb (d : device) : device :=
  let d1 := smartconfig_stop d in
  let d2 := wifi_station_disconnect d1 in
  let d3 :=
    match esptouch_timeout_timer (touch d2) with
    | Some t => upd_touch (set_esptouch_timeout_timer (Some (os_timer_disarm t))) d2
    | None => d2
    end in
  if esptouch_attempt_count (touch d3) <? ESP_TOUCH_ATTEMPTS_LIMIT cfg then
    let d4 := upd_touch (set_esptouch_attempt_count
                ((esptouch_attempt_count (touch d3) + 1) mod 256)) d3 in
    let d5 :=
      match esptouch_timeout_timer (touch d4) with
      | Some t =>
          upd_touch (set_esptouch_timeout_timer
            (Some (os_timer_arm (ESP_TOUCH_CONFIG_TIMEOUT_THRESHOLD cfg) false
                     (os_timer_setfn (esptouch_fail_cb_ptr d4) t)))) d4
      | None => d4
      end in
    smartconfig_start d5
  else
    let d4 :=
      match esptouch_timeout_timer (touch d3) with
      | Some _ => upd_touch (set_esptouch_timeout_timer None) d3
      | None => d3
      end in
    upd_touch (set_esptouch_running false) d4.

(** [esptouch_init].  The assignment to [esptouch_timeout_timer] does not
    release a timer the variable still points to: such an object moves to
    [orphan_timers].  The test [if (esptouch_status_cb)] is on the address
    of a function and always holds. *)
Definition esptouch_init (env : sdk_env) (d : device) : device :=
  let d1 := upd_touch (set_esptouch_running true) d in
  let d2 := upd_touch (set_esptouch_success false) d1 in
  let d3 := upd_touch (set_esptouch_attempt_count 1) d2 in
  let d4 := wifi_station_disconnect d3 in
  let d5 := fst (wifi_set_opmode env STATION_MODE d4) in
  let d6 := upd_touch (set_esptouch_func
              {| esptouch_start_cb_set := true; esptouch_fail_cb_set := true;
                 esptouch_suc_cb_set := true |}) d5 in
  let d7 :=
    match esptouch_timeout_timer (touch d6) with
    | Some old => set_orphan_timers (orphan_timers d6 ++ [old]) d6
    | None => d6
    end in
  let d8 := upd_touch (set_esptouch_timeout_timer
              (if zalloc_esptouch_timeout_timer env
               then Some os_zalloc_timer else None)) d7 in
  let d9 := esptouch_arm_timeout (ESP_TOUCH_CONFIG_TIMEOUT_THRESHOLD cfg) d8 in
  smartconfig_start d9.

(** ** [device_info.c] *)

Definition DEVICE_COM_PORT : Z := 49152.

Definition vital_sign_bcast_stop (d : device) : device :=
  match vital_sign_timer (info d) with
  | Some _ => upd_info (set_vital_sign_timer None) d
  | None => d
  end.

(** [device_info_disable].  The socket is released with [os_free] on the
    [espconn] only: neither is [proto.udp] freed nor the connection
    deleted, so a socket that owns an [esp_udp] block goes to
    [leaked_sockets]. *)
Definition device_info_disable (d : device) : device :=
  let d1 := vital_sign_bcast_stop d in
  match udp_com_socket (info d1) with
  | Some s =>
      let d2 := upd_info (set_udp_com_socket None) d1 in
      match proto_udp s with
      | Some _ => set_leaked_sockets (leaked_sockets d2 ++ [s]) d2
      | None => d2
      end
  | None => d1
  end.

(** [vital_sign_broadcast] writes through [udp_com_socket->proto.udp]: with
    a null pointer on that path the store faults ([None]).  It changes no
    variable of the program. *)
Definition vital_sign_broadcast (d : device) : option device :=
  let op_mode := wifi_opmode (wifi d) mod 256 in
  if (op_mode =? SOFTAP_MODE) || (op_mode =? STATION_MODE)
     || (op_mode =? STATIONAP_MODE) then
    match udp_com_socket (info d) with
    | Some s => match proto_udp s with Some _ => Some d | None => None end
    | None => None
    end
  else Some d.

Definition vital_sign_bcast_start (env : sdk_env) (d : device) : device :=
  match udp_com_socket (info d) with
  | None => d
  | Some _ =>
      let d1 :=
        match vital_sign_timer (info d) with
        | Some _ => d
        | None =>
            upd_info (set_vital_sign_timer
              (if zalloc_vital_sign_timer env
               then Some os_zalloc_timer else None)) d
        end in
      match vital_sign_timer (info d1) with
      | None => d1
      | Some t =>
          upd_info (set_vital_sign_timer
            (Some (os_timer_arm (VITAL_SIGN_TIME_INTERVAL cfg) true
                     (os_timer_setfn (Some Vital_sign_broadcast)
                        (os_timer_disarm t))))) d1
      end
  end.

(** [device_info_init].  When [proto.udp] cannot be allocated the function
    calls [device_info_disable], which nulls [udp_com_socket], and then
    stores through that pointer: the fault is [None]. *)
Definition device_info_init (env : sdk_env) (d : device) : option device :=
  let socket :=
    match udp_com_socket (info d) with
    | Some s => Some s
    | None =>
        if zalloc_udp_com_socket env
        then Some {| proto_udp := None; recv_cb_registered := false |}
        else None
    end in
  match socket with
  | None => Some d
  | Some s =>
      if ptr_true (proto_udp s) || zalloc_proto_udp env then
        Some (upd_info (set_udp_com_socket
                (Some {| proto_udp := Some DEVICE_COM_PORT;
                         recv_cb_registered :=
                           if espconn_create_ok env then true
                           else recv_cb_registered s |})) d)
      else None
  end.

(** ** [user_main.c] *)

(** The status LED is wired in reverse logic: the pin is driven high to
    switch it off. *)
Definition status_led_on : device -> device :=
  upd_gpio (gpio_output_set 0 (BIT STATUS_LED_GPIO) (BIT STATUS_LED_GPIO) 0).

Definition status_led_off : device -> device :=
  upd_gpio (gpio_output_set (BIT STATUS_LED_GPIO) 0 (BIT STATUS_LED_GPIO) 0).

Definition output_power_on : device -> device :=
  upd_gpio (gpio_output_set (BIT OUTPUT_POWER_RELAY_GPIO) 0
                            (BIT OUTPUT_POWER_RELAY_GPIO) 0).

Definition output_power_off : device -> device :=
  upd_gpio (gpio_output_set 0 (BIT OUTPUT_POWER_RELAY_GPIO)
                            (BIT OUTPUT_POWER_RELAY_GPIO) 0).

Definition router_disable_cb (env : sdk_env) (d : device) : device :=
  let d1 := device_info_disable d in
  let d2 := wifi_station_disconnect d1 in
  let d3 := fst (wifi_set_opmode env NULL_MODE d2) in
  let d4 := wifi_set_event_handler_cb false d3 in
  let d5 :=
    match led_blink_timer (main d4) with
    | Some _ => upd_main (set_led_blink_timer None) d4
    | None => d4
    end in
  let d6 :=
    match router_conn_timeout_wdt (main d5) with
    | Some _ => upd_main (set_router_conn_timeout_wdt None) d5
    | None => d5
    end in
  let d7 := status_led_off d6 in
  let d8 := upd_gpio (ets_gpio_intr false) d7 in
  let d9 := upd_gpio (gpio_status_w1tc (BIT BUTTON_INTERRUPT_GPIO)) d8 in
  upd_gpio (ets_gpio_intr true) d9.

Definition router_conn_timeout_wdtfunc (env : sdk_env) (d : device) : device :=
  if negb (is_connected d) then router_disable_cb env d else d.

Definition led_blink_timerfunc (d : device) : device :=
  if Z.land (gpio_out (gpio d)) (BIT STATUS_LED_GPIO) =? 0
  then status_led_off d
  else status_led_on d.

(** [esptouch_over_timerfunc(timer)], where [timer] is the poll timer at
    position [i] of [esptouch_wait_timers].  Arming the watchdog goes
    through [router_conn_timeout_wdt] without a null test: with a null
    handle the access faults ([None]). *)
Definition esptouch_over_timerfunc (i : nat) (env : sdk_env) (d : device)
  : option device :=
  if negb (esptouch_is_running d) then
    let d1 := upd_main (set_esptouch_wait_timers
                (delete i (esptouch_wait_timers (main d)))) d in
    if esptouch_was_successful d1 then
      let d2 :=
        match led_blink_timer (main d1) with
        | Some _ => upd_main (set_led_blink_timer None) d1
        | None => d1
        end in
      let d3 := status_led_on d2 in
      match router_conn_timeout_wdt (main d3) with
      | None => None
      | Some t =>
          let d4 := upd_main (set_router_conn_timeout_wdt
                      (Some (os_timer_arm (ROUTER_CONN_TIMEOUT_WDT_INTERVAL cfg) true
                               (os_timer_setfn (Some Router_conn_timeout_wdtfunc)
                                  (os_timer_disarm t))))) d3 in
          match device_info_init env d4 with
          | Some d5 => Some (vital_sign_bcast_start env d5)
          | None => None
          end
      end
    else Some (router_disable_cb env d1)
  else Some d.

Definition router_enable (env : sdk_env) (d : device) : device * bool :=
  let d1 :=
    match led_blink_timer (main d) with
    | Some _ => d
    | None =>
        if zalloc_led_blink_timer env then
          upd_main (set_led_blink_timer
            (Some (os_timer_arm (LED_BLINK_INTERVAL cfg) true
                     (os_timer_setfn (Some Led_blink_timerfunc)
                        (os_timer_disarm os_zalloc_timer))))) d
        else d
    end in
  let d2 :=
    match router_conn_timeout_wdt (main d1) with
    | Some _ => d1
    | None =>
        upd_main (set_router_conn_timeout_wdt
          (if zalloc_router_conn_timeout_wdt env
           then Some os_zalloc_timer else None)) d1
    end in
  if ptr_true (router_conn_timeout_wdt (main d2))
     && zalloc_esptouch_wait_timer env then
    let d3 := upd_main (set_esptouch_wait_timers
                (esptouch_wait_timers (main d2) ++
                 [ os_timer_arm 500 true
                     (os_timer_setfn (Some Esptouch_over_timerfunc)
                        (os_timer_disarm os_zalloc_timer)) ])) d2 in
    let d4 := router_init d3 in
    let d5 := esptouch_init env d4 in
    (d5, true)
  else (router_disable_cb env d2, false).

Definition button_actuated_interrupt_handler (env : sdk_env) (d : device)
  : device :=
  let d1 := upd_gpio (ets_gpio_intr false) d in
  fst (router_enable env d1).

Definition gpio_pins_init (d : device) : device :=
  let d1 := status_led_off d in
  let d2 := output_power_on d1 in
  let d3 := upd_gpio (gpio_output_set 0 0 0 (BIT BUTTON_INTERRUPT_GPIO)) d2 in
  let d4 := upd_gpio (ets_gpio_intr false) d3 in
  let d5 := upd_gpio (gpio_status_w1tc (BIT BUTTON_INTERRUPT_GPIO)) d4 in
  upd_gpio (ets_gpio_intr true) d5.

Definition user_init (env : sdk_env) (d : device) : device :=
  let d1 := wifi_station_disconnect d in
  let d2 := fst (wifi_set_opmode env NULL_MODE d1) in
  let d3 := wifi_set_event_handler_cb false d2 in
  gpio_pins_init d3.

(** The device after reset, before [user_init]: the variables hold their
    initialisers, the GPIO registers and the stored operation mode are
    whatever the hardware holds, and the GPIO interrupt is not enabled
    yet. *)
Definition power_on (g : gpio_regs) (opmode : Z) : device :=
  {| main := {| led_blink_timer := None; router_conn_timeout_wdt := None;
                esptouch_wait_timers := [] |};
     touch := {| esptouch_func :=
                   {| esptouch_start_cb_set := false;
                      esptouch_fail_cb_set := false;
                      esptouch_suc_cb_set := false |};
                 esptouch_running := false; esptouch_success := false;
                 esptouch_attempt_count := 1;
                 esptouch_timeout_timer := None |};
     info := {| udp_com_socket := None; vital_sign_timer := None |};
     router_connected := false;
     ip_portmap_table := None;
     orphan_timers := [];
     leaked_sockets := [];
     gpio := ets_gpio_intr false g;
     wifi := {| wifi_opmode := opmode; wifi_station_active := false;
                wifi_event_handler := false; smartconfig_active := false |} |}.

(** ** Events *)

(** The timers on the SDK's list, named by the handle that owns them. *)
Inductive timer_handle :=
  | LED_BLINK_TIMER
  | ROUTER_CONN_TIMEOUT_WDT
  | ESPTOUCH_WAIT_TIMER (i : nat)
  | ESPTOUCH_TIMEOUT_TIMER
  | ORPHAN_TIMER (i : nat)
  | VITAL_SIGN_TIMER.

Inductive event :=
  | Button_edge
  | Timer_expired (h : timer_handle)
  | Smartconfig_status (s : sc_status)
  | Wifi_event (e : System_Event_t).

Definition get_timer (h : timer_handle) (d : device) : option os_timer_t :=
  match h with
  | LED_BLINK_TIMER => led_blink_timer (main d)
  | ROUTER_CONN_TIMEOUT_WDT => router_conn_timeout_wdt (main d)
  | ESPTOUCH_WAIT_TIMER i => esptouch_wait_timers (main d) !! i
  | ESPTOUCH_TIMEOUT_TIMER => esptouch_timeout_timer (touch d)
  | ORPHAN_TIMER i => orphan_timers d !! i
  | VITAL_SIGN_TIMER => vital_sign_timer (info d)
  end.

Definition put_timer (h : timer_handle) (t : os_timer_t) (d : device) : device :=
  match h with
  | LED_BLINK_TIMER => upd_main (set_led_blink_timer (Some t)) d
  | ROUTER_CONN_TIMEOUT_WDT => upd_main (set_router_conn_timeout_wdt (Some t)) d
  | ESPTOUCH_WAIT_TIMER i =>
      upd_main (set_esptouch_wait_timers (<[i := t]> (esptouch_wait_timers (main d)))) d
  | ESPTOUCH_TIMEOUT_TIMER => upd_touch (set_esptouch_timeout_timer (Some t)) d
  | ORPHAN_TIMER i => set_orphan_timers (<[i := t]> (orphan_timers d)) d
  | VITAL_SIGN_TIMER => upd_info (set_vital_sign_timer (Some t)) d
  end.

(** A one-shot timer leaves the timer list when it fires. *)
Definition timer_fired (t : os_timer_t) : os_timer_t :=
  if timer_repeat t then t else os_timer_disarm t.

(** The call of a timer's function.  [Esptouch_over_timerfunc] is only ever
    registered on a poll timer, with that timer as its argument. *)
Definition run_timer_func (f : os_timer_func_t) (h : timer_handle)
    (env : sdk_env) (d : device) : option device :=
  match f with
  | Led_blink_timerfunc => Some (led_blink_timerfunc d)
  | Router_conn_timeout_wdtfunc => Some (router_conn_timeout_wdtfunc env d)
  | Esptouch_over_timerfunc =>
      match h with
      | ESPTOUCH_WAIT_TIMER i => esptouch_over_timerfunc i env d
      | _ => None
      end
  | Esptouch_fail_cb => Some (esptouch_fail_cb d)
  | Vital_sign_broadcast => vital_sign_broadcast d
  end.

(** One event delivered to the device.  An event that the hardware or the
    SDK does not deliver (interrupt disabled, timer not armed, no callback
    registered) leaves the device as it is; [None] is a fault. *)
Definition step (e : event) (env : sdk_env) (d : device) : option device :=
  match e with
  | Button_edge =>
      let d1 := upd_gpio (gpio_latch_edge BUTTON_INTERRUPT_GPIO) d in
      if gpio_intr_enabled (gpio d1)
      then Some (button_actuated_interrupt_handler env d1)
      else Some d1
  | Timer_expired h =>
      match get_timer h d with
      | Some t =>
          if timer_armed t then
            match timer_func t with
            | Some f => run_timer_func f h env (put_timer h (timer_fired t) d)
            | None => None
            end
          else Some d
      | None => Some d
      end
  | Smartconfig_status s =>
      if smartconfig_active (wifi d)
      then Some (esptouch_status_cb s env d)
      else Some d
  | Wifi_event evt =>
      if wifi_event_handler (wifi d)
      then Some (wifi_handle_event_cb evt env d)
      else Some d
  end.

Fixpoint run (evs : list (event * sdk_env)) (d : device) : option device :=
  match evs with
  | [] => Some d
  | (e, env) :: rest =>
      match step e env d with
      | Some d' => run rest d'
      | None => None
      end
  end.

(** The states the device can be in: after [user_init], then after any
    events. *)
Inductive reachable : device -> Prop :=
  | reachable_boot g opmode env :
      reachable (user_init env (power_on g opmode))
  | reachable_step d e env d' :
      reachable d -> step e env d = Some d' -> reachable d'.

(** ** The lifecycle, read off the resources *)

Inductive lifecycle_state := Idle | Provisioning | Routing.

(** Provisioning lasts while a poll timer of [router_enable] is alive;
    routing while the connection watchdog is armed. *)
Definition lifecycle (d : device) : lifecycle_state :=
  match esptouch_wait_timers (main d) with
  | _ :: _ => Provisioning
  | [] =>
      if handle_armed (router_conn_timeout_wdt (main d))
      then Routing else Idle
  end.

(** The LED is off when its pin is driven high. *)
Definition status_led_is_off (d : device) : bool :=
  Z.testbit (gpio_out (gpio d)) STATUS_LED_GPIO.

(** The relay output. *)
Definition output_power (d : device) : bool :=
  Z.testbit (gpio_out (gpio d)) OUTPUT_POWER_RELAY_GPIO.

End Program.

(** ** Sample configurations and states *)

Definition slot_mqtt : portmap_slot := PORTMAP_1 shipped_config.

Definition slot_http : portmap_slot :=
  {| PORTMAP_ENABLE := 1; PORTMAP_PROTO := 6; PORTMAP_MPORT := 8080;
     PORTMAP_DADDR := Some "192.168.13.38"%string;
     PORTMAP_DPORT := 80; PORTMAP_DIR := 1 |}.

(** Enabled, but without a mapping port. *)
Definition slot_no_mport : portmap_slot :=
  {| PORTMAP_ENABLE := 1; PORTMAP_PROTO := 6; PORTMAP_MPORT := 0;
     PORTMAP_DADDR := Some "192.168.13.39"%string;
     PORTMAP_DPORT := 80; PORTMAP_DIR := 1 |}.

(** The shipped configuration with other rules in slots 1 to 3. *)
Definition config_with_slots (s1 s2 s3 : portmap_slot) : user_config :=
  {| WIFI_AP_SSID_PREFIX := WIFI_AP_SSID_PREFIX shipped_config;
     WIFI_AP_PASSWORD := WIFI_AP_PASSWORD shipped_config;
     MAX_CLIENTS := MAX_CLIENTS shipped_config;
     WIFI_AP_OPEN := WIFI_AP_OPEN shipped_config;
     WIFI_AP_HIDDEN := WIFI_AP_HIDDEN shipped_config;
     WIFI_AP_NETWORK_ADDR := WIFI_AP_NETWORK_ADDR shipped_config;
     WIFI_AP_NETWORK_NETMASK := WIFI_AP_NETWORK_NETMASK shipped_config;
     WIFI_AP_NETWORK_GW := WIFI_AP_NETWORK_GW shipped_config;
     DHCP_START_ADDR := DHCP_START_ADDR shipped_config;
     DHCP_STOP_ADDR := DHCP_STOP_ADDR shipped_config;
     DNS_SERVER_IP := DNS_SERVER_IP shipped_config;
     PORTMAP_1 := s1;
     PORTMAP_2 := s2;
     PORTMAP_3 := s3;
     PORTMAP_4 := portmap_disabled;
     PORTMAP_5 := portmap_disabled;
     PORTMAP_6 := portmap_disabled;
     PORTMAP_7 := portmap_disabled;
     PORTMAP_8 := portmap_disabled;
     ROUTER_CONN_TIMEOUT_WDT_INTERVAL := ROUTER_CONN_TIMEOUT_WDT_INTERVAL shipped_config;
     LED_BLINK_INTERVAL := LED_BLINK_INTERVAL shipped_config;
     VITAL_SIGN_TIME_INTERVAL := VITAL_SIGN_TIME_INTERVAL shipped_config;
     ESP_TOUCH_ATTEMPTS_LIMIT := ESP_TOUCH_ATTEMPTS_LIMIT shipped_config;
     ESP_TOUCH_CONFIG_TIMEOUT_THRESHOLD := ESP_TOUCH_CONFIG_TIMEOUT_THRESHOLD shipped_config;
     ESP_TOUCH_RECV_TIMEOUT_THRESHOLD := ESP_TOUCH_RECV_TIMEOUT_THRESHOLD shipped_config;
     ESP_TOUCH_CONNECTION_TIMEOUT_THRESHOLD := ESP_TOUCH_CONNECTION_TIMEOUT_THRESHOLD shipped_config |}.

(** A table of four entries, the second and the fourth installed. *)
Definition sample_table : list portmap_table :=
  [ {| valid := 0; proto := 17; maddr := 5; mport := 53; daddr := 7;
       dport := 53; dir := 1 |};
    {| valid := 1; proto := 6; maddr := 0; mport := 8883; daddr := 9;
       dport := 8883; dir := 2 |};
    {| valid := 0; proto := 0; maddr := 0; mport := 0; daddr := 0;
       dport := 0; dir := 0 |};
    {| valid := 1; proto := 6; maddr := 3; mport := 80; daddr := 11;
       dport := 8080; dir := 1 |} ].

Definition gpio_reset : gpio_regs :=
  {| gpio_out := 0; gpio_enable := 0; gpio_status := 0;
     gpio_intr_enabled := false |}.

(** The device after [user_init]. *)
Definition booted : device := user_init env_ok (power_on gpio_reset NULL_MODE).

(** ** Vocabulary of the properties *)

(** The functions of [esp_touch.c] keep to their own variables, the WiFi
    stack and the timer list. *)
Definition esp_touch_frame (d d' : device) : Prop :=
  main d' = main d /\ info d' = info d
  /\ router_connected d' = router_connected d
  /\ ip_portmap_table d' = ip_portmap_table d /\ gpio d' = gpio d.

(** The provisioning session as its callers see it: [esptouch_running],
    [esptouch_success] and [esptouch_attempt_count]. *)
Definition session_flags (d : device) : bool * bool * Z :=
  (esptouch_running (touch d), esptouch_success (touch d),
   esptouch_attempt_count (touch d)).

(** What one event can do to the session: nothing, start it
    ([esptouch_init]), retry after a timeout below the attempt limit
    ([esptouch_fail_cb]), stop it without success ([esptouch_fail_cb] at the
    limit, [esptouch_disable]), or end it with success
    ([esptouch_success_cb]). *)
Inductive session_step (limit : Z) : bool * bool * Z -> bool * bool * Z -> Prop :=
  | session_stay f : session_step limit f f
  | session_init r s c : session_step limit (r, s, c) (true, false, 1)
  | session_retry r s c :
      c < limit -> session_step limit (r, s, c) (r, s, (c + 1) mod 256)
  | session_stop r s c : session_step limit (r, s, c) (false, s, c)
  | session_success r s c : session_step limit (r, s, c) (false, true, c).

(** A timer that, when it fires, runs [f] (or was never given a function). *)
Definition timer_runs (f : os_timer_func_t) (t : os_timer_t) : Prop :=
  timer_func t = None \/ timer_func t = Some f.

Definition handle_runs (f : os_timer_func_t) (h : option os_timer_t) : Prop :=
  forall t, h = Some t -> timer_runs f t.

(** The resource discipline of the lifecycle controller. *)
Record lifecycle_inv (d : device) : Prop := {
  inv_idle :
    gpio_intr_enabled (gpio d) = true ->
    esptouch_wait_timers (main d) = []
    /\ router_conn_timeout_wdt (main d) = None;
  inv_routing :
    handle_armed (router_conn_timeout_wdt (main d)) = true ->
    esptouch_wait_timers (main d) = [];
  inv_one_poll : (length (esptouch_wait_timers (main d)) <= 1)%nat;
  inv_led_func : handle_runs Led_blink_timerfunc (led_blink_timer (main d));
  inv_wdt_func :
    handle_runs Router_conn_timeout_wdtfunc (router_conn_timeout_wdt (main d));
  inv_poll_func :
    Forall (timer_runs Esptouch_over_timerfunc) (esptouch_wait_timers (main d));
  inv_timeout_func :
    handle_runs Esptouch_fail_cb (esptouch_timeout_timer (touch d));
  inv_orphan_func : Forall (timer_runs Esptouch_fail_cb) (orphan_timers d);
  inv_vital_func : handle_runs Vital_sign_broadcast (vital_sign_timer (info d))
}.

(** The timeout timer as [esptouch_init] and every retry leave it: armed
    once for the configuration threshold, with [esptouch_fail_cb]. *)
Definition timeout_timer_armed (cfg : user_config) : os_timer_t :=
  {| timer_armed := true; timer_func := Some Esptouch_fail_cb;
     timer_period := ESP_TOUCH_CONFIG_TIMEOUT_THRESHOLD cfg;
     timer_repeat := false |}.

(** The poll timer as [router_enable] arms it. *)
Definition poll_timer_armed : os_timer_t :=
  {| timer_armed := true; timer_func := Some Esptouch_over_timerfunc;
     timer_period := 500; timer_repeat := true |}.

(** Provisioning is in its [k]-th attempt, waiting for the configuration. *)
Definition attempting (cfg : user_config) (k : Z) (d : device) : Prop :=
  touch d
  = {| esptouch_func := {| esptouch_start_cb_set := true;
                           esptouch_fail_cb_set := true;
                           esptouch_suc_cb_set := true |};
       esptouch_running := true; esptouch_success := false;
       esptouch_attempt_count := k;
       esptouch_timeout_timer := Some (timeout_timer_armed cfg) |}
  /\ esptouch_wait_timers (main d) = [poll_timer_armed].

(** Provisioning gave up after [k] attempts; the poll timer has not yet
    looked. *)
Definition gave_up (k : Z) (d : device) : Prop :=
  touch d
  = {| esptouch_func := {| esptouch_start_cb_set := true;
                           esptouch_fail_cb_set := true;
                           esptouch_suc_cb_set := true |};
       esptouch_running := false; esptouch_success := false;
       esptouch_attempt_count := k;
       esptouch_timeout_timer := None |}
  /\ esptouch_wait_timers (main d) = [poll_timer_armed].

(** The events of [n] timeouts in a row. *)
Definition timeouts (envs : list sdk_env) : list (event * sdk_env) :=
  map (fun env => (Timer_expired ESPTOUCH_TIMEOUT_TIMER, env)) envs.

(** The events of button edges in a row. *)
Definition button_edges (envs : list sdk_env) : list (event * sdk_env) :=
  map (fun env => (Button_edge, env)) envs.

(** The shipped program, on the engine that accepts every rule, after some
    events from boot. *)
Definition after (evs : list (event * sdk_env)) : device :=
  default booted (@run lwip_appending shipped_config evs booted).

Definition provisioning_device : device := after [(Button_edge, env_ok)].

Definition linked_device : device :=
  after [(Button_edge, env_ok);
         (Smartconfig_status SC_STATUS_LINK_OVER, env_ok)].

Definition routing_device : device :=
  after [(Button_edge, env_ok);
         (Smartconfig_status SC_STATUS_LINK_OVER, env_ok);
         (Timer_expired (ESPTOUCH_WAIT_TIMER 0), env_ok)].

(** ** The phases of the device *)

(** The blink timer as [router_enable] arms it. *)
Definition led_blink_timer_armed (cfg : user_config) : os_timer_t :=
  {| timer_armed := true; timer_func := Some Led_blink_timerfunc;
     timer_period := LED_BLINK_INTERVAL cfg; timer_repeat := true |}.

(** The watchdog as [esptouch_over_timerfunc] arms it. *)
Definition watchdog_armed (cfg : user_config) : os_timer_t :=
  {| timer_armed := true; timer_func := Some Router_conn_timeout_wdtfunc;
     timer_period := ROUTER_CONN_TIMEOUT_WDT_INTERVAL cfg;
     timer_repeat := true |}.

(** The vital-sign timer as [vital_sign_bcast_start] arms it. *)
Definition vital_sign_timer_armed (cfg : user_config) : os_timer_t :=
  {| timer_armed := true; timer_func := Some Vital_sign_broadcast;
     timer_period := VITAL_SIGN_TIME_INTERVAL cfg; timer_repeat := true |}.

(** A timeout handle is null or points to a timer armed once with
    [esptouch_fail_cb]. *)
Definition timeout_timer_live (h : option os_timer_t) : Prop :=
  match h with
  | None => True
  | Some t =>
      timer_armed t = true /\ timer_func t = Some Esptouch_fail_cb
      /\ timer_repeat t = false
  end.

(** Nothing allocated, button interrupt enabled. *)
Definition phase_idle (d : device) : Prop :=
  gpio_intr_enabled (gpio d) = true
  /\ main d = {| led_blink_timer := None; router_conn_timeout_wdt := None;
                 esptouch_wait_timers := [] |}
  /\ info d = {| udp_com_socket := None; vital_sign_timer := None |}
  /\ esptouch_running (touch d) = false
  /\ esptouch_timeout_timer (touch d) = None
  /\ wifi_event_handler (wifi d) = false
  /\ status_led_is_off d = true.

(** Between [router_enable] and the poll that finds provisioning over. *)
Definition phase_provisioning (cfg : user_config) (d : device) : Prop :=
  gpio_intr_enabled (gpio d) = false
  /\ (led_blink_timer (main d) = None
      \/ led_blink_timer (main d) = Some (led_blink_timer_armed cfg))
  /\ router_conn_timeout_wdt (main d) = Some os_zalloc_timer
  /\ esptouch_wait_timers (main d) = [poll_timer_armed]
  /\ info d = {| udp_com_socket := None; vital_sign_timer := None |}
  /\ esptouch_func (touch d)
     = {| esptouch_start_cb_set := true; esptouch_fail_cb_set := true;
          esptouch_suc_cb_set := true |}
  /\ timeout_timer_live (esptouch_timeout_timer (touch d))
  /\ (esptouch_running (touch d) = false ->
      esptouch_timeout_timer (touch d) = None)
  /\ wifi_event_handler (wifi d) = true.

(** From the poll that armed the watchdog to the teardown. *)
Definition phase_routing (cfg : user_config) (d : device) : Prop :=
  gpio_intr_enabled (gpio d) = false
  /\ main d = {| led_blink_timer := None;
                 router_conn_timeout_wdt := Some (watchdog_armed cfg);
                 esptouch_wait_timers := [] |}
  /\ status_led_is_off d = false
  /\ esptouch_running (touch d) = false
  /\ esptouch_success (touch d) = true
  /\ esptouch_timeout_timer (touch d) = None
  /\ wifi_event_handler (wifi d) = true
  /\ match udp_com_socket (info d) with
     | None => vital_sign_timer (info d) = None
     | Some s =>
         proto_udp s = Some DEVICE_COM_PORT
         /\ (vital_sign_timer (info d) = None
             \/ vital_sign_timer (info d) = Some (vital_sign_timer_armed cfg))
     end.

(** The device is in one of the three phases, no timer was lost, and the
    relay is energized. *)
Record device_inv (cfg : user_config) (d : device) : Prop := {
  inv_phase : phase_idle d \/ phase_provisioning cfg d \/ phase_routing cfg d;
  inv_no_orphan : orphan_timers d = [];
  inv_relay : output_power d = true
}.

(** No slot of the shipped configuration enabled. *)
Definition config_no_rule : user_config :=
  config_with_slots portmap_disabled portmap_disabled portmap_disabled.

(** Every SDK call succeeds but no memory is left for [proto.udp]. *)
Definition env_no_proto_udp : sdk_env :=
  {| wifi_set_opmode_ok := true;
     zalloc_led_blink_timer := true;
     zalloc_router_conn_timeout_wdt := true;
     zalloc_esptouch_wait_timer := true;
     zalloc_esptouch_timeout_timer := true;
     zalloc_udp_com_socket := true;
     zalloc_proto_udp := false;
     zalloc_vital_sign_timer := true;
     espconn_create_ok := true;
     wifi_station_set_config_ok := true;
     wifi_get_macaddr_ok := true;
     softap_macstr := "5c:cf:7f:00:00:01";
     wifi_softap_set_config_ok := true;
     wifi_softap_dhcps_stop_ok := true;
     wifi_set_ip_info_ok := true;
     wifi_softap_set_dhcps_lease_ok := true;
     wifi_softap_dhcps_start_ok := true |}.

(** No memory at all, and the station configuration is refused. *)
Definition env_out_of_memory : sdk_env :=
  {| wifi_set_opmode_ok := true;
     zalloc_led_blink_timer := false;
     zalloc_router_conn_timeout_wdt := false;
     zalloc_esptouch_wait_timer := false;
     zalloc_esptouch_timeout_timer := false;
     zalloc_udp_com_socket := false;
     zalloc_proto_udp := false;
     zalloc_vital_sign_timer := false;
     espconn_create_ok := false;
     wifi_station_set_config_ok := false;
     wifi_get_macaddr_ok := true;
     softap_macstr := "5c:cf:7f:00:00:01";
     wifi_softap_set_config_ok := true;
     wifi_softap_dhcps_stop_ok := true;
     wifi_set_ip_info_ok := true;
     wifi_softap_set_dhcps_lease_ok := true;
     wifi_softap_dhcps_start_ok := true |}.

(** The first two blocks of [router_enable]: the device after the blink
    timer and the watchdog handle have been seen to. *)
Definition router_enable_allocated (cfg : user_config) (env : sdk_env)
    (d : device) : device :=
  let d1 :=
    match led_blink_timer (main d) with
    | Some _ => d
    | None =>
        if zalloc_led_blink_timer env then
          upd_main (set_led_blink_timer
            (Some (os_timer_arm (LED_BLINK_INTERVAL cfg) true
                     (os_timer_setfn (Some Led_blink_timerfunc)
                        (os_timer_disarm os_zalloc_timer))))) d
        else d
    end in
  match router_conn_timeout_wdt (main d1) with
  | Some _ => d1
  | None =>
      upd_main (set_router_conn_timeout_wdt
        (if zalloc_router_conn_timeout_wdt env
         then Some os_zalloc_timer else None)) d1
  end.

(** The shipped configuration with an attempt limit that no byte reaches. *)
Definition config_many_attempts : user_config :=
  {| WIFI_AP_SSID_PREFIX := WIFI_AP_SSID_PREFIX shipped_config;
     WIFI_AP_PASSWORD := WIFI_AP_PASSWORD shipped_config;
     MAX_CLIENTS := MAX_CLIENTS shipped_config;
     WIFI_AP_OPEN := WIFI_AP_OPEN shipped_config;
     WIFI_AP_HIDDEN := WIFI_AP_HIDDEN shipped_config;
     WIFI_AP_NETWORK_ADDR := WIFI_AP_NETWORK_ADDR shipped_config;
     WIFI_AP_NETWORK_NETMASK := WIFI_AP_NETWORK_NETMASK shipped_config;
     WIFI_AP_NETWORK_GW := WIFI_AP_NETWORK_GW shipped_config;
     DHCP_START_ADDR := DHCP_START_ADDR shipped_config;
     DHCP_STOP_ADDR := DHCP_STOP_ADDR shipped_config;
     DNS_SERVER_IP := DNS_SERVER_IP shipped_config;
     PORTMAP_1 := PORTMAP_1 shipped_config;
     PORTMAP_2 := portmap_disabled;
     PORTMAP_3 := portmap_disabled;
     PORTMAP_4 := portmap_disabled;
     PORTMAP_5 := portmap_disabled;
     PORTMAP_6 := portmap_disabled;
     PORTMAP_7 := portmap_disabled;
     PORTMAP_8 := portmap_disabled;
     ROUTER_CONN_TIMEOUT_WDT_INTERVAL := ROUTER_CONN_TIMEOUT_WDT_INTERVAL shipped_config;
     LED_BLINK_INTERVAL := LED_BLINK_INTERVAL shipped_config;
     VITAL_SIGN_TIME_INTERVAL := VITAL_SIGN_TIME_INTERVAL shipped_config;
     ESP_TOUCH_ATTEMPTS_LIMIT := 300;
     ESP_TOUCH_CONFIG_TIMEOUT_THRESHOLD := ESP_TOUCH_CONFIG_TIMEOUT_THRESHOLD shipped_config;
     ESP_TOUCH_RECV_TIMEOUT_THRESHOLD := ESP_TOUCH_RECV_TIMEOUT_THRESHOLD shipped_config;
     ESP_TOUCH_CONNECTION_TIMEOUT_THRESHOLD := ESP_TOUCH_CONNECTION_TIMEOUT_THRESHOLD shipped_config |}.

(** That program after the button was pressed. *)
Definition patient_device : device :=
  default booted
    (@run lwip_appending config_many_attempts [(Button_edge, env_ok)] booted).


(** * Properties *)

(** ** The port-map table *)

Section PortMap.

Context {lw : lwip_napt}.

(** Every call [portmap_load] makes comes from an enabled, complete slot of
    its list and carries that slot's fields. *)
Lemma portmap_load_call_origin slots table c :
  In c (load_calls (portmap_load slots table)) ->
  exists s, In (call_slot c, s) slots
    /\ portmap_slot_loadable s = true
    /\ call_proto c = PORTMAP_PROTO s /\ call_mport c = PORTMAP_MPORT s
    /\ call_dport c = PORTMAP_DPORT s /\ call_dir c = PORTMAP_DIR s
    /\ call_maddr c = 0.
Proof.
  revert table.
  induction slots as [|[n s] rest IH]; intros table; simpl; [intros []|].
  destruct (c_true (PORTMAP_ENABLE s)) eqn:Hen;
    [destruct (portmap_slot_complete s) eqn:Hco|].
  - destruct (ip_portmap_add _ _ _ _ _ _ _) as [table' r].
    destruct (c_true r).
    + specialize (IH table').
      destruct (portmap_load rest table') as [[t'' calls] ok].
      unfold load_calls in *; simpl in *.
      intros [<-|Hin].
      * exists s; simpl. unfold portmap_slot_loadable.
        rewrite Hen, Hco. auto 10.
      * destruct (IH Hin) as (s' & ? & ?). exists s'; auto.
    + unfold load_calls; simpl. intros [<-|[]].
      exists s; simpl. unfold portmap_slot_loadable.
      rewrite Hen, Hco. auto 10.
  - intros Hin. destruct (IH _ Hin) as (s' & ? & ?). exists s'; auto.
  - intros Hin. destruct (IH _ Hin) as (s' & ? & ?). exists s'; auto.
Qed.

(** The slot numbers of a list of blocks, in order. *)
Lemma portmap_slots_numbers cfg :
  map fst (portmap_slots cfg) = [1; 2; 3; 4; 5; 6; 7; 8]%nat.
Proof. reflexivity. Qed.

Lemma portmap_slots_functional cfg n s s' :
  In (n, s) (portmap_slots cfg) -> In (n, s') (portmap_slots cfg) -> s = s'.
Proof.
  unfold portmap_slots; simpl.
  intros H H'.
  repeat (destruct H as [H|H]; [inversion H; subst; clear H|]);
    try contradiction;
    repeat (destruct H' as [H'|H']; [inversion H'; subst; clear H'|]);
    try contradiction; reflexivity.
Qed.

(** A field that is zero makes the completeness test fail. *)
Lemma portmap_slot_incomplete s :
  PORTMAP_PROTO s = 0 \/ PORTMAP_MPORT s = 0 \/ PORTMAP_DADDR s = None
  \/ PORTMAP_DPORT s = 0 \/ PORTMAP_DIR s = 0 ->
  portmap_slot_complete s = false.
Proof.
  unfold portmap_slot_complete, c_true.
  intros [H|[H|[H|[H|H]]]]; rewrite H; simpl;
    rewrite ?andb_false_r; reflexivity.
Qed.

Lemma c_true_false z : c_true z = false <-> z = 0.
Proof. unfold c_true. destruct (Z.eqb_spec z 0); simpl; split; congruence. Qed.

Lemma c_true_true z : c_true z = true <-> z <> 0.
Proof. unfold c_true. destruct (Z.eqb_spec z 0); simpl; split; congruence. Qed.

(** [portmap_load] reports success exactly when none of its calls failed. *)
Lemma portmap_load_ok slots table :
  load_ok (portmap_load slots table) = true <->
  (forall c, In c (load_calls (portmap_load slots table)) -> call_result c <> 0).
Proof.
  revert table.
  induction slots as [|[n s] rest IH]; intros table; simpl.
  { unfold load_ok, load_calls; simpl. split; [intros _ c []|reflexivity]. }
  destruct (c_true (PORTMAP_ENABLE s)); [|apply IH].
  destruct (portmap_slot_complete s); [|apply IH].
  destruct (ip_portmap_add _ _ _ _ _ _ _) as [table' r].
  destruct (c_true r) eqn:Hr.
  - specialize (IH table').
    destruct (portmap_load rest table') as [[t'' calls] ok].
    unfold load_ok, load_calls in *; simpl in *.
    rewrite IH. apply c_true_true in Hr.
    split.
    + intros H c [<-|Hin]; [exact Hr|auto].
    + intros H c Hin. apply H. auto.
  - unfold load_ok, load_calls; simpl. apply c_true_false in Hr.
    split; [discriminate|].
    intros H. exfalso. apply (H _ (or_introl eq_refl)). exact Hr.
Qed.

Lemma sorted_slots_head (n : nat) (s : portmap_slot) rest :
  StronglySorted lt (map fst ((n, s) :: rest)) ->
  StronglySorted lt (map fst rest)
  /\ forall x s0, In (x, s0) rest -> (n < x)%nat.
Proof.
  intros H. apply StronglySorted_inv in H as [Hrest Hn].
  split; [exact Hrest|].
  intros x s0 Hin.
  apply (proj1 (List.Forall_forall _ _) Hn).
  change x with (fst (x, s0)). apply in_map. exact Hin.
Qed.

(** Over blocks numbered in ascending order a failed call is the last one:
    no call is made for a slot after it. *)
Lemma portmap_load_failure_last slots table c c' :
  StronglySorted lt (map fst slots) ->
  In c (load_calls (portmap_load slots table)) -> call_result c = 0 ->
  In c' (load_calls (portmap_load slots table)) ->
  (call_slot c' <= call_slot c)%nat.
Proof.
  intros Hsorted. revert table.
  induction slots as [|[n s] rest IH]; intros table; simpl; [intros []|].
  apply sorted_slots_head in Hsorted as [Hrest Hn].
  destruct (c_true (PORTMAP_ENABLE s)); [|apply IH; assumption].
  destruct (portmap_slot_complete s); [|apply IH; assumption].
  destruct (ip_portmap_add _ _ _ _ _ _ _) as [table' r].
  destruct (c_true r) eqn:Hr.
  - specialize (IH Hrest table').
    pose proof (portmap_load_call_origin rest table' c) as Horigin.
    destruct (portmap_load rest table') as [[t'' calls] ok].
    unfold load_calls in *; simpl in *.
    apply c_true_true in Hr.
    intros [<-|Hin] H0; simpl in *; [congruence|].
    intros [<-|Hin']; simpl; [|auto].
    destruct (Horigin Hin) as (s0 & Hs0 & _).
    specialize (Hn _ _ Hs0). lia.
  - unfold load_calls; simpl.
    intros [<-|[]] _ [<-|[]]. lia.
Qed.

(** Over blocks numbered in ascending order every loadable slot is tried
    unless a call for an earlier slot failed. *)
Lemma portmap_load_attempts slots table n s :
  StronglySorted lt (map fst slots) ->
  In (n, s) slots -> portmap_slot_loadable s = true ->
  (forall c, In c (load_calls (portmap_load slots table)) ->
             call_result c = 0 -> (n <= call_slot c)%nat) ->
  exists c, In c (load_calls (portmap_load slots table)) /\ call_slot c = n.
Proof.
  intros Hsorted. revert table.
  induction slots as [|[n1 s1] rest IH]; intros table; simpl; [intros []|].
  apply sorted_slots_head in Hsorted as [Hrest Hn].
  unfold portmap_slot_loadable.
  intros [Heq|Hin] Hload.
  - inversion Heq; subst; clear Heq.
    apply andb_true_iff in Hload as [-> ->].
    destruct (ip_portmap_add _ _ _ _ _ _ _) as [table' r].
    destruct (c_true r).
    + destruct (portmap_load rest table') as [[t'' calls] ok].
      unfold load_calls; simpl. intros _.
      eexists; split; [left; reflexivity|reflexivity].
    + unfold load_calls; simpl. intros _.
      eexists; split; [left; reflexivity|reflexivity].
  - pose proof (Hn _ _ Hin) as Hlt.
    destruct (c_true (PORTMAP_ENABLE s1)); [|apply IH; assumption].
    destruct (portmap_slot_complete s1); [|apply IH; assumption].
    destruct (ip_portmap_add _ _ _ _ _ _ _) as [table' r].
    destruct (c_true r) eqn:Hr.
    + specialize (IH Hrest table' Hin Hload).
      destruct (portmap_load rest table') as [[t'' calls] ok].
      unfold load_calls in *; simpl in *.
      intros Hfail.
      destruct IH as (c & Hc & <-); [intros c Hc; apply Hfail; auto|].
      exists c; auto.
    + unfold load_calls; simpl. apply c_true_false in Hr.
      intros Hfail. exfalso.
      specialize (Hfail _ (or_introl eq_refl) Hr). simpl in Hfail. lia.
Qed.

Lemma portmap_slots_sorted cfg :
  StronglySorted lt (map fst (portmap_slots cfg)).
Proof.
  rewrite portmap_slots_numbers.
  repeat (constructor; [|repeat constructor; lia]). constructor.
Qed.

(** C6: a slot in which the protocol, the mapping port, the destination
    address, the destination port or the direction is zero is never handed
    to [ip_portmap_add] by [portmap_init], whatever its enable flag: no
    call of the load comes from that slot. *)
Theorem portmap_init_never_installs_incomplete_slot cfg table n s :
  In (n, s) (portmap_slots cfg) ->
  PORTMAP_PROTO s = 0 \/ PORTMAP_MPORT s = 0 \/ PORTMAP_DADDR s = None
  \/ PORTMAP_DPORT s = 0 \/ PORTMAP_DIR s = 0 ->
  forall c, In c (load_calls (portmap_init cfg table)) -> call_slot c <> n.
Proof.
  intros Hin Hzero c Hc Heq. subst n.
  apply portmap_load_call_origin in Hc as (s' & Hin' & Hload & _).
  rewrite (portmap_slots_functional _ _ _ _ Hin Hin') in Hzero.
  apply portmap_slot_incomplete in Hzero.
  unfold portmap_slot_loadable in Hload.
  rewrite Hzero, andb_false_r in Hload. discriminate.
Qed.

(** C1, as the code has it: [portmap_init] reports success exactly when no
    install failed; a failed install is the last call it makes, so no slot
    after it is tried; and every enabled, complete slot is tried unless the
    install of an earlier slot failed. *)
Theorem portmap_init_stops_at_first_failure cfg table :
  (load_ok (portmap_init cfg table) = true <->
   forall c, In c (load_calls (portmap_init cfg table)) -> call_result c <> 0)
  /\ (forall c c',
        In c (load_calls (portmap_init cfg table)) -> call_result c = 0 ->
        In c' (load_calls (portmap_init cfg table)) ->
        (call_slot c' <= call_slot c)%nat)
  /\ (forall n s,
        In (n, s) (portmap_slots cfg) -> portmap_slot_loadable s = true ->
        (forall c, In c (load_calls (portmap_init cfg table)) ->
                   call_result c = 0 -> (n <= call_slot c)%nat) ->
        exists c, In c (load_calls (portmap_init cfg table)) /\ call_slot c = n).
Proof.
  unfold portmap_init. split; [apply portmap_load_ok|]. split.
  - intros c c'. apply portmap_load_failure_last, portmap_slots_sorted.
  - intros n s. apply portmap_load_attempts, portmap_slots_sorted.
Qed.

(** The loop of [portmap_update], entry by entry. *)
Lemma portmap_update_loop_lookup new_addr k (tbl : list portmap_table) i :
  foldl (portmap_update_entry new_addr) tbl (seq 0 k) !! i =
  if decide (i < k)%nat
  then (fun e => if c_true (valid e) then set_maddr new_addr e else e) <$> tbl !! i
  else tbl !! i.
Proof.
  revert i. induction k as [|k IH]; intros i.
  - simpl. destruct (decide (i < 0)%nat); [lia|reflexivity].
  - rewrite seq_S, foldl_app. simpl.
    set (T := foldl (portmap_update_entry new_addr) tbl (seq 0 k)) in *.
    unfold portmap_update_entry.
    pose proof (IH k) as Hk.
    destruct (decide (k < k)%nat); [lia|].
    rewrite Hk.
    destruct (tbl !! k) as [e|] eqn:He.
    + destruct (c_true (valid e)) eqn:Hv.
      * destruct (decide (i = k)) as [->|Hne].
        -- rewrite list_lookup_insert_eq
             by (apply (lookup_lt_Some _ _ e); rewrite Hk; reflexivity).
           destruct (decide (k < S k)%nat); [|lia].
           rewrite He. simpl. rewrite Hv. reflexivity.
        -- rewrite list_lookup_insert_ne by congruence.
           rewrite IH.
           destruct (decide (i < k)%nat), (decide (i < S k)%nat);
             try lia; reflexivity.
      * rewrite IH.
        destruct (decide (i < k)%nat), (decide (i < S k)%nat);
          try lia; try reflexivity.
        assert (i = k) as -> by lia. rewrite He. simpl. rewrite Hv. reflexivity.
    + rewrite IH.
      destruct (decide (i < k)%nat), (decide (i < S k)%nat);
        try lia; try reflexivity.
      assert (i = k) as -> by lia. rewrite He. reflexivity.
Qed.

(** On a table of [IP_PORTMAP_MAX] entries the loop is a map. *)
Lemma portmap_update_loop_map new_addr (tbl : list portmap_table) :
  length tbl = IP_PORTMAP_MAX ->
  foldl (portmap_update_entry new_addr) tbl (seq 0 IP_PORTMAP_MAX) =
  (fun e => if c_true (valid e) then set_maddr new_addr e else e) <$> tbl.
Proof.
  intros Hlen. apply list_eq. intros i.
  rewrite portmap_update_loop_lookup, list_lookup_fmap.
  destruct (decide (i < IP_PORTMAP_MAX)%nat) as [|Hge]; [reflexivity|].
  rewrite lookup_ge_None_2 by lia. reflexivity.
Qed.

(** With a null address or before the engine has a table,
    [portmap_update] returns at once. *)
Lemma portmap_update_null_arguments station_ip_addr table :
  portmap_update None table = table
  /\ portmap_update station_ip_addr None = None.
Proof. split; [reflexivity|]. destruct station_ip_addr; reflexivity. Qed.

(** C5: on the table of the engine, [portmap_update] gives every installed
    (valid) rule the new address as its mapping address and changes
    nothing else: the other fields of every rule are kept, an entry that is
    not installed is kept whole, and the table keeps its length. *)
Theorem portmap_update_rewrites_only_maddr new_addr (tbl : list portmap_table) :
  length tbl = IP_PORTMAP_MAX ->
  exists tbl',
    portmap_update (Some new_addr) (Some tbl) = Some tbl'
    /\ length tbl' = length tbl
    /\ forall i e, tbl !! i = Some e ->
         exists e', tbl' !! i = Some e'
           /\ valid e' = valid e /\ proto e' = proto e /\ mport e' = mport e
           /\ daddr e' = daddr e /\ dport e' = dport e /\ dir e' = dir e
           /\ (valid e <> 0 -> maddr e' = new_addr)
           /\ (valid e = 0 -> e' = e).
Proof.
  intros Hlen. eexists. split; [reflexivity|].
  rewrite portmap_update_loop_map by exact Hlen.
  split; [apply length_fmap|].
  intros i e He. rewrite list_lookup_fmap, He. simpl.
  eexists; split; [reflexivity|].
  destruct (c_true (valid e)) eqn:Hv.
  - apply c_true_true in Hv. simpl. repeat split; congruence.
  - apply c_true_false in Hv. repeat split; congruence.
Qed.

End PortMap.

Lemma portmap_init_never_installs_incomplete_slot_witness :
  In (2%nat, slot_no_mport)
     (portmap_slots (config_with_slots slot_mqtt slot_no_mport slot_http))
  /\ (PORTMAP_PROTO slot_no_mport = 0 \/ PORTMAP_MPORT slot_no_mport = 0
      \/ PORTMAP_DADDR slot_no_mport = None
      \/ PORTMAP_DPORT slot_no_mport = 0 \/ PORTMAP_DIR slot_no_mport = 0)
  /\ forall c,
       In c (load_calls
               (@portmap_init lwip_appending
                  (config_with_slots slot_mqtt slot_no_mport slot_http) None)) ->
       call_slot c <> 2%nat.
Proof.
  assert (In (2%nat, slot_no_mport)
            (portmap_slots (config_with_slots slot_mqtt slot_no_mport slot_http)))
    as Hin by (simpl; auto).
  assert (PORTMAP_PROTO slot_no_mport = 0 \/ PORTMAP_MPORT slot_no_mport = 0
          \/ PORTMAP_DADDR slot_no_mport = None
          \/ PORTMAP_DPORT slot_no_mport = 0 \/ PORTMAP_DIR slot_no_mport = 0)
    as Hzero by (right; left; reflexivity).
  split; [exact Hin|]. split; [exact Hzero|].
  exact (@portmap_init_never_installs_incomplete_slot lwip_appending
           (config_with_slots slot_mqtt slot_no_mport slot_http) None
           2%nat slot_no_mport Hin Hzero).
Defined.

(** C1 as stated fails: with two enabled, complete slots and an engine whose
    table is full, the install of slot 1 fails and slot 2 is never tried. *)
Lemma portmap_init_abandons_later_slots :
  portmap_slot_loadable slot_mqtt = true
  /\ portmap_slot_loadable slot_http = true
  /\ In (2%nat, slot_http)
        (portmap_slots (config_with_slots slot_mqtt slot_http portmap_disabled))
  /\ (exists c,
        In c (load_calls
                (@portmap_init lwip_table_full
                   (config_with_slots slot_mqtt slot_http portmap_disabled) None))
        /\ call_slot c = 1%nat /\ call_result c = 0)
  /\ ~ (exists c,
          In c (load_calls
                  (@portmap_init lwip_table_full
                     (config_with_slots slot_mqtt slot_http portmap_disabled) None))
          /\ call_slot c = 2%nat).
Proof.
  split; [reflexivity|]. split; [reflexivity|].
  split; [simpl; auto|]. split.
  - eexists. split; [left; reflexivity|]. split; reflexivity.
  - intros (c & Hc & Hslot). simpl in Hc.
    destruct Hc as [<-|[]]. discriminate.
Qed.

Lemma portmap_update_rewrites_only_maddr_witness :
  length sample_table = @IP_PORTMAP_MAX lwip_appending
  /\ exists tbl',
       @portmap_update lwip_appending (Some 167772170) (Some sample_table)
       = Some tbl'
       /\ length tbl' = length sample_table
       /\ forall i e, sample_table !! i = Some e ->
            exists e', tbl' !! i = Some e'
              /\ valid e' = valid e /\ proto e' = proto e /\ mport e' = mport e
              /\ daddr e' = daddr e /\ dport e' = dport e /\ dir e' = dir e
              /\ (valid e <> 0 -> maddr e' = 167772170)
              /\ (valid e = 0 -> e' = e).
Proof.
  split; [reflexivity|].
  apply (@portmap_update_rewrites_only_maddr lwip_appending).
  reflexivity.
Defined.

(** ** The access-point subnet *)

Ltac bits_of_octets :=
  change 255 with (Z.ones 8); change 16777215 with (Z.ones 24);
  apply Z.bits_inj'; intros n Hn;
  repeat first
    [ rewrite Z.land_spec | rewrite Z.lor_spec
    | rewrite Z.shiftr_spec by lia | rewrite Z.shiftl_spec by lia
    | rewrite Z.testbit_ones by lia ];
  replace (n + 24 - 24) with n by lia;
  repeat match goal with
    | |- context [Z.leb ?a ?b] => destruct (Z.leb_spec a b)
    | |- context [Z.ltb ?a ?b] => destruct (Z.ltb_spec a b)
    end; try lia;
  simpl; rewrite ?andb_false_r, ?andb_true_r, ?orb_false_r; try reflexivity.

Lemma ip4_addr4_assigned a v : ip4_addr4 (ip4_addr4_assign a v) = Z.land v 255.
Proof. unfold ip4_addr4, ip4_addr4_assign. bits_of_octets. Qed.

Lemma ip4_addr1_assigned a v : ip4_addr1 (ip4_addr4_assign a v) = ip4_addr1 a.
Proof. unfold ip4_addr1, ip4_addr4_assign. bits_of_octets. Qed.

Lemma ip4_addr2_assigned a v : ip4_addr2 (ip4_addr4_assign a v) = ip4_addr2 a.
Proof. unfold ip4_addr2, ip4_addr4_assign. bits_of_octets. Qed.

Lemma ip4_addr3_assigned a v : ip4_addr3 (ip4_addr4_assign a v) = ip4_addr3 a.
Proof. unfold ip4_addr3, ip4_addr4_assign. bits_of_octets. Qed.

Section SoftAp.

Context {lw : lwip_napt}.
Variable cfg : user_config.

(** C8: once the DHCP server is stopped, [softap_network_config] hands
    [wifi_set_ip_info] exactly one address for the access point; its fourth
    octet is 1 and its first three octets are those of the configured
    [WIFI_AP_NETWORK_ADDR], whatever that address is. *)
Theorem softap_network_config_host_octet env :
  wifi_softap_dhcps_stop_ok env = true ->
  exists ip netmask gw,
    set_ip_info_calls (fst (softap_network_config cfg env))
      = [(SOFTAP_IF, ip, netmask, gw)]
    /\ ip4_addr4 ip = 1
    /\ ip4_addr1 ip = ip4_addr1 (ipaddr_addr (WIFI_AP_NETWORK_ADDR cfg))
    /\ ip4_addr2 ip = ip4_addr2 (ipaddr_addr (WIFI_AP_NETWORK_ADDR cfg))
    /\ ip4_addr3 ip = ip4_addr3 (ipaddr_addr (WIFI_AP_NETWORK_ADDR cfg)).
Proof.
  intros Hstop.
  exists (ip4_addr4_assign (ipaddr_addr (WIFI_AP_NETWORK_ADDR cfg)) 1),
         (ipaddr_addr (WIFI_AP_NETWORK_NETMASK cfg)),
         (ipaddr_addr (WIFI_AP_NETWORK_GW cfg)).
  split.
  - unfold softap_network_config. rewrite Hstop.
    destruct (wifi_set_ip_info_ok env), (wifi_softap_set_dhcps_lease_ok env),
      (wifi_softap_dhcps_start_ok env); reflexivity.
  - rewrite ip4_addr4_assigned, ip4_addr1_assigned, ip4_addr2_assigned,
      ip4_addr3_assigned. auto.
Qed.


End SoftAp.

Lemma softap_network_config_host_octet_witness :
  wifi_softap_dhcps_stop_ok env_ok = true
  /\ exists ip netmask gw,
       set_ip_info_calls (fst (@softap_network_config lwip_appending shipped_config env_ok))
         = [(SOFTAP_IF, ip, netmask, gw)]
       /\ ip4_addr4 ip = 1
       /\ ip4_addr1 ip
          = ip4_addr1 (@ipaddr_addr lwip_appending (WIFI_AP_NETWORK_ADDR shipped_config))
       /\ ip4_addr2 ip
          = ip4_addr2 (@ipaddr_addr lwip_appending (WIFI_AP_NETWORK_ADDR shipped_config))
       /\ ip4_addr3 ip
          = ip4_addr3 (@ipaddr_addr lwip_appending (WIFI_AP_NETWORK_ADDR shipped_config)).
Proof.
  split; [reflexivity|].
  apply (@softap_network_config_host_octet lwip_appending shipped_config env_ok).
  reflexivity.
Defined.

(** ** Teardown *)

Lemma testbit_BIT k n : 0 <= k -> Z.testbit (BIT k) n = (k =? n).
Proof.
  intros Hk. unfold BIT. rewrite Z.shiftl_1_l. apply Z.pow2_bits_eqb. exact Hk.
Qed.

Section Teardown.

Variable env : sdk_env.

Lemma router_disable_cb_main d :
  main (router_disable_cb env d)
  = {| led_blink_timer := None; router_conn_timeout_wdt := None;
       esptouch_wait_timers := esptouch_wait_timers (main d) |}.
Proof.
  unfold router_disable_cb, device_info_disable, vital_sign_bcast_stop,
    wifi_set_opmode.
  destruct d as [[lb wdt polls] t [sock vt] rc tbl orph leak g w]; simpl.
  destruct vt, sock as [[[?|] ?]|], (wifi_set_opmode_ok env), lb, wdt; reflexivity.
Qed.

Lemma router_disable_cb_info d :
  info (router_disable_cb env d)
  = {| udp_com_socket := None; vital_sign_timer := None |}.
Proof.
  unfold router_disable_cb, device_info_disable, vital_sign_bcast_stop,
    wifi_set_opmode.
  destruct d as [[lb wdt polls] t [sock vt] rc tbl orph leak g w]; simpl.
  destruct vt, sock as [[[?|] ?]|], (wifi_set_opmode_ok env), lb, wdt; reflexivity.
Qed.

Lemma router_disable_cb_gpio d :
  gpio (router_disable_cb env d)
  = {| gpio_out := Z.ldiff (Z.lor (gpio_out (gpio d)) (BIT STATUS_LED_GPIO)) 0;
       gpio_enable := Z.ldiff (Z.lor (gpio_enable (gpio d)) (BIT STATUS_LED_GPIO)) 0;
       gpio_status := Z.ldiff (gpio_status (gpio d)) (BIT BUTTON_INTERRUPT_GPIO);
       gpio_intr_enabled := true |}.
Proof.
  unfold router_disable_cb, device_info_disable, vital_sign_bcast_stop,
    wifi_set_opmode.
  destruct d as [[lb wdt polls] t [sock vt] rc tbl orph leak g w]; simpl.
  destruct vt, sock as [[[?|] ?]|], (wifi_set_opmode_ok env), lb, wdt; reflexivity.
Qed.

Lemma router_disable_cb_wifi d :
  wifi (router_disable_cb env d)
  = {| wifi_opmode := if wifi_set_opmode_ok env then NULL_MODE
                      else wifi_opmode (wifi d);
       wifi_station_active := false;
       wifi_event_handler := false;
       smartconfig_active := smartconfig_active (wifi d) |}.
Proof.
  unfold router_disable_cb, device_info_disable, vital_sign_bcast_stop,
    wifi_set_opmode.
  destruct d as [[lb wdt polls] t [sock vt] rc tbl orph leak g w]; simpl.
  destruct vt, sock as [[[?|] ?]|], (wifi_set_opmode_ok env), lb, wdt; reflexivity.
Qed.

Lemma router_disable_cb_frame d :
  touch (router_disable_cb env d) = touch d
  /\ router_connected (router_disable_cb env d) = router_connected d
  /\ ip_portmap_table (router_disable_cb env d) = ip_portmap_table d
  /\ orphan_timers (router_disable_cb env d) = orphan_timers d.
Proof.
  unfold router_disable_cb, device_info_disable, vital_sign_bcast_stop,
    wifi_set_opmode.
  destruct d as [[lb wdt polls] t [sock vt] rc tbl orph leak g w]; simpl.
  destruct vt, sock as [[[?|] ?]|], (wifi_set_opmode_ok env), lb, wdt; auto.
Qed.

(** The teardown leaves behind the [esp_udp] block of the socket it
    releases. *)
Lemma router_disable_cb_leaked d :
  leaked_sockets (router_disable_cb env d)
  = leaked_sockets d
    ++ match udp_com_socket (info d) with
       | Some s => if ptr_true (proto_udp s) then [s] else []
       | None => []
       end.
Proof.
  unfold router_disable_cb, device_info_disable, vital_sign_bcast_stop,
    wifi_set_opmode.
  destruct d as [[lb wdt polls] t [sock vt] rc tbl orph leak g w]; simpl.
  destruct vt, sock as [[[?|] ?]|], (wifi_set_opmode_ok env), lb, wdt;
    simpl; rewrite ?app_nil_r; reflexivity.
Qed.

End Teardown.

Lemma device_eq (d d' : device) :
  main d = main d' -> touch d = touch d' -> info d = info d' ->
  router_connected d = router_connected d' ->
  ip_portmap_table d = ip_portmap_table d' ->
  orphan_timers d = orphan_timers d' ->
  leaked_sockets d = leaked_sockets d' ->
  gpio d = gpio d' -> wifi d = wifi d' -> d = d'.
Proof. destruct d, d'; simpl; congruence. Qed.

Lemma ldiff_twice a b : Z.ldiff (Z.ldiff a b) b = Z.ldiff a b.
Proof.
  apply Z.bits_inj'. intros n _. rewrite !Z.ldiff_spec.
  destruct (Z.testbit a n), (Z.testbit b n); reflexivity.
Qed.

Lemma lor_twice a b : Z.lor (Z.lor a b) b = Z.lor a b.
Proof. rewrite <- Z.lor_assoc, Z.lor_diag. reflexivity. Qed.

(** What [router_disable_cb] leaves behind. *)
Lemma router_disable_cb_resources env d :
  led_blink_timer (main (router_disable_cb env d)) = None
  /\ router_conn_timeout_wdt (main (router_disable_cb env d)) = None
  /\ vital_sign_timer (info (router_disable_cb env d)) = None
  /\ status_led_is_off (router_disable_cb env d) = true
  /\ gpio_intr_enabled (gpio (router_disable_cb env d)) = true
  /\ Z.testbit (gpio_status (gpio (router_disable_cb env d)))
       BUTTON_INTERRUPT_GPIO = false.
Proof.
  unfold status_led_is_off.
  rewrite router_disable_cb_main, router_disable_cb_info,
    router_disable_cb_gpio.
  cbn [led_blink_timer router_conn_timeout_wdt vital_sign_timer
       gpio_out gpio_status gpio_intr_enabled].
  rewrite Z.ldiff_0_r, Z.lor_spec, Z.ldiff_spec, !testbit_BIT
    by (unfold STATUS_LED_GPIO, BUTTON_INTERRUPT_GPIO; lia).
  rewrite orb_true_r, andb_false_r. auto 10.
Qed.

(** C3: teardown is idempotent.  A second [router_disable_cb] leaves the
    device exactly as the first one did; whatever the SDK answers to the
    second call, the timers, the responder, the GPIO block and the
    provisioning variables are those left by the first; after one call the
    blink and watchdog handles are null, the status LED is off and the
    button interrupt is enabled with its latch cleared; and on handles that
    are already null the release steps change nothing. *)
Theorem router_disable_cb_idempotent env env' d :
  router_disable_cb env (router_disable_cb env d) = router_disable_cb env d
  /\ (main (router_disable_cb env' (router_disable_cb env d))
        = main (router_disable_cb env d)
      /\ info (router_disable_cb env' (router_disable_cb env d))
        = info (router_disable_cb env d)
      /\ gpio (router_disable_cb env' (router_disable_cb env d))
        = gpio (router_disable_cb env d)
      /\ touch (router_disable_cb env' (router_disable_cb env d))
        = touch (router_disable_cb env d))
  /\ (led_blink_timer (main (router_disable_cb env d)) = None
      /\ router_conn_timeout_wdt (main (router_disable_cb env d)) = None
      /\ vital_sign_timer (info (router_disable_cb env d)) = None
      /\ status_led_is_off (router_disable_cb env d) = true
      /\ gpio_intr_enabled (gpio (router_disable_cb env d)) = true
      /\ Z.testbit (gpio_status (gpio (router_disable_cb env d)))
           BUTTON_INTERRUPT_GPIO = false)
  /\ (led_blink_timer (main d) = None ->
      router_conn_timeout_wdt (main d) = None ->
      main (router_disable_cb env d) = main d)
  /\ (udp_com_socket (info d) = None -> vital_sign_timer (info d) = None ->
      info (router_disable_cb env d) = info d).
Proof.
  assert (forall e, gpio (router_disable_cb e (router_disable_cb env d))
                    = gpio (router_disable_cb env d)) as Hgpio.
  { intros e. rewrite !router_disable_cb_gpio. simpl.
    rewrite !Z.ldiff_0_r, !lor_twice, ldiff_twice. reflexivity. }
  split; [|split; [|split; [|split]]].
  - apply device_eq.
    + rewrite !router_disable_cb_main. reflexivity.
    + rewrite !(proj1 (router_disable_cb_frame _ _)). reflexivity.
    + rewrite !router_disable_cb_info. reflexivity.
    + destruct (router_disable_cb_frame env (router_disable_cb env d))
        as (_ & -> & _). reflexivity.
    + destruct (router_disable_cb_frame env (router_disable_cb env d))
        as (_ & _ & -> & _). reflexivity.
    + destruct (router_disable_cb_frame env (router_disable_cb env d))
        as (_ & _ & _ & ->). reflexivity.
    + rewrite (router_disable_cb_leaked env (router_disable_cb env d)).
      rewrite router_disable_cb_info. apply app_nil_r.
    + apply Hgpio.
    + rewrite !router_disable_cb_wifi. simpl.
      destruct (wifi_set_opmode_ok env); reflexivity.
  - rewrite !router_disable_cb_main, !router_disable_cb_info, Hgpio.
    rewrite !(proj1 (router_disable_cb_frame _ _)). auto.
  - apply router_disable_cb_resources.
  - intros Hled Hwdt. rewrite router_disable_cb_main.
    destruct d as [[lb wdt polls] t i rc tbl orph leak g w]; simpl in *.
    congruence.
  - intros Hsock Hvt. rewrite router_disable_cb_info.
    destruct d as [m t [sock vt] rc tbl orph leak g w]; simpl in *.
    congruence.
Qed.

(** C9: teardown keeps the relay output.  The output-power pin, and every
    pin of the output register other than the status LED, reads the same
    before and after [router_disable_cb]; so do the output enables of those
    pins, the provisioning variables, the connection flag, the port-map
    table and the poll timers. *)
Theorem router_disable_cb_keeps_output_power env d :
  output_power (router_disable_cb env d) = output_power d
  /\ (forall n, n <> STATUS_LED_GPIO ->
        Z.testbit (gpio_out (gpio (router_disable_cb env d))) n
        = Z.testbit (gpio_out (gpio d)) n)
  /\ (forall n, n <> STATUS_LED_GPIO ->
        Z.testbit (gpio_enable (gpio (router_disable_cb env d))) n
        = Z.testbit (gpio_enable (gpio d)) n)
  /\ touch (router_disable_cb env d) = touch d
  /\ router_connected (router_disable_cb env d) = router_connected d
  /\ ip_portmap_table (router_disable_cb env d) = ip_portmap_table d
  /\ esptouch_wait_timers (main (router_disable_cb env d))
     = esptouch_wait_timers (main d).
Proof.
  assert (forall x n, n <> STATUS_LED_GPIO ->
            Z.testbit (Z.ldiff (Z.lor x (BIT STATUS_LED_GPIO)) 0) n
            = Z.testbit x n) as Hpin.
  { intros x n Hn. rewrite Z.ldiff_0_r, Z.lor_spec.
    rewrite testbit_BIT by (unfold STATUS_LED_GPIO; lia).
    destruct (Z.eqb_spec STATUS_LED_GPIO n); [congruence|apply orb_false_r]. }
  split; [|split; [|split]].
  - unfold output_power. rewrite router_disable_cb_gpio. cbn [gpio_out].
    apply Hpin. discriminate.
  - intros n Hn. rewrite router_disable_cb_gpio. cbn [gpio_out].
    apply Hpin, Hn.
  - intros n Hn. rewrite router_disable_cb_gpio. cbn [gpio_enable].
    apply Hpin, Hn.
  - rewrite router_disable_cb_main. cbn [esptouch_wait_timers].
    destruct (router_disable_cb_frame env d) as (-> & -> & -> & _). auto.
Qed.

(** ** What each function may touch *)

Ltac destruct_device d :=
  destruct d as [[?lb ?wdt ?polls] [[?scb ?fcb ?ucb] ?run ?suc ?cnt ?tmo]
                 [?sock ?vt] ?rc ?tbl ?orph ?leak [?out ?en ?st ?ie]
                 [?op ?sa ?eh ?sm]].

Ltac case_split :=
  repeat match goal with
    | |- context [match ?x with _ => _ end] =>
        is_var x; destruct x; simpl in *
    | |- context [match ?x with _ => _ end] =>
        lazymatch x with
        | context [match _ with _ => _ end] => fail
        | _ => destruct x eqn:?; simpl in *
        end
    end.

Ltac unfold_handlers :=
  unfold button_actuated_interrupt_handler, router_enable,
    esptouch_over_timerfunc, router_conn_timeout_wdtfunc, led_blink_timerfunc,
    router_disable_cb, router_init, wifi_handle_event_cb,
    esptouch_init, esptouch_fail_cb, esptouch_status_cb, esptouch_disable,
    esptouch_success_cb, esptouch_start_cb, esptouch_arm_timeout,
    device_info_init, device_info_disable, vital_sign_bcast_start,
    vital_sign_bcast_stop, vital_sign_broadcast,
    status_led_on, status_led_off, is_connected, esptouch_is_running,
    esptouch_was_successful, wifi_set_opmode, wifi_station_disconnect,
    wifi_station_connect, wifi_set_event_handler_cb, smartconfig_start,
    smartconfig_stop, esptouch_fail_cb_ptr in *.

Section Frames.

Context {lw : lwip_napt}.
Variable cfg : user_config.

Lemma esptouch_success_cb_frame d : esp_touch_frame d (esptouch_success_cb d).
Proof.
  destruct_device d. unfold esp_touch_frame, esptouch_success_cb; simpl.
  case_split; auto.
Qed.

Lemma esptouch_disable_frame d : esp_touch_frame d (esptouch_disable d).
Proof.
  destruct_device d. unfold esp_touch_frame, esptouch_disable; simpl.
  case_split; auto.
Qed.

Lemma esptouch_arm_timeout_frame ms d :
  esp_touch_frame d (esptouch_arm_timeout ms d).
Proof.
  destruct_device d. unfold esp_touch_frame, esptouch_arm_timeout; simpl.
  case_split; auto.
Qed.

Lemma esptouch_fail_cb_frame d : esp_touch_frame d (esptouch_fail_cb cfg d).
Proof.
  destruct_device d. unfold esp_touch_frame, esptouch_fail_cb; simpl.
  case_split; auto.
Qed.

Lemma esptouch_status_cb_frame s env d :
  esp_touch_frame d (esptouch_status_cb cfg s env d).
Proof.
  destruct_device d.
  unfold esp_touch_frame, esptouch_status_cb, esptouch_arm_timeout,
    esptouch_disable, esptouch_success_cb, esptouch_start_cb; simpl.
  destruct s; simpl; case_split; auto.
Qed.

Lemma esptouch_init_frame env d : esp_touch_frame d (esptouch_init cfg env d).
Proof.
  destruct_device d.
  unfold esp_touch_frame, esptouch_init, esptouch_arm_timeout,
    wifi_set_opmode; simpl.
  case_split; auto.
Qed.

End Frames.

(** ** The provisioning session *)

Section Session.

Context {lw : lwip_napt}.
Variable cfg : user_config.

Lemma session_flags_fail_cb d :
  session_flags (esptouch_fail_cb cfg d)
  = if esptouch_attempt_count (touch d) <? ESP_TOUCH_ATTEMPTS_LIMIT cfg
    then (esptouch_running (touch d), esptouch_success (touch d),
          (esptouch_attempt_count (touch d) + 1) mod 256)
    else (false, esptouch_success (touch d), esptouch_attempt_count (touch d)).
Proof.
  destruct_device d. unfold session_flags, esptouch_fail_cb.
  cbn -[Z.modulo Z.ltb].
  destruct tmo; cbn -[Z.modulo Z.ltb];
    destruct (cnt <? ESP_TOUCH_ATTEMPTS_LIMIT cfg); reflexivity.
Qed.

Lemma session_flags_init env d :
  session_flags (esptouch_init cfg env d) = (true, false, 1).
Proof.
  destruct_device d. unfold session_flags, esptouch_init, esptouch_arm_timeout,
    wifi_set_opmode. simpl. case_split; reflexivity.
Qed.

Lemma session_step_status_cb s env d :
  session_step (ESP_TOUCH_ATTEMPTS_LIMIT cfg) (session_flags d)
    (session_flags (esptouch_status_cb cfg s env d)).
Proof.
  destruct_device d. unfold session_flags. unfold_handlers.
  destruct s; simpl; case_split; constructor.
Qed.

Lemma session_flags_put_timer h t d :
  session_flags (put_timer h t d) = session_flags d.
Proof. destruct_device d. destruct h; reflexivity. Qed.

Lemma session_flags_router_disable_cb env d :
  session_flags (router_disable_cb env d) = session_flags d.
Proof.
  unfold session_flags.
  rewrite (proj1 (router_disable_cb_frame env d)). reflexivity.
Qed.

Lemma session_step_router_enable env d :
  session_step (ESP_TOUCH_ATTEMPTS_LIMIT cfg) (session_flags d)
    (session_flags (fst (router_enable cfg env d))).
Proof.
  unfold router_enable.
  match goal with |- context [if ?b then _ else _] => destruct b end.
  - cbn [fst]. rewrite session_flags_init.
    destruct d as [m [f r s c t] i rc tbl o l g w]. constructor.
  - cbn [fst]. rewrite session_flags_router_disable_cb.
    destruct_device d. unfold session_flags; simpl.
    case_split; constructor.
Qed.

Lemma session_flags_esptouch_over i env d d' :
  esptouch_over_timerfunc cfg i env d = Some d' ->
  session_flags d' = session_flags d.
Proof.
  destruct_device d. unfold session_flags. unfold_handlers. simpl.
  case_split; intros [= <-]; reflexivity.
Qed.

(** Every event acts on the session by one of the five session steps. *)
Lemma step_session e env d d' :
  step cfg e env d = Some d' ->
  session_step (ESP_TOUCH_ATTEMPTS_LIMIT cfg) (session_flags d) (session_flags d').
Proof.
  destruct e as [|h|s|evt]; simpl.
  - destruct (gpio_intr_enabled _); intros [= <-].
    + unfold button_actuated_interrupt_handler.
      apply (session_step_router_enable env
               (upd_gpio (ets_gpio_intr false)
                  (upd_gpio (gpio_latch_edge BUTTON_INTERRUPT_GPIO) d))).
    + constructor.
  - destruct (get_timer h d) as [t|]; [|intros [= <-]; constructor].
    destruct (timer_armed t); [|intros [= <-]; constructor].
    destruct (timer_func t) as [f|]; [|discriminate].
    rewrite <- (session_flags_put_timer h (timer_fired t) d).
    generalize (put_timer h (timer_fired t) d). intros d0 Hrun.
    destruct f; simpl in Hrun.
    + injection Hrun as <-. destruct_device d0. unfold led_blink_timerfunc.
      simpl. case_split; constructor.
    + injection Hrun as <-. unfold router_conn_timeout_wdtfunc.
      destruct (negb (is_connected d0)); [|constructor].
      rewrite session_flags_router_disable_cb. constructor.
    + destruct h; try discriminate.
      rewrite (session_flags_esptouch_over _ _ _ _ Hrun). constructor.
    + injection Hrun as <-. rewrite session_flags_fail_cb.
      unfold session_flags.
      destruct (Z.ltb_spec (esptouch_attempt_count (touch d0))
                  (ESP_TOUCH_ATTEMPTS_LIMIT cfg)); constructor. assumption.
    + unfold vital_sign_broadcast in Hrun.
      revert Hrun. case_split; intros [= <-]; constructor.
  - destruct (smartconfig_active (wifi d)); intros [= <-];
      [apply session_step_status_cb|constructor].
  - destruct (wifi_event_handler (wifi d)); intros [= <-]; [|constructor].
    destruct_device d. unfold session_flags. unfold_handlers.
    destruct evt; simpl; case_split; constructor.
Qed.

End Session.

(** ** The resource discipline *)

Section Lifecycle.

Context {lw : lwip_napt}.
Variable cfg : user_config.

Ltac use_handle_runs :=
  repeat match goal with
    | H : handle_runs _ (Some ?t) |- _ =>
        let H' := fresh "Hruns" in
        pose proof (H t eq_refl) as H'; clear H
    | H : handle_runs _ None |- _ => clear H
    end.

Ltac inv_solve :=
  unfold handle_runs, timer_runs, timer_fired, handle_armed,
    os_timer_arm, os_timer_setfn, os_timer_disarm, os_zalloc_timer in *;
  simpl in *;
  solve
    [ intuition (try discriminate; try congruence; eauto)
    | lia
    | intros ? [= <-]; simpl; intuition (try discriminate; eauto)
    | intros ? [= <-]; simpl; case_split; intuition (try discriminate; eauto) ].

Lemma user_init_lifecycle_inv g opmode env :
  lifecycle_inv (user_init env (power_on g opmode)).
Proof.
  unfold user_init, gpio_pins_init. unfold_handlers. simpl.
  destruct (wifi_set_opmode_ok env); constructor; simpl; try inv_solve;
    constructor.
Qed.

Lemma latch_lifecycle_inv pin d :
  lifecycle_inv d -> lifecycle_inv (upd_gpio (gpio_latch_edge pin) d).
Proof. intros [? ? ? ? ? ? ? ? ?]. constructor; assumption. Qed.

Lemma router_disable_cb_lifecycle_inv env d :
  lifecycle_inv d -> esptouch_wait_timers (main d) = [] ->
  lifecycle_inv (router_disable_cb env d).
Proof.
  intros [H1 H2 H3 H4 H5 H6 H7 H8 H9] Hpolls.
  constructor;
    rewrite ?router_disable_cb_main, ?router_disable_cb_info,
      ?(proj1 (router_disable_cb_frame env d));
    cbn [esptouch_wait_timers router_conn_timeout_wdt led_blink_timer
         vital_sign_timer];
    try assumption; try (intros; discriminate); auto.
  destruct (router_disable_cb_frame env d) as (_ & _ & _ & ->). assumption.
Qed.

Lemma esptouch_init_lifecycle_inv env d :
  lifecycle_inv d -> lifecycle_inv (esptouch_init cfg env d).
Proof.
  intros [H1 H2 H3 H4 H5 H6 H7 H8 H9].
  destruct (esptouch_init_frame cfg env d) as (Hm & Hi & _ & _ & Hg).
  constructor; rewrite ?Hm, ?Hi, ?Hg; try assumption.
  - destruct_device d. unfold_handlers. simpl in *. use_handle_runs.
    case_split; inv_solve.
  - destruct_device d. unfold_handlers. simpl in *.
    destruct tmo as [old|]; simpl; case_split; try assumption;
      (apply Forall_app; split; [assumption|]);
      (constructor; [apply (H7 old eq_refl)|constructor]).
Qed.

Lemma router_init_lifecycle_inv d :
  lifecycle_inv d -> lifecycle_inv (router_init cfg d).
Proof. intros [? ? ? ? ? ? ? ? ?]. constructor; assumption. Qed.

Lemma router_enable_lifecycle_inv env d :
  lifecycle_inv d ->
  esptouch_wait_timers (main d) = [] ->
  router_conn_timeout_wdt (main d) = None ->
  gpio_intr_enabled (gpio d) = false ->
  lifecycle_inv (fst (router_enable cfg env d)).
Proof.
  intros Hinv Hpolls Hwdt Hie. unfold router_enable.
  match goal with |- context [if ?b then _ else _] => destruct b eqn:Hgo end;
    cbn [fst].
  - apply esptouch_init_lifecycle_inv, router_init_lifecycle_inv.
    destruct Hinv as [H1 H2 H3 H4 H5 H6 H7 H8 H9].
    destruct_device d. simpl in *. subst. use_handle_runs.
    constructor; simpl; case_split; try inv_solve;
      repeat constructor; inv_solve.
  - apply router_disable_cb_lifecycle_inv.
    + destruct Hinv as [H1 H2 H3 H4 H5 H6 H7 H8 H9].
      destruct_device d. simpl in *. subst. use_handle_runs.
      constructor; simpl; case_split; try inv_solve;
        repeat constructor; inv_solve.
    + destruct_device d. simpl in *. subst. case_split; reflexivity.
Qed.

Lemma timer_fired_runs f t : timer_runs f t -> timer_runs f (timer_fired t).
Proof. unfold timer_runs, timer_fired. destruct (timer_repeat t); auto. Qed.

(** Marking a timer as fired keeps the invariant. *)
Lemma put_timer_lifecycle_inv h t d :
  lifecycle_inv d -> get_timer h d = Some t ->
  lifecycle_inv (put_timer h (timer_fired t) d).
Proof.
  intros [H1 H2 H3 H4 H5 H6 H7 H8 H9] Hget.
  destruct_device d.
  destruct h; simpl in *; subst; use_handle_runs;
    constructor; simpl; try assumption;
    try (intros ? [= <-]; apply timer_fired_runs; assumption).
  - intros Hie. destruct (H1 Hie); discriminate.
  - intros Harmed. apply H2.
    unfold timer_fired in Harmed. destruct (timer_repeat t); [assumption|].
    discriminate.
  - intros Hie. destruct (H1 Hie) as [-> ?]. auto.
  - intros Harmed. rewrite (H2 Harmed). reflexivity.
  - rewrite length_insert. assumption.
  - apply Forall_insert; [assumption|].
    apply timer_fired_runs.
    apply (proj1 (Forall_lookup _ _) H6 _ _ Hget).
  - apply Forall_insert; [assumption|].
    apply timer_fired_runs.
    apply (proj1 (Forall_lookup _ _) H8 _ _ Hget).
Qed.

Lemma put_timer_polls h t d :
  (forall i, h <> ESPTOUCH_WAIT_TIMER i) ->
  esptouch_wait_timers (main (put_timer h t d)) = esptouch_wait_timers (main d).
Proof. intros Hh. destruct h; try reflexivity. destruct (Hh i eq_refl). Qed.

Lemma led_blink_timerfunc_lifecycle_inv d :
  lifecycle_inv d -> lifecycle_inv (led_blink_timerfunc d).
Proof.
  intros [? ? ? ? ? ? ? ? ?]. unfold led_blink_timerfunc.
  destruct (_ =? _); constructor; assumption.
Qed.

Lemma esptouch_fail_cb_lifecycle_inv d :
  lifecycle_inv d -> lifecycle_inv (esptouch_fail_cb cfg d).
Proof.
  intros [H1 H2 H3 H4 H5 H6 H7 H8 H9].
  destruct (esptouch_fail_cb_frame cfg d) as (Hm & Hi & _ & _ & Hg).
  constructor; rewrite ?Hm, ?Hi, ?Hg; try assumption.
  - destruct_device d. unfold esptouch_fail_cb. unfold_handlers.
    cbn -[Z.ltb Z.modulo] in *. use_handle_runs.
    destruct tmo; cbn -[Z.ltb Z.modulo];
      destruct (cnt <? ESP_TOUCH_ATTEMPTS_LIMIT cfg);
      cbn -[Z.ltb Z.modulo]; case_split; inv_solve.
  - destruct_device d. unfold esptouch_fail_cb. unfold_handlers.
    cbn -[Z.ltb Z.modulo] in *.
    destruct tmo; cbn -[Z.ltb Z.modulo];
      destruct (cnt <? ESP_TOUCH_ATTEMPTS_LIMIT cfg); assumption.
Qed.

Lemma esptouch_status_cb_lifecycle_inv s env d :
  lifecycle_inv d -> lifecycle_inv (esptouch_status_cb cfg s env d).
Proof.
  intros [H1 H2 H3 H4 H5 H6 H7 H8 H9].
  destruct (esptouch_status_cb_frame cfg s env d) as (Hm & Hi & _ & _ & Hg).
  constructor; rewrite ?Hm, ?Hi, ?Hg; try assumption.
  - destruct_device d. unfold_handlers. simpl in *. use_handle_runs.
    destruct s; simpl; case_split; inv_solve.
  - destruct_device d. unfold_handlers. simpl in *.
    destruct s; simpl; case_split; assumption.
Qed.

Lemma wifi_handle_event_cb_lifecycle_inv evt env d :
  lifecycle_inv d -> lifecycle_inv (wifi_handle_event_cb cfg evt env d).
Proof.
  intros [H1 H2 H3 H4 H5 H6 H7 H8 H9].
  destruct_device d. unfold_handlers.
  destruct evt; simpl in *; case_split; constructor; assumption.
Qed.

(** The poll callback: while provisioning runs it does nothing; once it is
    over the poll timer goes, and either the watchdog is armed or the
    teardown runs. *)
Lemma esptouch_over_timerfunc_lifecycle_inv i t env d d' :
  lifecycle_inv d -> esptouch_wait_timers (main d) !! i = Some t ->
  esptouch_over_timerfunc cfg i env d = Some d' -> lifecycle_inv d'.
Proof.
  intros [H1 H2 H3 H4 H5 H6 H7 H8 H9] Hpoll.
  destruct_device d. simpl in *.
  destruct polls as [|p [|p' polls]]; simpl in *; [discriminate| |lia].
  destruct i as [|i]; [|discriminate]. injection Hpoll as ->.
  assert (ie = false) as ->.
  { destruct ie; [|reflexivity]. destruct (H1 eq_refl). discriminate. }
  unfold_handlers. simpl. use_handle_runs.
  destruct run0; simpl; [intros [= <-]; constructor; simpl; auto|].
  destruct suc; simpl.
  - case_split; try discriminate; intros [= <-];
      constructor; simpl; try inv_solve; constructor.
  - case_split; intros [= <-]; constructor; simpl; try inv_solve; constructor.
Qed.

Lemma router_conn_timeout_wdtfunc_lifecycle_inv env d :
  lifecycle_inv d -> esptouch_wait_timers (main d) = [] ->
  lifecycle_inv (router_conn_timeout_wdtfunc env d).
Proof.
  intros Hinv Hpolls. unfold router_conn_timeout_wdtfunc.
  destruct (negb (is_connected d)); [|assumption].
  apply router_disable_cb_lifecycle_inv; assumption.
Qed.

(** Every event keeps the resource discipline. *)
Lemma step_lifecycle_inv e env d d' :
  lifecycle_inv d -> step cfg e env d = Some d' -> lifecycle_inv d'.
Proof.
  intros Hinv. destruct e as [|h|s|evt]; simpl.
  - destruct (gpio_intr_enabled (gpio d)) eqn:Hie; intros [= <-].
    + destruct (inv_idle d Hinv Hie) as [Hpolls Hwdt].
      unfold button_actuated_interrupt_handler.
      apply router_enable_lifecycle_inv; try assumption; try reflexivity.
      destruct Hinv as [H1 H2 H3 H4 H5 H6 H7 H8 H9].
      constructor; simpl; try assumption.
      intros; discriminate.
    + apply latch_lifecycle_inv, Hinv.
  - destruct (get_timer h d) as [t|] eqn:Hget; [|intros [= <-]; exact Hinv].
    destruct (timer_armed t) eqn:Harmed; [|intros [= <-]; exact Hinv].
    destruct (timer_func t) as [f|] eqn:Hf; [|discriminate].
    pose proof (put_timer_lifecycle_inv h t d Hinv Hget) as Hinv'.
    destruct f; simpl.
    + intros [= <-]. apply led_blink_timerfunc_lifecycle_inv, Hinv'.
    + intros [= <-].
      destruct h; simpl in Hget;
        try (apply router_conn_timeout_wdtfunc_lifecycle_inv; [exact Hinv'|]).
      * exfalso. destruct (inv_led_func d Hinv t Hget); congruence.
      * rewrite put_timer_polls by discriminate.
        apply (inv_routing d Hinv). rewrite Hget. exact Harmed.
      * exfalso.
        pose proof (proj1 (Forall_lookup _ _) (inv_poll_func d Hinv) _ _ Hget)
          as [|]; congruence.
      * exfalso. destruct (inv_timeout_func d Hinv t Hget); congruence.
      * exfalso.
        pose proof (proj1 (Forall_lookup _ _) (inv_orphan_func d Hinv) _ _ Hget)
          as [|]; congruence.
      * exfalso. destruct (inv_vital_func d Hinv t Hget); congruence.
    + destruct h; try discriminate. simpl in Hget.
      apply (esptouch_over_timerfunc_lifecycle_inv i (timer_fired t) env _ d' Hinv').
      simpl. apply list_lookup_insert_eq. apply (lookup_lt_Some _ _ _ Hget).
    + intros [= <-]. apply esptouch_fail_cb_lifecycle_inv, Hinv'.
    + unfold vital_sign_broadcast. case_split; intros [= <-]; exact Hinv'.
  - destruct (smartconfig_active (wifi d)); intros [= <-];
      [apply esptouch_status_cb_lifecycle_inv|]; exact Hinv.
  - destruct (wifi_event_handler (wifi d)); intros [= <-];
      [apply wifi_handle_event_cb_lifecycle_inv|]; exact Hinv.
Qed.

Lemma reachable_lifecycle_inv d : reachable cfg d -> lifecycle_inv d.
Proof.
  induction 1 as [g opmode env|d e env d' _ IH Hstep].
  - apply user_init_lifecycle_inv.
  - exact (step_lifecycle_inv e env d d' IH Hstep).
Qed.

End Lifecycle.

Section Reachability.

Context {lw : lwip_napt}.
Variable cfg : user_config.

Lemma run_reachable evs d d' :
  reachable cfg d -> run cfg evs d = Some d' -> reachable cfg d'.
Proof.
  revert d. induction evs as [|[e env] evs IH]; intros d Hd; simpl.
  - intros [= <-]. exact Hd.
  - destruct (step cfg e env d) as [d1|] eqn:Hstep; [|discriminate].
    apply IH. exact (reachable_step cfg d e env d1 Hd Hstep).
Qed.

Lemma lifecycle_active_intr_disabled d :
  lifecycle_inv d -> lifecycle d <> Idle -> gpio_intr_enabled (gpio d) = false.
Proof.
  intros Hinv Hactive.
  destruct (gpio_intr_enabled (gpio d)) eqn:Hie; [|reflexivity].
  destruct (inv_idle d Hinv Hie) as [Hpolls Hwdt].
  exfalso. apply Hactive. unfold lifecycle. rewrite Hpolls, Hwdt. reflexivity.
Qed.

(** The button interrupt goes from disabled to enabled only in
    [router_disable_cb]. *)
Lemma step_enables_intr_in_teardown e env d d' :
  step cfg e env d = Some d' ->
  gpio_intr_enabled (gpio d) = false -> gpio_intr_enabled (gpio d') = true ->
  exists env0 d0, d' = router_disable_cb env0 d0.
Proof.
  destruct e as [|h|s|evt]; simpl.
  - intros Hstep Hie. rewrite Hie in Hstep. injection Hstep as <-.
    simpl. congruence.
  - destruct (get_timer h d) as [t|]; [|intros [= <-]; congruence].
    destruct (timer_armed t); [|intros [= <-]; congruence].
    destruct (timer_func t) as [f|]; [|discriminate].
    assert (gpio (put_timer h (timer_fired t) d) = gpio d) as Hput
      by (destruct h; reflexivity).
    revert Hput. generalize (put_timer h (timer_fired t) d). intros d1 Hput.
    rewrite <- Hput. clear Hput.
    destruct f; simpl.
    + intros [= <-] Hie. unfold led_blink_timerfunc.
      destruct (_ =? _); simpl; congruence.
    + intros [= <-] Hie. unfold router_conn_timeout_wdtfunc.
      destruct (negb (is_connected d1)); [eauto|]. congruence.
    + destruct h; try discriminate.
      unfold esptouch_over_timerfunc.
      destruct (negb (esptouch_is_running d1)); [|intros [= <-]; congruence].
      match goal with |- context [if ?b then _ else _] => destruct b end;
        [|intros [= <-]; eauto].
      destruct_device d1.
      unfold device_info_init, vital_sign_bcast_start, status_led_on. simpl.
      case_split; try discriminate; intros [= <-]; simpl; congruence.
    + intros [= <-] Hie.
      destruct (esptouch_fail_cb_frame cfg d1) as (_ & _ & _ & _ & ->).
      congruence.
    + unfold vital_sign_broadcast. case_split; intros [= <-]; congruence.
  - destruct (smartconfig_active (wifi d)); intros [= <-]; [|congruence].
    destruct (esptouch_status_cb_frame cfg s env d) as (_ & _ & _ & _ & ->).
    congruence.
  - destruct (wifi_event_handler (wifi d)); intros [= <-]; [|congruence].
    destruct_device d. unfold wifi_handle_event_cb, wifi_set_opmode.
    destruct evt; simpl; case_split; congruence.
Qed.

(** With the interrupt disabled, button edges only set the latch. *)
Lemma run_button_edges_disabled envs d :
  gpio_intr_enabled (gpio d) = false ->
  exists d', run cfg (button_edges envs) d = Some d'
    /\ main d' = main d /\ touch d' = touch d /\ info d' = info d
    /\ lifecycle d' = lifecycle d
    /\ gpio_intr_enabled (gpio d') = false
    /\ gpio_out (gpio d') = gpio_out (gpio d).
Proof.
  revert d. induction envs as [|env envs IH]; intros d Hie; simpl.
  - exists d. auto 10.
  - rewrite Hie.
    destruct (IH (upd_gpio (gpio_latch_edge BUTTON_INTERRUPT_GPIO) d))
      as (d' & -> & ? & ? & ? & ? & ? & ?); [exact Hie|].
    exists d'. auto 10.
Qed.

(** From an idle device a button edge runs the handler, which first
    disables the interrupt: the device is then provisioning with one poll
    timer and the interrupt disabled, or, when a timer could not be
    allocated, idle again after the teardown. *)
Lemma button_edge_when_enabled env d :
  lifecycle_inv d -> gpio_intr_enabled (gpio d) = true ->
  exists d',
    step cfg Button_edge env d = Some d'
    /\ d' = fst (router_enable cfg env
                   (upd_gpio (ets_gpio_intr false)
                      (upd_gpio (gpio_latch_edge BUTTON_INTERRUPT_GPIO) d)))
    /\ ((lifecycle d' = Provisioning
         /\ gpio_intr_enabled (gpio d') = false
         /\ length (esptouch_wait_timers (main d')) = 1%nat)
        \/ (lifecycle d' = Idle /\ gpio_intr_enabled (gpio d') = true)).
Proof.
  intros Hinv Hie. destruct (inv_idle d Hinv Hie) as [Hpolls Hwdt].
  exists (button_actuated_interrupt_handler cfg env
            (upd_gpio (gpio_latch_edge BUTTON_INTERRUPT_GPIO) d)).
  split.
  { cbn [step].
    change (gpio_intr_enabled
              (gpio (upd_gpio (gpio_latch_edge BUTTON_INTERRUPT_GPIO) d)))
      with (gpio_intr_enabled (gpio d)).
    rewrite Hie. reflexivity. }
  split; [reflexivity|].
  unfold button_actuated_interrupt_handler, router_enable. cbv zeta.
  match goal with |- context [if ?b then _ else _] =>
    lazymatch b with
    | andb _ _ => destruct b eqn:Hgo
    end
  end; cbn [fst].
  - left. unfold lifecycle.
    match goal with |- context [esptouch_init cfg env ?x] =>
      destruct (esptouch_init_frame cfg env x) as (-> & _ & _ & _ & ->)
    end.
    destruct_device d. simpl in *. subst. case_split; auto.
  - right. unfold lifecycle.
    rewrite router_disable_cb_main, router_disable_cb_gpio.
    destruct_device d. simpl in *. subst. case_split; auto.
Qed.

(** C4: while the device is provisioning or routing the button interrupt
    is disabled, so a button edge does not run the handler: it only sets
    the latch, and any number of edges in a row leaves the timers, the
    provisioning variables and the lifecycle state as they are.  An event
    that takes the interrupt from disabled to enabled does so in
    [router_disable_cb] and leaves the device idle. *)
Theorem button_cannot_reenter d :
  reachable cfg d -> lifecycle d <> Idle ->
  gpio_intr_enabled (gpio d) = false
  /\ (forall env,
        step cfg Button_edge env d
        = Some (upd_gpio (gpio_latch_edge BUTTON_INTERRUPT_GPIO) d))
  /\ (forall envs,
        exists d', run cfg (button_edges envs) d = Some d'
          /\ main d' = main d /\ touch d' = touch d
          /\ lifecycle d' = lifecycle d
          /\ gpio_intr_enabled (gpio d') = false)
  /\ (forall e env d',
        step cfg e env d = Some d' -> gpio_intr_enabled (gpio d') = true ->
        (exists env0 d0, d' = router_disable_cb env0 d0)
        /\ lifecycle d' = Idle).
Proof.
  intros Hreach Hactive.
  pose proof (reachable_lifecycle_inv cfg d Hreach) as Hinv.
  pose proof (lifecycle_active_intr_disabled d Hinv Hactive) as Hie.
  split; [exact Hie|]. split; [|split].
  - intros env. simpl. rewrite Hie. reflexivity.
  - intros envs.
    destruct (run_button_edges_disabled envs d Hie)
      as (d' & ? & ? & ? & _ & ? & ? & _).
    exists d'. auto.
  - intros e env d' Hstep Hie'. split.
    + exact (step_enables_intr_in_teardown e env d d' Hstep Hie Hie').
    + pose proof (step_lifecycle_inv cfg e env d d' Hinv Hstep) as Hinv'.
      destruct (inv_idle d' Hinv' Hie') as [Hpolls Hwdt].
      unfold lifecycle. rewrite Hpolls, Hwdt. reflexivity.
Qed.

End Reachability.

(** ** Provisioning attempts *)

Section Provisioning.

Context {lw : lwip_napt}.
Variable cfg : user_config.

Lemma session_flags_eq d r s c :
  session_flags d = (r, s, c) ->
  esptouch_running (touch d) = r /\ esptouch_success (touch d) = s
  /\ esptouch_attempt_count (touch d) = c.
Proof. unfold session_flags. intros [= -> -> ->]. auto. Qed.

(** Success and running exclude each other in every reachable state. *)
Lemma reachable_success_not_running d :
  reachable cfg d ->
  esptouch_running (touch d) && esptouch_success (touch d) = false.
Proof.
  induction 1 as [g opmode env|d e env d' _ IH Hstep].
  - unfold user_init, wifi_set_opmode. simpl.
    destruct (wifi_set_opmode_ok env); reflexivity.
  - apply step_session in Hstep. unfold session_flags in Hstep.
    inversion Hstep; subst; try reflexivity; try congruence.
Qed.

(** The attempt counter stays between 1 and the limit. *)
Lemma reachable_attempt_count d :
  1 <= ESP_TOUCH_ATTEMPTS_LIMIT cfg <= 255 ->
  reachable cfg d ->
  1 <= esptouch_attempt_count (touch d) <= ESP_TOUCH_ATTEMPTS_LIMIT cfg.
Proof.
  intros Hlimit.
  induction 1 as [g opmode env|d e env d' _ IH Hstep].
  - unfold user_init, wifi_set_opmode. simpl.
    destruct (wifi_set_opmode_ok env); simpl; lia.
  - apply step_session in Hstep. unfold session_flags in Hstep.
    inversion Hstep; subst; try lia; try congruence.
    rewrite Z.mod_small; lia.
Qed.

(** A session step moves the counter to 1 or up by one, or keeps it. *)
Lemma session_step_count limit r s c r' s' c' :
  session_step limit (r, s, c) (r', s', c') ->
  c' = c \/ c' = 1 \/ (c < limit /\ c' = (c + 1) mod 256).
Proof. inversion 1; subst; auto. Qed.

Lemma button_starts_attempt env d :
  lifecycle_inv d -> gpio_intr_enabled (gpio d) = true ->
  zalloc_router_conn_timeout_wdt env = true ->
  zalloc_esptouch_wait_timer env = true ->
  zalloc_esptouch_timeout_timer env = true ->
  exists d', step cfg Button_edge env d = Some d' /\ attempting cfg 1 d'.
Proof.
  intros Hinv Hie Hwdt Hpoll Htmo.
  destruct (inv_idle d Hinv Hie) as [Hpolls Hnowdt].
  simpl. rewrite Hie. eexists. split; [reflexivity|].
  destruct_device d. simpl in *. subst.
  unfold attempting, button_actuated_interrupt_handler, router_enable,
    router_init, esptouch_init, esptouch_arm_timeout, wifi_set_opmode. simpl.
  rewrite Hwdt, Hpoll, Htmo. simpl.
  case_split; simpl; rewrite ?Htmo; simpl; split; reflexivity.
Qed.

Lemma timeout_retry env k d :
  attempting cfg k d -> k < ESP_TOUCH_ATTEMPTS_LIMIT cfg -> 0 <= k < 255 ->
  exists d', step cfg (Timer_expired ESPTOUCH_TIMEOUT_TIMER) env d = Some d'
    /\ attempting cfg (k + 1) d'.
Proof.
  intros [Htouch Hpolls] Hlt Hk.
  destruct d as [m t i rc tbl orph leak g w]. simpl in *. subst t.
  cbn -[Z.ltb Z.modulo]. unfold esptouch_fail_cb. cbn -[Z.ltb Z.modulo].
  destruct (Z.ltb_spec k (ESP_TOUCH_ATTEMPTS_LIMIT cfg)); [|lia].
  eexists. split; [reflexivity|].
  unfold attempting. cbn -[Z.modulo].
  rewrite Z.mod_small by lia. auto.
Qed.

Lemma timeout_give_up env k d :
  attempting cfg k d -> ESP_TOUCH_ATTEMPTS_LIMIT cfg <= k ->
  exists d', step cfg (Timer_expired ESPTOUCH_TIMEOUT_TIMER) env d = Some d'
    /\ gave_up k d'.
Proof.
  intros [Htouch Hpolls] Hge.
  destruct d as [m t i rc tbl orph leak g w]. simpl in *. subst t.
  cbn -[Z.ltb Z.modulo]. unfold esptouch_fail_cb. cbn -[Z.ltb Z.modulo].
  destruct (Z.ltb_spec k (ESP_TOUCH_ATTEMPTS_LIMIT cfg)); [lia|].
  eexists. split; [reflexivity|].
  unfold gave_up. auto.
Qed.

(** After giving up, the next poll tears the device down. *)
Lemma poll_after_give_up env k d :
  gave_up k d ->
  exists d',
    step cfg (Timer_expired (ESPTOUCH_WAIT_TIMER 0)) env d = Some d'
    /\ lifecycle d' = Idle
    /\ gpio_intr_enabled (gpio d') = true
    /\ esptouch_is_running d' = false /\ esptouch_was_successful d' = false
    /\ led_blink_timer (main d') = None
    /\ router_conn_timeout_wdt (main d') = None
    /\ esptouch_wait_timers (main d') = []
    /\ esptouch_timeout_timer (touch d') = None
    /\ vital_sign_timer (info d') = None
    /\ status_led_is_off d' = true.
Proof.
  intros [Htouch Hpolls].
  destruct d as [[lb wdt polls] t i rc tbl orph leak g w]. simpl in *. subst t polls.
  unfold esptouch_over_timerfunc. cbn [esptouch_is_running
    esptouch_was_successful touch esptouch_running esptouch_success negb
    upd_main main set_esptouch_wait_timers esptouch_wait_timers
    list_insert delete list_delete].
  eexists. split; [reflexivity|].
  pose proof (router_disable_cb_resources env
    {| main := {| led_blink_timer := lb; router_conn_timeout_wdt := wdt;
                  esptouch_wait_timers := [] |};
       touch := {| esptouch_func :=
                     {| esptouch_start_cb_set := true;
                        esptouch_fail_cb_set := true;
                        esptouch_suc_cb_set := true |};
                   esptouch_running := false; esptouch_success := false;
                   esptouch_attempt_count := k;
                   esptouch_timeout_timer := None |};
       info := i; router_connected := rc; ip_portmap_table := tbl;
       orphan_timers := orph; leaked_sockets := leak; gpio := g;
       wifi := w |})
    as (Hled & Hwdt & Hvital & Hoff & Hie & _).
  unfold lifecycle, esptouch_is_running, esptouch_was_successful.
  rewrite router_disable_cb_main in *.
  rewrite (proj1 (router_disable_cb_frame _ _)).
  simpl. auto 12.
Qed.

(** From the [k]-th attempt, timeouts in a row retry until the limit is
    reached and then give up. *)
Lemma run_timeouts envs k d :
  ESP_TOUCH_ATTEMPTS_LIMIT cfg <= 255 ->
  attempting cfg k d -> 1 <= k <= ESP_TOUCH_ATTEMPTS_LIMIT cfg ->
  k + Z.of_nat (length envs) <= ESP_TOUCH_ATTEMPTS_LIMIT cfg + 1 ->
  exists d',
    run cfg (timeouts envs) d = Some d'
    /\ if k + Z.of_nat (length envs) <=? ESP_TOUCH_ATTEMPTS_LIMIT cfg
       then attempting cfg (k + Z.of_nat (length envs)) d'
       else gave_up (ESP_TOUCH_ATTEMPTS_LIMIT cfg) d'.
Proof.
  intros Hmax. revert k d.
  induction envs as [|env envs IH]; intros k d Hatt Hk Hlen.
  - exists d. split; [reflexivity|]. simpl length.
    destruct (Z.leb_spec (k + Z.of_nat 0) (ESP_TOUCH_ATTEMPTS_LIMIT cfg)); [|lia].
    replace (k + Z.of_nat 0) with k by lia. exact Hatt.
  - cbn [timeouts map run length] in *.
    destruct (Z.lt_ge_cases k (ESP_TOUCH_ATTEMPTS_LIMIT cfg)) as [Hlt|Hge].
    + destruct (timeout_retry env k d Hatt Hlt) as (d1 & -> & Hatt1); [lia|].
      destruct (IH (k + 1) d1 Hatt1) as (d' & Hrun & Hres); [lia|lia|].
      exists d'. split; [exact Hrun|].
      replace (k + Z.of_nat (S (length envs)))
        with (k + 1 + Z.of_nat (length envs)) by lia.
      exact Hres.
    + destruct (timeout_give_up env k d Hatt Hge) as (d1 & -> & Hgave).
      assert (k = ESP_TOUCH_ATTEMPTS_LIMIT cfg) as -> by lia.
      destruct envs as [|env' envs]; [|simpl in Hlen; lia].
      exists d1. split; [reflexivity|].
      match goal with |- if ?a <=? ?b then _ else _ =>
        destruct (Z.leb_spec a b); [simpl in *; lia|]
      end.
      exact Hgave.
Qed.

(** C2: with an attempt limit between 1 and 255, [esptouch_init] sets the
    attempt counter to 1; in every reachable state the counter lies between
    1 and the limit; a timeout below the limit raises it by exactly one and
    no event changes it otherwise except a new session; a timeout at the
    limit stops the session without success and keeps the counter; and a
    poll that finds the session stopped without success runs the teardown.
    From an idle device a button edge followed by [n] timeouts in a row (at
    most the limit) leaves the counter at [min (1 + n) limit] with the
    session running exactly when [n] is below the limit and never
    successful. After exactly the limit of timeouts the next poll tears the
    device down: it is idle, the interrupt is enabled, no timer is left and
    the LED is off. *)
Theorem esptouch_attempts_bounded :
  1 <= ESP_TOUCH_ATTEMPTS_LIMIT cfg <= 255 ->
  (forall env d, esptouch_attempt_count (touch (esptouch_init cfg env d)) = 1)
  /\ (forall d, reachable cfg d ->
        1 <= esptouch_attempt_count (touch d) <= ESP_TOUCH_ATTEMPTS_LIMIT cfg)
  /\ (forall d, reachable cfg d ->
        esptouch_attempt_count (touch d) < ESP_TOUCH_ATTEMPTS_LIMIT cfg ->
        esptouch_attempt_count (touch (esptouch_fail_cb cfg d))
        = esptouch_attempt_count (touch d) + 1)
  /\ (forall d e env d', reachable cfg d -> step cfg e env d = Some d' ->
        esptouch_attempt_count (touch d') = esptouch_attempt_count (touch d)
        \/ esptouch_attempt_count (touch d') = 1
        \/ (esptouch_attempt_count (touch d) < ESP_TOUCH_ATTEMPTS_LIMIT cfg
            /\ esptouch_attempt_count (touch d')
               = esptouch_attempt_count (touch d) + 1))
  /\ (forall d,
        ESP_TOUCH_ATTEMPTS_LIMIT cfg <= esptouch_attempt_count (touch d) ->
        esptouch_is_running (esptouch_fail_cb cfg d) = false
        /\ esptouch_was_successful (esptouch_fail_cb cfg d)
           = esptouch_was_successful d
        /\ esptouch_attempt_count (touch (esptouch_fail_cb cfg d))
           = esptouch_attempt_count (touch d))
  /\ (forall d i env,
        esptouch_is_running d = false -> esptouch_was_successful d = false ->
        esptouch_over_timerfunc cfg i env d
        = Some (router_disable_cb env
                  (upd_main (set_esptouch_wait_timers
                               (delete i (esptouch_wait_timers (main d)))) d)))
  /\ (forall d env envs env',
        reachable cfg d -> gpio_intr_enabled (gpio d) = true ->
        zalloc_router_conn_timeout_wdt env = true ->
        zalloc_esptouch_wait_timer env = true ->
        zalloc_esptouch_timeout_timer env = true ->
        Z.of_nat (length envs) <= ESP_TOUCH_ATTEMPTS_LIMIT cfg ->
        exists d',
          run cfg ((Button_edge, env) :: timeouts envs) d = Some d'
          /\ esptouch_attempt_count (touch d')
             = Z.min (1 + Z.of_nat (length envs)) (ESP_TOUCH_ATTEMPTS_LIMIT cfg)
          /\ esptouch_is_running d'
             = (Z.of_nat (length envs) <? ESP_TOUCH_ATTEMPTS_LIMIT cfg)
          /\ esptouch_was_successful d' = false
          /\ (Z.of_nat (length envs) = ESP_TOUCH_ATTEMPTS_LIMIT cfg ->
              exists d'',
                step cfg (Timer_expired (ESPTOUCH_WAIT_TIMER 0)) env' d' = Some d''
                /\ lifecycle d'' = Idle
                /\ gpio_intr_enabled (gpio d'') = true
                /\ esptouch_is_running d'' = false
                /\ esptouch_was_successful d'' = false
                /\ led_blink_timer (main d'') = None
                /\ router_conn_timeout_wdt (main d'') = None
                /\ esptouch_wait_timers (main d'') = []
                /\ esptouch_timeout_timer (touch d'') = None
                /\ vital_sign_timer (info d'') = None
                /\ status_led_is_off d'' = true)).
Proof.
  intros Hlimit. split; [|split; [|split; [|split; [|split; [|split]]]]].
  - intros env d.
    apply (session_flags_eq _ _ _ _ (session_flags_init cfg env d)).
  - intros d. apply reachable_attempt_count, Hlimit.
  - intros d Hreach Hlt.
    pose proof (reachable_attempt_count d Hlimit Hreach) as Hc.
    pose proof (session_flags_fail_cb cfg d) as H.
    destruct (Z.ltb_spec (esptouch_attempt_count (touch d))
                (ESP_TOUCH_ATTEMPTS_LIMIT cfg)); [|lia].
    apply session_flags_eq in H as (_ & _ & ->).
    apply Z.mod_small. lia.
  - intros d e env d' Hreach Hstep.
    pose proof (reachable_attempt_count d Hlimit Hreach) as Hc.
    apply step_session in Hstep. unfold session_flags in Hstep.
    apply session_step_count in Hstep as [->|[->|[Hlt ->]]]; auto.
    right; right. split; [exact Hlt|]. apply Z.mod_small. lia.
  - intros d Hge.
    pose proof (session_flags_fail_cb cfg d) as H.
    destruct (Z.ltb_spec (esptouch_attempt_count (touch d))
                (ESP_TOUCH_ATTEMPTS_LIMIT cfg)); [lia|].
    apply session_flags_eq in H. exact H.
  - intros d i env Hrun Hsuc. unfold esptouch_over_timerfunc.
    rewrite Hrun. cbn [negb].
    change (esptouch_was_successful
              (upd_main (set_esptouch_wait_timers
                           (delete i (esptouch_wait_timers (main d)))) d))
      with (esptouch_was_successful d).
    rewrite Hsuc. reflexivity.
  - intros d env envs env' Hreach Hie Hwdt Hpoll Htmo Hlen.
    pose proof (reachable_lifecycle_inv cfg d Hreach) as Hinv.
    destruct (button_starts_attempt env d Hinv Hie Hwdt Hpoll Htmo)
      as (d1 & Hbutton & Hatt).
    destruct (run_timeouts envs 1 d1) as (d' & Hrun & Hres);
      [lia|exact Hatt|lia|lia|].
    exists d'. cbn [run]. rewrite Hbutton. split; [exact Hrun|].
    unfold esptouch_is_running, esptouch_was_successful.
    destruct (Z.leb_spec (1 + Z.of_nat (length envs))
                (ESP_TOUCH_ATTEMPTS_LIMIT cfg)) as [Hle|Hgt].
    + destruct Hres as [-> _]. cbn [esptouch_attempt_count esptouch_running
        esptouch_success].
      destruct (Z.ltb_spec (Z.of_nat (length envs))
                  (ESP_TOUCH_ATTEMPTS_LIMIT cfg)); [|lia].
      repeat split; try lia.
    + pose proof Hres as [Htouch _]. rewrite Htouch.
      cbn [esptouch_attempt_count esptouch_running esptouch_success].
      destruct (Z.ltb_spec (Z.of_nat (length envs))
                  (ESP_TOUCH_ATTEMPTS_LIMIT cfg)); [lia|].
      repeat split; try lia.
      intros _. apply (poll_after_give_up env' _ d' Hres).
Qed.

(** C10: in every reachable state [esptouch_is_running] and
    [esptouch_was_successful] are not both true.  [esptouch_init] sets
    running and clears success, [esptouch_success_cb] clears running as it
    sets success, [esptouch_disable] and [esptouch_fail_cb] leave success as
    it is, and an event after which success holds either found it holding or
    leaves the session stopped. *)
Theorem esptouch_success_excludes_running d :
  reachable cfg d ->
  esptouch_is_running d && esptouch_was_successful d = false
  /\ (forall env,
        esptouch_is_running (esptouch_init cfg env d) = true
        /\ esptouch_was_successful (esptouch_init cfg env d) = false)
  /\ (esptouch_is_running (esptouch_success_cb d) = false
      /\ esptouch_was_successful (esptouch_success_cb d) = true)
  /\ (esptouch_is_running (esptouch_disable d) = false
      /\ esptouch_was_successful (esptouch_disable d) = esptouch_was_successful d)
  /\ esptouch_was_successful (esptouch_fail_cb cfg d) = esptouch_was_successful d
  /\ (forall e env d',
        step cfg e env d = Some d' -> esptouch_was_successful d' = true ->
        esptouch_was_successful d = true \/ esptouch_is_running d' = false).
Proof.
  intros Hreach. unfold esptouch_is_running, esptouch_was_successful.
  split; [exact (reachable_success_not_running d Hreach)|].
  split; [|split; [|split; [|split]]].
  - intros env.
    destruct (session_flags_eq _ _ _ _ (session_flags_init cfg env d))
      as (-> & -> & _). auto.
  - destruct_device d. unfold esptouch_success_cb. simpl.
    destruct tmo; auto.
  - destruct_device d. unfold esptouch_disable. simpl.
    destruct tmo; auto.
  - pose proof (session_flags_fail_cb cfg d) as H.
    destruct (_ <? _); apply session_flags_eq in H as (_ & -> & _);
      reflexivity.
  - intros e env d' Hstep Hsuc.
    apply step_session in Hstep. unfold session_flags in Hstep.
    inversion Hstep; subst;
      first [left; congruence | right; congruence].
Qed.

End Provisioning.

(** ** The shipped configuration at work *)

Lemma booted_reachable : @reachable lwip_appending shipped_config booted.
Proof. apply reachable_boot. Qed.

Lemma provisioning_device_reachable :
  @reachable lwip_appending shipped_config provisioning_device.
Proof.
  apply (run_reachable shipped_config [(Button_edge, env_ok)] booted);
    [apply booted_reachable|vm_compute; reflexivity].
Qed.

Lemma linked_device_reachable :
  @reachable lwip_appending shipped_config linked_device.
Proof.
  apply (run_reachable shipped_config
           [(Button_edge, env_ok);
            (Smartconfig_status SC_STATUS_LINK_OVER, env_ok)] booted);
    [apply booted_reachable|vm_compute; reflexivity].
Qed.

Example provisioning_device_lifecycle :
  lifecycle provisioning_device = Provisioning
  /\ gpio_intr_enabled (gpio provisioning_device) = false
  /\ esptouch_is_running provisioning_device = true.
Proof. vm_compute. repeat split; reflexivity. Qed.

Example routing_device_lifecycle :
  lifecycle routing_device = Routing
  /\ status_led_is_off routing_device = false
  /\ output_power routing_device = true
  /\ gpio_intr_enabled (gpio routing_device) = false.
Proof. vm_compute. repeat split; reflexivity. Qed.

(** Two timeouts, then the link: the device routes in its third attempt. *)
Example third_attempt_succeeds :
  let d := after [(Button_edge, env_ok);
                  (Timer_expired ESPTOUCH_TIMEOUT_TIMER, env_ok);
                  (Timer_expired ESPTOUCH_TIMEOUT_TIMER, env_ok);
                  (Smartconfig_status SC_STATUS_LINK_OVER, env_ok);
                  (Timer_expired (ESPTOUCH_WAIT_TIMER 0), env_ok)] in
  lifecycle d = Routing
  /\ esptouch_attempt_count (touch d) = 3
  /\ status_led_is_off d = false.
Proof. vm_compute. repeat split; reflexivity. Qed.

(** The shipped table: one rule installed, and a new uplink address
    rewrites its mapping address only. *)
Example shipped_portmap :
  let r := @portmap_init lwip_appending shipped_config None in
  map call_slot (load_calls r) = [1%nat]
  /\ load_ok r = true
  /\ @portmap_update lwip_appending (Some 167772170) (load_table r)
     = Some [ {| valid := 1; proto := 6; maddr := 167772170; mport := 8883;
                 daddr := 13; dport := 8883; dir := 2 |} ].
Proof. vm_compute. repeat split; reflexivity. Qed.

(** Routing without an uplink address: the watchdog tears the device down
    and the relay stays as it was. *)
Example watchdog_teardown :
  let d := after [(Button_edge, env_ok);
                  (Smartconfig_status SC_STATUS_LINK_OVER, env_ok);
                  (Timer_expired (ESPTOUCH_WAIT_TIMER 0), env_ok);
                  (Timer_expired ROUTER_CONN_TIMEOUT_WDT, env_ok)] in
  lifecycle d = Idle
  /\ main d = {| led_blink_timer := None; router_conn_timeout_wdt := None;
                 esptouch_wait_timers := [] |}
  /\ info d = {| udp_com_socket := None; vital_sign_timer := None |}
  /\ status_led_is_off d = true
  /\ output_power d = true
  /\ gpio_intr_enabled (gpio d) = true.
Proof. vm_compute. repeat split; reflexivity. Qed.

(** With an uplink address and the subnet applied the watchdog finds the
    router connected and leaves it routing; when the DHCP server cannot be
    restarted it tears the device down. *)
Example watchdog_after_got_ip :
  lifecycle (after [(Button_edge, env_ok);
                    (Smartconfig_status SC_STATUS_LINK_OVER, env_ok);
                    (Wifi_event (EVENT_STAMODE_GOT_IP 167772170), env_ok);
                    (Timer_expired (ESPTOUCH_WAIT_TIMER 0), env_ok);
                    (Timer_expired ROUTER_CONN_TIMEOUT_WDT, env_ok)])
  = Routing
  /\ lifecycle (after [(Button_edge, env_ok);
                       (Smartconfig_status SC_STATUS_LINK_OVER, env_ok);
                       (Wifi_event (EVENT_STAMODE_GOT_IP 167772170),
                        env_dhcps_start_fails);
                       (Timer_expired (ESPTOUCH_WAIT_TIMER 0), env_ok);
                       (Timer_expired ROUTER_CONN_TIMEOUT_WDT, env_ok)])
     = Idle.
Proof. vm_compute. split; reflexivity. Qed.

Lemma button_cannot_reenter_witness :
  @reachable lwip_appending shipped_config provisioning_device
  /\ lifecycle provisioning_device <> Idle
  /\ gpio_intr_enabled (gpio provisioning_device) = false
  /\ (forall env,
        @step lwip_appending shipped_config Button_edge env provisioning_device
        = Some (upd_gpio (gpio_latch_edge BUTTON_INTERRUPT_GPIO)
                  provisioning_device))
  /\ (forall envs,
        exists d',
          @run lwip_appending shipped_config (button_edges envs)
            provisioning_device = Some d'
          /\ main d' = main provisioning_device
          /\ touch d' = touch provisioning_device
          /\ lifecycle d' = lifecycle provisioning_device
          /\ gpio_intr_enabled (gpio d') = false)
  /\ (forall e env d',
        @step lwip_appending shipped_config e env provisioning_device = Some d' ->
        gpio_intr_enabled (gpio d') = true ->
        (exists env0 d0, d' = router_disable_cb env0 d0)
        /\ lifecycle d' = Idle).
Proof.
  assert (lifecycle provisioning_device <> Idle) as Hactive
    by (vm_compute; discriminate).
  split; [exact provisioning_device_reachable|].
  split; [exact Hactive|].
  exact (@button_cannot_reenter lwip_appending shipped_config
           provisioning_device provisioning_device_reachable Hactive).
Defined.

Lemma esptouch_success_excludes_running_witness :
  @reachable lwip_appending shipped_config linked_device
  /\ esptouch_was_successful linked_device = true
  /\ esptouch_is_running linked_device && esptouch_was_successful linked_device
     = false.
Proof.
  split; [exact linked_device_reachable|].
  split; [vm_compute; reflexivity|].
  exact (proj1 (@esptouch_success_excludes_running lwip_appending
                  shipped_config linked_device linked_device_reachable)).
Defined.

Lemma esptouch_attempts_bounded_witness :
  1 <= ESP_TOUCH_ATTEMPTS_LIMIT shipped_config <= 255
  /\ exists d',
       @run lwip_appending shipped_config
         ((Button_edge, env_ok) :: timeouts [env_ok; env_ok; env_ok]) booted
       = Some d'
       /\ esptouch_attempt_count (touch d') = 3
       /\ esptouch_is_running d' = false
       /\ esptouch_was_successful d' = false
       /\ exists d'',
            @step lwip_appending shipped_config
              (Timer_expired (ESPTOUCH_WAIT_TIMER 0)) env_ok d' = Some d''
            /\ lifecycle d'' = Idle
            /\ gpio_intr_enabled (gpio d'') = true.
Proof.
  assert (1 <= ESP_TOUCH_ATTEMPTS_LIMIT shipped_config <= 255) as Hlimit
    by (simpl; lia).
  split; [exact Hlimit|].
  destruct (@esptouch_attempts_bounded lwip_appending shipped_config Hlimit)
    as (_ & _ & _ & _ & _ & _ & Hrun).
  destruct (Hrun booted env_ok [env_ok; env_ok; env_ok] env_ok
              booted_reachable eq_refl eq_refl eq_refl eq_refl)
    as (d' & Hd' & Hcount & Hrunning & Hsuccess & Hpoll);
    [simpl; lia|].
  exists d'. split; [exact Hd'|]. split; [exact Hcount|].
  split; [exact Hrunning|]. split; [exact Hsuccess|].
  destruct (Hpoll eq_refl) as (d'' & Hstep & Hidle & Hie & _).
  exists d''. auto.
Defined.

(** * The device phase by phase, and its functions one by one *)

(** ** The phases in every reachable state *)

#[local] Arguments Z.lor : simpl never.
#[local] Arguments Z.ldiff : simpl never.
#[local] Arguments Z.land : simpl never.
#[local] Arguments Z.testbit : simpl never.
#[local] Arguments Z.modulo : simpl never.
#[local] Arguments Z.ltb : simpl never.
#[local] Arguments BIT : simpl never.

Lemma led_off_bit x n :
  Z.testbit (Z.ldiff (Z.lor x (BIT 13)) 0) n = Z.testbit x n || (13 =? n).
Proof.
  rewrite Z.ldiff_0_r, Z.lor_spec, testbit_BIT by lia. reflexivity.
Qed.

Lemma led_on_bit x n :
  Z.testbit (Z.ldiff (Z.lor x 0) (BIT 13)) n = Z.testbit x n && negb (13 =? n).
Proof.
  rewrite Z.lor_0_r, Z.ldiff_spec, testbit_BIT by lia. reflexivity.
Qed.

Lemma relay_on_bit x n :
  Z.testbit (Z.ldiff (Z.lor x (BIT 12)) 0) n = Z.testbit x n || (12 =? n).
Proof.
  rewrite Z.ldiff_0_r, Z.lor_spec, testbit_BIT by lia. reflexivity.
Qed.

Ltac unfold_pins :=
  unfold status_led_is_off, output_power, STATUS_LED_GPIO,
    OUTPUT_POWER_RELAY_GPIO, BUTTON_INTERRUPT_GPIO in *.

Ltac pin_solve :=
  rewrite ?led_off_bit, ?led_on_bit, ?relay_on_bit;
  repeat match goal with
    | H : Z.testbit _ _ = _ |- _ => rewrite H
    end;
  simpl; rewrite ?andb_false_r, ?andb_true_r, ?orb_true_r, ?orb_false_r;
  reflexivity.

Ltac break_hyps :=
  repeat match goal with
    | H : _ /\ _ |- _ => destruct H as [? ?]
    | H : {| led_blink_timer := _ |} = {| led_blink_timer := _ |} |- _ =>
        injection H as ? ? ?
    | H : {| udp_com_socket := _ |} = {| udp_com_socket := _ |} |- _ =>
        injection H as ? ?
    | H : {| esptouch_start_cb_set := _ |} = {| esptouch_start_cb_set := _ |} |- _ =>
        injection H as ? ? ?
    | H : Some _ = Some _ |- _ => injection H as ?
    | H : _ :: _ = _ :: _ |- _ => injection H as ? ?
    end; subst.

Ltac phase_goal :=
  unfold phase_idle, phase_provisioning, phase_routing, timeout_timer_live,
    led_blink_timer_armed, watchdog_armed, vital_sign_timer_armed,
    poll_timer_armed, os_timer_arm, os_timer_setfn, os_timer_disarm,
    os_zalloc_timer, timer_fired in *;
  unfold_pins; simpl in *.

Ltac phase_close :=
  solve [ repeat split; simpl; auto; try discriminate; try congruence;
          try pin_solve; try (intros; discriminate) ].

Ltac phase_solve :=
  constructor;
    [ phase_goal;
      first [ left; phase_close | right; left; phase_close
            | right; right; phase_close ]
    | simpl; reflexivity
    | unfold_pins; simpl; try assumption; pin_solve ].

Section Phases.

Context {lw : lwip_napt}.
Variable cfg : user_config.

Lemma user_init_device_inv g opmode env :
  device_inv cfg (user_init env (power_on g opmode)).
Proof.
  unfold user_init, gpio_pins_init. unfold_handlers. unfold_pins.
  unfold output_power_on.
  destruct (wifi_set_opmode_ok env); simpl;
    (constructor; [left; unfold phase_idle|reflexivity|]); unfold_pins; simpl;
    rewrite ?Z.lor_0_r, ?Z.ldiff_0_r; rewrite ?Z.lor_spec, ?testbit_BIT by lia;
    simpl; rewrite ?orb_true_r; auto 10.
Qed.

Lemma step_device_inv e env d d' :
  device_inv cfg d -> step cfg e env d = Some d' -> device_inv cfg d'.
Proof.
  intros [Hphase Horph Hrelay].
  destruct_device d. simpl in Horph. subst orph.
  unfold_pins. simpl in Hrelay.
  destruct Hphase as [Hp|[Hp|Hp]]; phase_goal; break_hyps.
  - (* idle *)
    destruct e as [|h|s|evt]; simpl; unfold_handlers; unfold_pins; simpl.
    + case_split; intros [= <-]; phase_solve.
    + destruct h as [| |i| |i|]; simpl; try (intros [= <-]; phase_solve).
    + case_split; intros [= <-]; try phase_solve.
      all: destruct s; simpl; case_split; phase_solve.
    + intros [= <-]; phase_solve.
  - (* provisioning *)
    match goal with H : _ \/ _ |- _ => destruct H end;
    match goal with H : ?r = false -> ?t = None |- _ =>
      destruct t as [[? ? ? ?]|]; destruct r
    end; simpl in *; break_hyps;
    try match goal with H : ?a = ?a -> _ |- _ => specialize (H eq_refl) end;
    try discriminate.
    all: destruct e as [|h|s|evt];
      [ | destruct h as [| |[|i]| |i|] | destruct s | destruct evt ];
      simpl; unfold_handlers; unfold_pins; simpl;
      case_split; try discriminate; intros [= <-].
    all: phase_solve.
  - (* routing *)
    match goal with H : match ?s with _ => _ end |- _ =>
      destruct s as [[? ?]|]
    end; simpl in *; break_hyps;
    try match goal with H : _ \/ _ |- _ => destruct H end; subst.
    all: destruct e as [|h|s|evt];
      [ | destruct h as [| |[|i]| |i|] | destruct s | destruct evt ];
      simpl; unfold_handlers; unfold_pins; simpl;
      case_split; try discriminate; intros [= <-].
    all: phase_solve.
Qed.

Lemma reachable_device_inv d : reachable cfg d -> device_inv cfg d.
Proof.
  induction 1 as [g opmode env|d e env d' _ IH Hstep].
  - apply user_init_device_inv.
  - exact (step_device_inv e env d d' IH Hstep).
Qed.

(** The phases exclude each other and follow the lifecycle state. *)
Lemma phase_lifecycle d :
  device_inv cfg d ->
  match lifecycle d with
  | Idle => phase_idle d
  | Provisioning => phase_provisioning cfg d
  | Routing => phase_routing cfg d
  end.
Proof.
  intros [Hphase _ _]. unfold lifecycle.
  destruct Hphase as [Hp|[Hp|Hp]]; pose proof Hp as Hp';
    unfold phase_idle, phase_provisioning, phase_routing in Hp';
    destruct_device d; simpl in *; break_hyps; simpl; assumption.
Qed.

(** A fault needs the poll that ends a successful provisioning and a
    [proto.udp] that cannot be allocated. *)
Lemma step_fault e env d :
  device_inv cfg d -> step cfg e env d = None ->
  e = Timer_expired (ESPTOUCH_WAIT_TIMER 0)
  /\ lifecycle d = Provisioning
  /\ esptouch_is_running d = false /\ esptouch_was_successful d = true
  /\ zalloc_udp_com_socket env = true /\ zalloc_proto_udp env = false.
Proof.
  intros [Hphase Horph Hrelay].
  destruct_device d. simpl in Horph. subst orph.
  unfold_pins. simpl in Hrelay. unfold lifecycle.
  destruct Hphase as [Hp|[Hp|Hp]]; phase_goal; break_hyps.
  - destruct e as [|h|s|evt];
      [ | destruct h as [| |[|i]| |i|] | destruct s | destruct evt ];
      simpl; unfold_handlers; unfold_pins; simpl;
      case_split; discriminate.
  - match goal with H : _ \/ _ |- _ => destruct H end;
    match goal with H : ?r = false -> ?t = None |- _ =>
      destruct t as [[? ? ? ?]|]; destruct r
    end; simpl in *; break_hyps;
    try match goal with H : ?a = ?a -> _ |- _ => specialize (H eq_refl) end;
    try discriminate.
    all: destruct e as [|h|s|evt];
      [ | destruct h as [| |[|i]| |i|] | destruct s | destruct evt ];
      simpl; unfold_handlers; unfold_pins; simpl;
      case_split; try discriminate; auto 10.
  - match goal with H : match ?s with _ => _ end |- _ =>
      destruct s as [[? ?]|]
    end; simpl in *; break_hyps;
    try match goal with H : _ \/ _ |- _ => destruct H end; subst.
    all: destruct e as [|h|s|evt];
      [ | destruct h as [| |[|i]| |i|] | destruct s | destruct evt ];
      simpl; unfold_handlers; unfold_pins; simpl;
      case_split; discriminate.
Qed.

(** X1: in every reachable state the button interrupt is enabled exactly
    when the device is idle, and an idle device holds no timer at all: the
    blink, watchdog, poll, provisioning-timeout and vital-sign handles are
    null, the responder socket is released, the status LED is off, no
    provisioning runs and no WiFi event handler is registered. *)
Theorem idle_holds_no_resource d :
  reachable cfg d ->
  (gpio_intr_enabled (gpio d) = true <-> lifecycle d = Idle)
  /\ (lifecycle d = Idle ->
      led_blink_timer (main d) = None
      /\ router_conn_timeout_wdt (main d) = None
      /\ esptouch_wait_timers (main d) = []
      /\ esptouch_timeout_timer (touch d) = None
      /\ vital_sign_timer (info d) = None
      /\ udp_com_socket (info d) = None
      /\ status_led_is_off d = true
      /\ esptouch_is_running d = false
      /\ wifi_event_handler (wifi d) = false).
Proof.
  intros Hreach.
  pose proof (phase_lifecycle d (reachable_device_inv d Hreach)) as Hphase.
  destruct (lifecycle d);
    unfold phase_idle, phase_provisioning, phase_routing in Hphase;
    destruct_device d; simpl in *; break_hyps;
    (split; [split; congruence|]); try (intros; discriminate).
  intros _. unfold esptouch_is_running. simpl. auto 10.
Qed.

(** X2: in every reachable state in which the device is provisioning there
    is exactly one poll timer, armed every 500 ms with
    [esptouch_over_timerfunc]; the watchdog is allocated but not armed; the
    blink timer is armed with [LED_BLINK_INTERVAL] or absent; the responder
    is not started; the event handler is registered; and a provisioning
    that no longer runs has released its timeout timer. *)
Theorem provisioning_resources d :
  reachable cfg d -> lifecycle d = Provisioning ->
  esptouch_wait_timers (main d) = [poll_timer_armed]
  /\ router_conn_timeout_wdt (main d) = Some os_zalloc_timer
  /\ (led_blink_timer (main d) = None
      \/ led_blink_timer (main d) = Some (led_blink_timer_armed cfg))
  /\ info d = {| udp_com_socket := None; vital_sign_timer := None |}
  /\ wifi_event_handler (wifi d) = true
  /\ gpio_intr_enabled (gpio d) = false
  /\ (esptouch_is_running d = false -> esptouch_timeout_timer (touch d) = None).
Proof.
  intros Hreach Hlife.
  pose proof (phase_lifecycle d (reachable_device_inv d Hreach)) as Hphase.
  rewrite Hlife in Hphase. unfold phase_provisioning in Hphase.
  unfold esptouch_is_running. intuition.
Qed.

(** X3: in every reachable state in which the device is routing the
    watchdog is armed periodically with [ROUTER_CONN_TIMEOUT_WDT_INTERVAL]
    and [router_conn_timeout_wdtfunc], the blink timer is released and the
    status LED is on, provisioning has ended with success and released its
    timeout timer, and the event handler is registered. *)
Theorem routing_resources d :
  reachable cfg d -> lifecycle d = Routing ->
  router_conn_timeout_wdt (main d) = Some (watchdog_armed cfg)
  /\ led_blink_timer (main d) = None
  /\ esptouch_wait_timers (main d) = []
  /\ status_led_is_off d = false
  /\ esptouch_is_running d = false /\ esptouch_was_successful d = true
  /\ esptouch_timeout_timer (touch d) = None
  /\ wifi_event_handler (wifi d) = true
  /\ gpio_intr_enabled (gpio d) = false.
Proof.
  intros Hreach Hlife.
  pose proof (phase_lifecycle d (reachable_device_inv d Hreach)) as Hphase.
  rewrite Hlife in Hphase. unfold phase_routing in Hphase.
  unfold esptouch_is_running, esptouch_was_successful.
  destruct_device d. simpl in *. break_hyps. auto 10.
Qed.

(** X4: the relay stays energized: in every reachable state the
    output-power pin is high, as [gpio_pins_init] left it. *)
Theorem output_power_stays_on d : reachable cfg d -> output_power d = true.
Proof. intros Hreach. exact (inv_relay cfg d (reachable_device_inv d Hreach)). Qed.

(** X5: no timer is lost: in every reachable state [esptouch_init] has
    never overwritten a timeout handle that still pointed to a timer. *)
Theorem no_timer_is_orphaned d : reachable cfg d -> orphan_timers d = [].
Proof.
  intros Hreach. exact (inv_no_orphan cfg d (reachable_device_inv d Hreach)).
Qed.

(** X6: a reachable device faults on an event exactly when that event is
    the poll that finds provisioning ended with success while the
    responder socket can be allocated but its [proto.udp] cannot:
    [device_info_init] then stores through the socket pointer that
    [device_info_disable] has just nulled.  No other event faults. *)
Theorem fault_only_in_device_info_init e env d :
  reachable cfg d ->
  (step cfg e env d = None <->
   e = Timer_expired (ESPTOUCH_WAIT_TIMER 0)
   /\ lifecycle d = Provisioning
   /\ esptouch_is_running d = false /\ esptouch_was_successful d = true
   /\ zalloc_udp_com_socket env = true /\ zalloc_proto_udp env = false).
Proof.
  intros Hreach.
  pose proof (reachable_device_inv d Hreach) as Hinv.
  split; [apply step_fault, Hinv|].
  intros (-> & Hlife & Hrun & Hsuc & Hsock & Hproto).
  pose proof (phase_lifecycle d Hinv) as Hphase.
  rewrite Hlife in Hphase. unfold phase_provisioning in Hphase.
  unfold esptouch_is_running, esptouch_was_successful in *.
  destruct_device d. simpl in *. break_hyps.
  unfold poll_timer_armed. simpl.
  unfold esptouch_over_timerfunc, device_info_init.
  destruct lb; simpl; rewrite Hsock, Hproto; reflexivity.
Qed.

(** X7: when the poll finds provisioning ended with success, and the
    responder's memory is either all available or not available at all, the
    device starts routing: the poll timer is gone, the blink timer is
    released and the LED is on, the watchdog is armed, the responder socket
    listens on [DEVICE_COM_PORT] if it could be allocated, and the
    vital-sign timer is armed if socket and timer could be allocated.  The
    provisioning variables, the connection flag and the port map are
    untouched. *)
Theorem poll_after_success_starts_routing env d :
  reachable cfg d -> lifecycle d = Provisioning ->
  esptouch_is_running d = false -> esptouch_was_successful d = true ->
  zalloc_udp_com_socket env = false \/ zalloc_proto_udp env = true ->
  exists d',
    step cfg (Timer_expired (ESPTOUCH_WAIT_TIMER 0)) env d = Some d'
    /\ lifecycle d' = Routing
    /\ main d' = {| led_blink_timer := None;
                    router_conn_timeout_wdt := Some (watchdog_armed cfg);
                    esptouch_wait_timers := [] |}
    /\ status_led_is_off d' = false
    /\ udp_com_socket (info d')
       = (if zalloc_udp_com_socket env
          then Some {| proto_udp := Some DEVICE_COM_PORT;
                       recv_cb_registered := espconn_create_ok env |}
          else None)
    /\ vital_sign_timer (info d')
       = (if zalloc_udp_com_socket env && zalloc_vital_sign_timer env
          then Some (vital_sign_timer_armed cfg) else None)
    /\ touch d' = touch d /\ router_connected d' = router_connected d
    /\ ip_portmap_table d' = ip_portmap_table d
    /\ output_power d' = true.
Proof.
  intros Hreach Hlife Hrun Hsuc Hmem.
  pose proof (reachable_device_inv d Hreach) as Hinv.
  pose proof (inv_relay cfg d Hinv) as Hrelay.
  pose proof (phase_lifecycle d Hinv) as Hphase.
  rewrite Hlife in Hphase. unfold phase_provisioning in Hphase.
  unfold esptouch_is_running, esptouch_was_successful in *.
  destruct_device d. unfold_pins. simpl in *. break_hyps.
  unfold poll_timer_armed. simpl.
  unfold esptouch_over_timerfunc, device_info_init, vital_sign_bcast_start,
    lifecycle, watchdog_armed, vital_sign_timer_armed.
  unfold_handlers. unfold_pins.
  destruct Hmem as [Hmem|Hmem]; rewrite Hmem; simpl;
    destruct lb; simpl; case_split;
    (eexists; split; [reflexivity|]); simpl;
    repeat split; try reflexivity; pin_solve.
Qed.

(** X8: while the device is routing, a watchdog tick that finds the router
    connected changes nothing, and a disconnect event followed by a
    watchdog tick brings the device back to idle with every timer released,
    the responder stopped, the LED off, the interrupt enabled and the relay
    still energized. *)
Theorem disconnect_then_watchdog_tears_down env env' d :
  reachable cfg d -> lifecycle d = Routing ->
  (router_connected d = true ->
   step cfg (Timer_expired ROUTER_CONN_TIMEOUT_WDT) env' d = Some d)
  /\ exists d',
       run cfg [ (Wifi_event EVENT_STAMODE_DISCONNECTED, env);
                 (Timer_expired ROUTER_CONN_TIMEOUT_WDT, env') ] d = Some d'
       /\ lifecycle d' = Idle
       /\ main d' = {| led_blink_timer := None; router_conn_timeout_wdt := None;
                       esptouch_wait_timers := [] |}
       /\ info d' = {| udp_com_socket := None; vital_sign_timer := None |}
       /\ status_led_is_off d' = true
       /\ gpio_intr_enabled (gpio d') = true
       /\ output_power d' = true.
Proof.
  intros Hreach Hlife.
  pose proof (reachable_device_inv d Hreach) as Hinv.
  pose proof (inv_relay cfg d Hinv) as Hrelay.
  pose proof (phase_lifecycle d Hinv) as Hphase.
  rewrite Hlife in Hphase. unfold phase_routing in Hphase.
  destruct_device d. unfold_pins. simpl in *. break_hyps.
  unfold watchdog_armed. simpl. split.
  - intros ->. unfold router_conn_timeout_wdtfunc. simpl. reflexivity.
  - unfold router_conn_timeout_wdtfunc, lifecycle. unfold_handlers.
    unfold_pins. simpl.
    case_split; (eexists; split; [reflexivity|]); simpl;
      repeat split; try reflexivity; pin_solve.
Qed.

(** X9: in a reachable state with provisioning running, the
    link-established event ends the session: it no longer runs, it was
    successful, the timeout timer is released so that no timeout can follow,
    smartconfig is stopped and the attempt counter keeps its value. *)
Theorem link_over_ends_running_session env d :
  reachable cfg d -> esptouch_is_running d = true ->
  esptouch_is_running (esptouch_status_cb cfg SC_STATUS_LINK_OVER env d) = false
  /\ esptouch_was_successful
       (esptouch_status_cb cfg SC_STATUS_LINK_OVER env d) = true
  /\ esptouch_timeout_timer
       (touch (esptouch_status_cb cfg SC_STATUS_LINK_OVER env d)) = None
  /\ smartconfig_active
       (wifi (esptouch_status_cb cfg SC_STATUS_LINK_OVER env d)) = false
  /\ esptouch_attempt_count
       (touch (esptouch_status_cb cfg SC_STATUS_LINK_OVER env d))
     = esptouch_attempt_count (touch d).
Proof.
  intros Hreach Hrun.
  pose proof (inv_phase cfg d (reachable_device_inv d Hreach)) as Hphase.
  unfold esptouch_is_running, esptouch_was_successful in *.
  unfold phase_idle, phase_provisioning, phase_routing in Hphase.
  destruct_device d. simpl in *.
  destruct Hphase as [Hp|[Hp|Hp]]; break_hyps; try discriminate.
  unfold esptouch_success_cb, smartconfig_stop. simpl.
  destruct tmo; simpl; auto.
Qed.

End Phases.

(** ** The GPIO pins *)

Lemma land_BIT x k :
  0 <= k -> (Z.land x (BIT k) =? 0) = negb (Z.testbit x k).
Proof.
  intros Hk.
  assert (Z.land x (BIT k) = if Z.testbit x k then BIT k else 0) as ->.
  { apply Z.bits_inj'. intros n Hn.
    rewrite Z.land_spec, testbit_BIT by exact Hk.
    destruct (Z.eqb_spec k n) as [->|Hne].
    - destruct (Z.testbit x n); [|rewrite Z.bits_0; reflexivity].
      rewrite testbit_BIT by exact Hn. rewrite Z.eqb_refl. reflexivity.
    - rewrite andb_false_r.
      destruct (Z.testbit x k); [|rewrite Z.bits_0; reflexivity].
      rewrite testbit_BIT by exact Hk.
      symmetry. apply Z.eqb_neq. exact Hne. }
  destruct (Z.testbit x k); [|reflexivity].
  apply Z.eqb_neq. unfold BIT. rewrite Z.shiftl_1_l.
  apply Z.pow_nonzero; lia.
Qed.

(** X10: [led_blink_timerfunc] toggles the status LED and nothing else:
    the LED changes state, every other output pin keeps its level, two
    ticks in a row restore the output register, and no variable of the
    program changes. *)
Theorem led_blink_timerfunc_toggles d :
  status_led_is_off (led_blink_timerfunc d) = negb (status_led_is_off d)
  /\ (forall n, n <> STATUS_LED_GPIO ->
        Z.testbit (gpio_out (gpio (led_blink_timerfunc d))) n
        = Z.testbit (gpio_out (gpio d)) n)
  /\ gpio_out (gpio (led_blink_timerfunc (led_blink_timerfunc d)))
     = gpio_out (gpio d)
  /\ main (led_blink_timerfunc d) = main d
  /\ touch (led_blink_timerfunc d) = touch d
  /\ info (led_blink_timerfunc d) = info d
  /\ router_connected (led_blink_timerfunc d) = router_connected d
  /\ gpio_intr_enabled (gpio (led_blink_timerfunc d))
     = gpio_intr_enabled (gpio d).
Proof.
  assert (forall d n,
    Z.testbit (gpio_out (gpio (led_blink_timerfunc d))) n
    = if 13 =? n then negb (Z.testbit (gpio_out (gpio d)) 13)
      else Z.testbit (gpio_out (gpio d)) n) as Hbit.
  { intros d0 n. unfold led_blink_timerfunc.
    unfold_pins. rewrite land_BIT by lia.
    destruct (Z.testbit (gpio_out (gpio d0)) 13) eqn:Hled;
      cbn [negb]; unfold status_led_on, status_led_off; unfold_pins;
      cbn [gpio upd_gpio gpio_out gpio_output_set];
      rewrite ?led_on_bit, ?led_off_bit;
      destruct (Z.eqb_spec 13 n) as [<-|]; cbn [negb];
      rewrite ?Hled, ?andb_true_r, ?andb_false_r, ?orb_true_r, ?orb_false_r;
      reflexivity. }
  split; [|split; [|split]].
  - unfold status_led_is_off, STATUS_LED_GPIO. rewrite Hbit. reflexivity.
  - intros n Hn. rewrite Hbit. unfold STATUS_LED_GPIO in Hn.
    destruct (Z.eqb_spec 13 n); [congruence|reflexivity].
  - apply Z.bits_inj'. intros n _. rewrite !Hbit.
    destruct (Z.eqb_spec 13 n) as [<-|]; [|reflexivity].
    rewrite Z.eqb_refl. apply negb_involutive.
  - unfold led_blink_timerfunc.
    destruct (_ =? _); destruct_device d; simpl; auto 10.
Qed.

(** X11: whatever the registers and the stored mode hold at reset,
    [user_init] leaves the status LED off and the relay energized with both
    pins driven, the button pin an input, the button interrupt enabled with
    its latch cleared, the station disconnected, no event handler, no
    timer, and every other output pin as the hardware had it. *)
Theorem user_init_state g opmode env :
  status_led_is_off (user_init env (power_on g opmode)) = true
  /\ output_power (user_init env (power_on g opmode)) = true
  /\ Z.testbit (gpio_enable (gpio (user_init env (power_on g opmode))))
       STATUS_LED_GPIO = true
  /\ Z.testbit (gpio_enable (gpio (user_init env (power_on g opmode))))
       OUTPUT_POWER_RELAY_GPIO = true
  /\ Z.testbit (gpio_enable (gpio (user_init env (power_on g opmode))))
       BUTTON_INTERRUPT_GPIO = false
  /\ gpio_intr_enabled (gpio (user_init env (power_on g opmode))) = true
  /\ Z.testbit (gpio_status (gpio (user_init env (power_on g opmode))))
       BUTTON_INTERRUPT_GPIO = false
  /\ (forall n, n <> STATUS_LED_GPIO -> n <> OUTPUT_POWER_RELAY_GPIO ->
        Z.testbit (gpio_out (gpio (user_init env (power_on g opmode)))) n
        = Z.testbit (gpio_out g) n)
  /\ lifecycle (user_init env (power_on g opmode)) = Idle
  /\ wifi_station_active (wifi (user_init env (power_on g opmode))) = false
  /\ wifi_event_handler (wifi (user_init env (power_on g opmode))) = false
  /\ (wifi_set_opmode_ok env = true ->
      wifi_opmode (wifi (user_init env (power_on g opmode))) = NULL_MODE).
Proof.
  unfold user_init, gpio_pins_init, wifi_set_opmode, status_led_off,
    output_power_on, lifecycle.
  unfold_pins.
  destruct (wifi_set_opmode_ok env); destruct g as [out en st ie];
    cbn -[Z.lor Z.ldiff Z.testbit BIT];
    rewrite !Z.ldiff_0_r, ?Z.lor_0_r;
    rewrite ?Z.ldiff_spec, ?Z.lor_spec, ?testbit_BIT by lia;
    cbn -[Z.testbit];
    rewrite ?orb_true_r, ?andb_false_r;
    repeat split; try reflexivity; try discriminate;
    intros n H13 H12; rewrite !Z.lor_spec, !testbit_BIT by lia;
    destruct (Z.eqb_spec 13 n), (Z.eqb_spec 12 n); try congruence;
    rewrite !orb_false_r; reflexivity.
Qed.

(** ** Starting the router *)

Section Enable.

Context {lw : lwip_napt}.
Variable cfg : user_config.

Lemma router_enable_unfold env d :
  router_enable cfg env d
  = if ptr_true (router_conn_timeout_wdt
                   (main (router_enable_allocated cfg env d)))
       && zalloc_esptouch_wait_timer env
    then (esptouch_init cfg env
            (router_init cfg
               (upd_main
                  (set_esptouch_wait_timers
                     (esptouch_wait_timers
                        (main (router_enable_allocated cfg env d))
                      ++ [ os_timer_arm 500 true
                             (os_timer_setfn (Some Esptouch_over_timerfunc)
                                (os_timer_disarm os_zalloc_timer)) ]))
                  (router_enable_allocated cfg env d))), true)
    else (router_disable_cb env (router_enable_allocated cfg env d), false).
Proof. reflexivity. Qed.

Lemma router_enable_allocated_state env d :
  ptr_true (router_conn_timeout_wdt (main (router_enable_allocated cfg env d)))
  = ptr_true (router_conn_timeout_wdt (main d))
    || zalloc_router_conn_timeout_wdt env
  /\ router_conn_timeout_wdt (main (router_enable_allocated cfg env d))
     = match router_conn_timeout_wdt (main d) with
       | Some w => Some w
       | None => if zalloc_router_conn_timeout_wdt env
                 then Some os_zalloc_timer else None
       end
  /\ led_blink_timer (main (router_enable_allocated cfg env d))
     = match led_blink_timer (main d) with
       | Some t => Some t
       | None => if zalloc_led_blink_timer env
                 then Some (led_blink_timer_armed cfg) else None
       end
  /\ esptouch_wait_timers (main (router_enable_allocated cfg env d))
     = esptouch_wait_timers (main d)
  /\ touch (router_enable_allocated cfg env d) = touch d
  /\ info (router_enable_allocated cfg env d) = info d
  /\ router_connected (router_enable_allocated cfg env d) = router_connected d
  /\ ip_portmap_table (router_enable_allocated cfg env d) = ip_portmap_table d
  /\ orphan_timers (router_enable_allocated cfg env d) = orphan_timers d
  /\ gpio (router_enable_allocated cfg env d) = gpio d
  /\ wifi (router_enable_allocated cfg env d) = wifi d.
Proof.
  destruct_device d. unfold router_enable_allocated. simpl.
  destruct lb, wdt, (zalloc_led_blink_timer env),
    (zalloc_router_conn_timeout_wdt env); simpl; auto 12.
Qed.

(** X12: [router_enable] succeeds exactly when a watchdog handle exists or
    can be allocated and the poll timer can be allocated; a missing blink
    timer does not make it fail.  When it fails it has run the teardown:
    the blink and watchdog handles are null (a blink timer allocated on the
    way is released), no poll timer is added, the interrupt is enabled, the
    LED is off, and provisioning was not started. *)
Theorem router_enable_failure_releases env d :
  snd (router_enable cfg env d)
  = (ptr_true (router_conn_timeout_wdt (main d))
     || zalloc_router_conn_timeout_wdt env)
    && zalloc_esptouch_wait_timer env
  /\ (snd (router_enable cfg env d) = false ->
      main (fst (router_enable cfg env d))
      = {| led_blink_timer := None; router_conn_timeout_wdt := None;
           esptouch_wait_timers := esptouch_wait_timers (main d) |}
      /\ info (fst (router_enable cfg env d))
         = {| udp_com_socket := None; vital_sign_timer := None |}
      /\ touch (fst (router_enable cfg env d)) = touch d
      /\ router_connected (fst (router_enable cfg env d)) = router_connected d
      /\ ip_portmap_table (fst (router_enable cfg env d)) = ip_portmap_table d
      /\ orphan_timers (fst (router_enable cfg env d)) = orphan_timers d
      /\ gpio_intr_enabled (gpio (fst (router_enable cfg env d))) = true
      /\ status_led_is_off (fst (router_enable cfg env d)) = true).
Proof.
  rewrite router_enable_unfold.
  destruct (router_enable_allocated_state env d)
    as (Hwdt & _ & _ & Hpolls & Htouch & _ & Hrc & Htbl & Horph & _).
  rewrite Hwdt.
  destruct ((ptr_true (router_conn_timeout_wdt (main d))
             || zalloc_router_conn_timeout_wdt env)
            && zalloc_esptouch_wait_timer env); cbn [fst snd].
  - split; [reflexivity|discriminate].
  - split; [reflexivity|]. intros _.
    pose proof (router_disable_cb_resources env
                  (router_enable_allocated cfg env d))
      as (_ & _ & _ & Hoff & Hie & _).
    destruct (router_disable_cb_frame env (router_enable_allocated cfg env d))
      as (-> & -> & -> & ->).
    rewrite router_disable_cb_main, router_disable_cb_info, Hoff, Hie.
    rewrite Hpolls, Htouch, Hrc, Htbl, Horph. auto 10.
Qed.

(** X13: when [router_enable] succeeds it has appended one poll timer,
    armed every 500 ms, kept or allocated the watchdog without arming it,
    cleared [router_connected], registered the event handler, and started
    provisioning at attempt 1 with smartconfig active; the blink timer is
    the one the device had, or a new one armed with [LED_BLINK_INTERVAL],
    or null when none could be allocated; the GPIO block and the responder
    are untouched. *)
Theorem router_enable_success_state env d :
  snd (router_enable cfg env d) = true ->
  esptouch_wait_timers (main (fst (router_enable cfg env d)))
  = esptouch_wait_timers (main d) ++ [poll_timer_armed]
  /\ router_conn_timeout_wdt (main (fst (router_enable cfg env d)))
     = match router_conn_timeout_wdt (main d) with
       | Some w => Some w
       | None => Some os_zalloc_timer
       end
  /\ led_blink_timer (main (fst (router_enable cfg env d)))
     = match led_blink_timer (main d) with
       | Some t => Some t
       | None => if zalloc_led_blink_timer env
                 then Some (led_blink_timer_armed cfg) else None
       end
  /\ session_flags (fst (router_enable cfg env d)) = (true, false, 1)
  /\ router_connected (fst (router_enable cfg env d)) = false
  /\ wifi_event_handler (wifi (fst (router_enable cfg env d))) = true
  /\ smartconfig_active (wifi (fst (router_enable cfg env d))) = true
  /\ gpio (fst (router_enable cfg env d)) = gpio d
  /\ info (fst (router_enable cfg env d)) = info d.
Proof.
  rewrite router_enable_unfold.
  destruct (router_enable_allocated_state env d)
    as (Hwdt & Hwdt' & Hled & Hpolls & _ & Hinfo & _ & _ & _ & Hgpio & _).
  destruct (ptr_true (router_conn_timeout_wdt
                        (main (router_enable_allocated cfg env d)))
            && zalloc_esptouch_wait_timer env) eqn:Hgo; cbn [fst snd];
    [intros _|discriminate].
  rewrite session_flags_init.
  match goal with |- context [esptouch_init cfg env ?x] =>
    destruct (esptouch_init_frame cfg env x) as (-> & -> & -> & _ & ->)
  end.
  cbn [router_init upd_main main set_esptouch_wait_timers esptouch_wait_timers
       router_conn_timeout_wdt led_blink_timer info gpio
       wifi_set_event_handler_cb upd_wifi set_ip_portmap_table
       set_router_connected router_connected].
  rewrite Hwdt', Hled, Hpolls, Hinfo, Hgpio.
  apply andb_true_iff in Hgo as [Hgo _]. rewrite Hwdt in Hgo.
  repeat split; try reflexivity.
  - destruct (router_conn_timeout_wdt (main d)); [reflexivity|].
    simpl in Hgo. rewrite Hgo. reflexivity.
  - destruct_device d. unfold esptouch_init, esptouch_arm_timeout,
      wifi_set_opmode. simpl. case_split; reflexivity.
Qed.

End Enable.

(** ** The load of the port map, slot by slot *)

Section PortMapLoad.

Context {lw : lwip_napt}.

(** The slots [portmap_load] hands to the engine. *)
Lemma portmap_load_filter slots table :
  portmap_load slots table
  = portmap_load
      (List.filter (fun ns => portmap_slot_loadable (snd ns)) slots) table.
Proof.
  revert table.
  induction slots as [|[n s] rest IH]; intros table; [reflexivity|].
  simpl. unfold portmap_slot_loadable at 1.
  destruct (c_true (PORTMAP_ENABLE s)) eqn:Hen;
    [destruct (portmap_slot_complete s) eqn:Hco|]; simpl; try apply IH.
  rewrite Hen, Hco.
  destruct (ip_portmap_add _ _ _ _ _ _ _) as [table' r].
  destruct (c_true r); [|reflexivity].
  rewrite IH. reflexivity.
Qed.

(** The calls of a load follow the loadable slots, in their order, up to
    the first failure. *)
Lemma portmap_load_calls_prefix slots table :
  exists rest,
    map fst (List.filter (fun ns => portmap_slot_loadable (snd ns)) slots)
    = map call_slot (load_calls (portmap_load slots table)) ++ rest
    /\ (load_ok (portmap_load slots table) = true -> rest = []).
Proof.
  revert table.
  induction slots as [|[n s] tl IH]; intros table; simpl.
  { exists []. split; reflexivity. }
  unfold portmap_slot_loadable at 1.
  destruct (c_true (PORTMAP_ENABLE s));
    [destruct (portmap_slot_complete s)|]; simpl; try apply IH.
  destruct (ip_portmap_add _ _ _ _ _ _ _) as [table' r].
  destruct (c_true r).
  - destruct (IH table') as (rest & Heq & Hok).
    destruct (portmap_load tl table') as [[t'' calls] ok].
    unfold load_calls, load_ok in *; simpl in *.
    exists rest. rewrite Heq. split; [reflexivity|exact Hok].
  - unfold load_calls, load_ok; simpl.
    eexists. split; [reflexivity|discriminate].
Qed.

Lemma portmap_load_calls_sorted slots table :
  StronglySorted lt (map fst slots) ->
  StronglySorted lt (map call_slot (load_calls (portmap_load slots table))).
Proof.
  intros Hsorted. revert table.
  induction slots as [|[n s] tl IH]; intros table; simpl; [constructor|].
  apply sorted_slots_head in Hsorted as [Htl Hn].
  destruct (c_true (PORTMAP_ENABLE s)); [|apply IH; assumption].
  destruct (portmap_slot_complete s); [|apply IH; assumption].
  destruct (ip_portmap_add _ _ _ _ _ _ _) as [table' r].
  destruct (c_true r).
  - specialize (IH Htl table').
    pose proof (portmap_load_call_origin tl table') as Horigin.
    destruct (portmap_load tl table') as [[t'' calls] ok].
    unfold load_calls in *; simpl in *.
    constructor; [exact IH|].
    apply List.Forall_forall. intros x Hx.
    apply in_map_iff in Hx as (c & <- & Hc).
    destruct (Horigin c Hc) as (s0 & Hs0 & _). eapply Hn, Hs0.
  - unfold load_calls; simpl. repeat constructor.
Qed.

Lemma portmap_load_calls_length slots table :
  (length (load_calls (portmap_load slots table)) <= length slots)%nat.
Proof.
  revert table.
  induction slots as [|[n s] tl IH]; intros table; simpl; [reflexivity|].
  destruct (c_true (PORTMAP_ENABLE s));
    [destruct (portmap_slot_complete s)|];
    try (etransitivity; [apply IH|lia]).
  destruct (ip_portmap_add _ _ _ _ _ _ _) as [table' r].
  destruct (c_true r).
  - specialize (IH table').
    destruct (portmap_load tl table') as [[t'' calls] ok].
    unfold load_calls in *; simpl in *. lia.
  - unfold load_calls; simpl. lia.
Qed.

Lemma portmap_load_nothing slots table :
  (forall n s, In (n, s) slots -> portmap_slot_loadable s = false) ->
  portmap_load slots table = (table, [], true).
Proof.
  induction slots as [|[n s] tl IH]; intros Hnone; [reflexivity|].
  pose proof (Hnone n s (or_introl eq_refl)) as Hs.
  unfold portmap_slot_loadable in Hs. simpl.
  destruct (c_true (PORTMAP_ENABLE s));
    [destruct (portmap_slot_complete s); [discriminate|]|];
    apply IH; intros n0 s0 Hin; apply (Hnone n0 s0); right; exact Hin.
Qed.

(** X14: a slot that is disabled or incomplete takes no part in
    [portmap_init]: table, calls and result are those of the load of the
    enabled, complete slots alone.  With no such slot, [portmap_init] makes
    no call, leaves the table as it is and reports success. *)
Theorem portmap_init_skips_unloadable cfg table :
  portmap_init cfg table
  = portmap_load
      (List.filter (fun ns => portmap_slot_loadable (snd ns))
         (portmap_slots cfg)) table
  /\ ((forall n s, In (n, s) (portmap_slots cfg) ->
                   portmap_slot_loadable s = false) ->
      portmap_init cfg table = (table, [], true)).
Proof.
  unfold portmap_init. split; [apply portmap_load_filter|].
  apply portmap_load_nothing.
Qed.

(** X15: the calls [portmap_init] makes to [ip_portmap_add] follow the
    enabled, complete slots in ascending slot order, each slot at most
    once: their slot numbers are an initial segment of the numbers of those
    slots, the whole of it when [portmap_init] reports success.  There are
    at most eight calls and each passes 0 as the mapping address. *)
Theorem portmap_init_calls_in_slot_order cfg table :
  (exists rest,
     map fst (List.filter (fun ns => portmap_slot_loadable (snd ns))
                (portmap_slots cfg))
     = map call_slot (load_calls (portmap_init cfg table)) ++ rest
     /\ (load_ok (portmap_init cfg table) = true -> rest = []))
  /\ StronglySorted lt (map call_slot (load_calls (portmap_init cfg table)))
  /\ (length (load_calls (portmap_init cfg table)) <= 8)%nat
  /\ (forall c, In c (load_calls (portmap_init cfg table)) ->
                call_maddr c = 0).
Proof.
  unfold portmap_init. split; [apply portmap_load_calls_prefix|].
  split; [apply portmap_load_calls_sorted, portmap_slots_sorted|].
  split; [apply (portmap_load_calls_length (portmap_slots cfg))|].
  intros c Hc. apply portmap_load_call_origin in Hc as (s & _ & _ & H).
  apply H.
Qed.

(** X16: on an engine whose [ip_portmap_add] never reports failure,
    [portmap_init] reports success and has handed every enabled, complete
    slot to the engine, in slot order. *)
Theorem portmap_init_installs_every_loadable_slot cfg table :
  (forall t p ma mp da dp di, snd (ip_portmap_add t p ma mp da dp di) <> 0) ->
  load_ok (portmap_init cfg table) = true
  /\ map call_slot (load_calls (portmap_init cfg table))
     = map fst (List.filter (fun ns => portmap_slot_loadable (snd ns))
                  (portmap_slots cfg)).
Proof.
  intros Hadd. unfold portmap_init.
  assert (load_ok (portmap_load (portmap_slots cfg) table) = true) as Hok.
  { generalize (portmap_slots cfg). intros slots. revert table.
    induction slots as [|[n s] tl IH]; intros table; simpl; [reflexivity|].
    destruct (c_true (PORTMAP_ENABLE s)); [|apply IH].
    destruct (portmap_slot_complete s); [|apply IH].
    match goal with |- context [ip_portmap_add ?t ?p ?ma ?mp ?da ?dp ?di] =>
      pose proof (Hadd t p ma mp da dp di) as Hr;
      destruct (ip_portmap_add t p ma mp da dp di) as [table' r]
    end.
    simpl in Hr. apply c_true_true in Hr. rewrite Hr.
    specialize (IH table').
    destruct (portmap_load tl table') as [[t'' calls] ok]. exact IH. }
  split; [exact Hok|].
  destruct (portmap_load_calls_prefix (portmap_slots cfg) table)
    as (rest & Heq & Hrest).
  rewrite Heq, (Hrest Hok), app_nil_r. reflexivity.
Qed.

(** X17: the last address wins.  Running [portmap_update] for one station
    address and then for another leaves the table that the second update
    alone gives; in particular a repeated update changes nothing more. *)
Theorem portmap_update_last_address_wins a b table :
  portmap_update (Some b) (portmap_update (Some a) table)
  = portmap_update (Some b) table.
Proof.
  destruct table as [tbl|]; [|reflexivity]. simpl. f_equal.
  apply list_eq. intros i.
  rewrite !portmap_update_loop_lookup.
  destruct (decide (i < IP_PORTMAP_MAX)%nat); [|reflexivity].
  destruct (tbl !! i) as [e|]; [|reflexivity]. simpl.
  destruct (c_true (valid e)) eqn:Hv; simpl; rewrite Hv; reflexivity.
Qed.

End PortMapLoad.

(** ** The WiFi event handler and the access point *)

Section WifiEvents.

Context {lw : lwip_napt}.
Variable cfg : user_config.

(** The handler keeps to [router_connected], the port map and the WiFi
    stack. *)
Lemma wifi_handle_event_cb_frame evt env d :
  main (wifi_handle_event_cb cfg evt env d) = main d
  /\ touch (wifi_handle_event_cb cfg evt env d) = touch d
  /\ info (wifi_handle_event_cb cfg evt env d) = info d
  /\ gpio (wifi_handle_event_cb cfg evt env d) = gpio d
  /\ orphan_timers (wifi_handle_event_cb cfg evt env d) = orphan_timers d.
Proof.
  destruct_device d. unfold wifi_handle_event_cb, wifi_set_opmode.
  destruct evt; simpl; auto.
  destruct (wifi_set_opmode_ok env); simpl; case_split; simpl; auto.
Qed.

Lemma wifi_got_ip_connected ip env d :
  router_connected (wifi_handle_event_cb cfg (EVENT_STAMODE_GOT_IP ip) env d)
  = router_connected d
    || (wifi_set_opmode_ok env && wifi_get_macaddr_ok env
        && wifi_softap_set_config_ok env
        && wifi_softap_dhcps_stop_ok env && wifi_set_ip_info_ok env
        && wifi_softap_set_dhcps_lease_ok env
        && wifi_softap_dhcps_start_ok env).
Proof.
  destruct_device d.
  unfold wifi_handle_event_cb, wifi_set_opmode, softap_init,
    softap_network_config.
  destruct (wifi_set_opmode_ok env); simpl;
    [|rewrite orb_false_r; reflexivity].
  destruct (wifi_get_macaddr_ok env), (wifi_softap_set_config_ok env),
    (wifi_softap_dhcps_stop_ok env), (wifi_set_ip_info_ok env),
    (wifi_softap_set_dhcps_lease_ok env), (wifi_softap_dhcps_start_ok env);
    simpl; rewrite ?orb_false_r, ?orb_true_r; reflexivity.
Qed.

(** X18: on a got-IP event the handler always rewrites the port map for
    the new station address, switches to station+AP mode when the SDK
    accepts it, and sets [router_connected] exactly when the mode switch,
    the read of the MAC address, the access-point configuration and the
    four steps of the network configuration all succeeded; it never clears
    the flag, and it touches nothing else. *)
Theorem wifi_got_ip_outcome ip env d :
  ip_portmap_table (wifi_handle_event_cb cfg (EVENT_STAMODE_GOT_IP ip) env d)
  = portmap_update (Some ip) (ip_portmap_table d)
  /\ router_connected (wifi_handle_event_cb cfg (EVENT_STAMODE_GOT_IP ip) env d)
     = router_connected d
       || (wifi_set_opmode_ok env && wifi_get_macaddr_ok env
           && wifi_softap_set_config_ok env
           && wifi_softap_dhcps_stop_ok env && wifi_set_ip_info_ok env
           && wifi_softap_set_dhcps_lease_ok env
           && wifi_softap_dhcps_start_ok env)
  /\ wifi (wifi_handle_event_cb cfg (EVENT_STAMODE_GOT_IP ip) env d)
     = (if wifi_set_opmode_ok env
        then set_wifi_opmode STATIONAP_MODE (wifi d) else wifi d)
  /\ main (wifi_handle_event_cb cfg (EVENT_STAMODE_GOT_IP ip) env d) = main d
  /\ touch (wifi_handle_event_cb cfg (EVENT_STAMODE_GOT_IP ip) env d) = touch d
  /\ info (wifi_handle_event_cb cfg (EVENT_STAMODE_GOT_IP ip) env d) = info d
  /\ gpio (wifi_handle_event_cb cfg (EVENT_STAMODE_GOT_IP ip) env d) = gpio d
  /\ orphan_timers (wifi_handle_event_cb cfg (EVENT_STAMODE_GOT_IP ip) env d)
     = orphan_timers d.
Proof.
  split; [|split; [apply wifi_got_ip_connected|
                   split; [|apply wifi_handle_event_cb_frame]]];
    destruct_device d; unfold wifi_handle_event_cb, wifi_set_opmode;
    destruct (wifi_set_opmode_ok env); simpl; case_split; reflexivity.
Qed.

(** X19: [router_connected] rises only on a got-IP event and falls only on
    a disconnect event; no event other than got-IP touches the port map or
    the WiFi stack; and no event touches the timers, the provisioning
    variables, the responder or the pins. *)
Theorem wifi_event_effects evt env d :
  (router_connected d = false ->
   router_connected (wifi_handle_event_cb cfg evt env d) = true ->
   exists ip, evt = EVENT_STAMODE_GOT_IP ip)
  /\ (router_connected d = true ->
      router_connected (wifi_handle_event_cb cfg evt env d) = false ->
      evt = EVENT_STAMODE_DISCONNECTED)
  /\ (router_connected (wifi_handle_event_cb cfg EVENT_STAMODE_DISCONNECTED env d)
      = false)
  /\ ((forall ip, evt <> EVENT_STAMODE_GOT_IP ip) ->
      ip_portmap_table (wifi_handle_event_cb cfg evt env d) = ip_portmap_table d
      /\ wifi (wifi_handle_event_cb cfg evt env d) = wifi d)
  /\ main (wifi_handle_event_cb cfg evt env d) = main d
  /\ touch (wifi_handle_event_cb cfg evt env d) = touch d
  /\ info (wifi_handle_event_cb cfg evt env d) = info d
  /\ gpio (wifi_handle_event_cb cfg evt env d) = gpio d.
Proof.
  destruct (wifi_handle_event_cb_frame evt env d) as (-> & -> & -> & -> & _).
  destruct evt as [| | |ip| | |];
    try (destruct_device d; simpl; repeat split; auto; congruence).
  rewrite wifi_got_ip_connected.
  split; [eauto|]. split; [intros ->; discriminate|].
  split; [reflexivity|]. split; [|auto].
  intros Hne. destruct (Hne ip eq_refl).
Qed.

(** X20: [softap_init] succeeds exactly when the operation mode includes
    the access point, the MAC address could be read and the SDK accepted
    the configuration.  In a lower mode it neither reads the MAC address
    nor configures the access point; it configures the access point at most
    once, and only after the mode test and the MAC read passed.  Into the
    configuration it writes the SSID made of prefix and MAC address, the
    low byte of [MAX_CLIENTS] and of [WIFI_AP_HIDDEN], and, when
    [WIFI_AP_OPEN] is 0, WPA/WPA2 with [WIFI_AP_PASSWORD]; for an open
    network it writes the open mode and never writes the password.  No
    write overruns its array exactly when the SSID is shorter than 32
    characters and the password, where written, shorter than 64. *)
Theorem softap_init_outcome env opmode :
  snd (softap_init cfg env opmode)
  = (SOFTAP_MODE <=? opmode) && wifi_get_macaddr_ok env
    && wifi_softap_set_config_ok env
  /\ (opmode < SOFTAP_MODE -> fst (softap_init cfg env opmode) = [])
  /\ (length (List.filter
                (fun c => match c with
                          | Call_wifi_softap_set_config _ => true
                          | _ => false
                          end) (fst (softap_init cfg env opmode))) <= 1)%nat
  /\ (forall conf,
        In (Call_wifi_softap_set_config conf) (fst (softap_init cfg env opmode)) ->
        SOFTAP_MODE <= opmode /\ wifi_get_macaddr_ok env = true
        /\ ssid conf = (WIFI_AP_SSID_PREFIX cfg ++ "_" ++ softap_macstr env)%string
        /\ authmode conf
           = (if WIFI_AP_OPEN cfg =? 0 then AUTH_WPA_WPA2_PSK else AUTH_OPEN)
        /\ password conf
           = (if WIFI_AP_OPEN cfg =? 0 then Some (WIFI_AP_PASSWORD cfg)
              else None)
        /\ max_connection conf = MAX_CLIENTS cfg mod 256
        /\ ssid_hidden conf = WIFI_AP_HIDDEN cfg mod 256
        /\ (ap_conf_overrun conf = false <->
            (String.length (ssid conf) < 32)%nat
            /\ (WIFI_AP_OPEN cfg = 0 ->
                (String.length (WIFI_AP_PASSWORD cfg) < 64)%nat))).
Proof.
  unfold softap_init.
  destruct (Z.leb_spec SOFTAP_MODE opmode) as [Hmode|Hmode];
    [destruct (wifi_get_macaddr_ok env)|]; cbn [fst snd andb].
  - split; [reflexivity|]. split; [lia|]. split; [simpl; lia|].
    intros conf [Hc|[Hc|[]]]; [discriminate|]. injection Hc as <-.
    cbn [ssid authmode password max_connection ssid_hidden ap_conf_overrun].
    unfold c_true, SOFTAP_SSID_SIZE, SOFTAP_PASSWORD_SIZE.
    do 7 (split; [try reflexivity; try assumption;
                  destruct (WIFI_AP_OPEN cfg =? 0); reflexivity|]).
    rewrite orb_false_iff.
    destruct (Z.eqb_spec (WIFI_AP_OPEN cfg) 0) as [Hopen|Hopen];
      cbn [negb andb];
      rewrite ?Z.leb_gt; split.
    + intros [Hs Hp]. split; [lia|]. intros _. lia.
    + intros [Hs Hp]. specialize (Hp Hopen). split; lia.
    + intros [Hs _]. split; [lia|]. intros H. contradiction.
    + intros [Hs _]. split; [lia|reflexivity].
  - split; [reflexivity|]. split; [lia|]. split; [simpl; lia|].
    intros conf [Hc|[]]. discriminate.
  - split; [reflexivity|]. split; [reflexivity|]. split; [simpl; lia|].
    intros conf [].
Qed.

(** X21: [softap_network_config] succeeds exactly when the four SDK steps
    do.  NAPT is enabled only then, as the last but one call, for the very
    address handed to [wifi_set_ip_info] (the X.X.X.1 address of the
    access-point network), followed by the broadcast-interface setting;
    on any failure NAPT is never enabled. *)
Theorem softap_network_config_napt env :
  snd (softap_network_config cfg env)
  = wifi_softap_dhcps_stop_ok env && wifi_set_ip_info_ok env
    && wifi_softap_set_dhcps_lease_ok env && wifi_softap_dhcps_start_ok env
  /\ (forall a e,
        In (Call_ip_napt_enable a e) (fst (softap_network_config cfg env)) ->
        snd (softap_network_config cfg env) = true /\ e = 1
        /\ ip4_addr4 a = 1
        /\ exists netmask gw,
             set_ip_info_calls (fst (softap_network_config cfg env))
             = [(SOFTAP_IF, a, netmask, gw)])
  /\ (snd (softap_network_config cfg env) = true ->
      exists pre a,
        fst (softap_network_config cfg env)
        = pre ++ [ Call_ip_napt_enable a 1;
                   Call_wifi_set_broadcast_if STATIONAP_MODE ]
        /\ (forall a' e', ~ In (Call_ip_napt_enable a' e') pre)).
Proof.
  unfold softap_network_config.
  destruct (wifi_softap_dhcps_stop_ok env), (wifi_set_ip_info_ok env),
    (wifi_softap_set_dhcps_lease_ok env), (wifi_softap_dhcps_start_ok env);
    simpl; (split; [reflexivity|]); (split; [|try discriminate]);
    try (intros a e H; repeat (destruct H as [H|H]; try discriminate);
         try contradiction).
  - injection H as <- <-. rewrite ip4_addr4_assigned.
    repeat split; eauto.
  - intros _.
    eexists [_; _; _; _], _. split; [reflexivity|].
    intros a' e' H. repeat (destruct H as [H|H]; try discriminate).
    contradiction.
Qed.

End WifiEvents.

(** ** A failed access-point configuration *)

Section SoftApFailure.

Context {lw : lwip_napt}.
Variable cfg : user_config.





End SoftApFailure.

(** ** Provisioning, function by function *)

Section Touch.

Context {lw : lwip_napt}.
Variable cfg : user_config.

(** X22: [esptouch_disable] stops smartconfig, releases the timeout timer
    and clears the running flag, whatever state it is called in; it keeps
    the success flag, the attempt counter, the callbacks and the rest of
    the WiFi stack, and a second call changes nothing. *)
Theorem esptouch_disable_idempotent d :
  esptouch_disable (esptouch_disable d) = esptouch_disable d
  /\ esptouch_is_running (esptouch_disable d) = false
  /\ esptouch_timeout_timer (touch (esptouch_disable d)) = None
  /\ smartconfig_active (wifi (esptouch_disable d)) = false
  /\ esptouch_was_successful (esptouch_disable d) = esptouch_was_successful d
  /\ esptouch_attempt_count (touch (esptouch_disable d))
     = esptouch_attempt_count (touch d)
  /\ esptouch_func (touch (esptouch_disable d)) = esptouch_func (touch d)
  /\ wifi_opmode (wifi (esptouch_disable d)) = wifi_opmode (wifi d)
  /\ wifi_station_active (wifi (esptouch_disable d))
     = wifi_station_active (wifi d)
  /\ wifi_event_handler (wifi (esptouch_disable d))
     = wifi_event_handler (wifi d)
  /\ orphan_timers (esptouch_disable d) = orphan_timers d.
Proof.
  destruct_device d.
  unfold esptouch_disable, smartconfig_stop, esptouch_is_running,
    esptouch_was_successful.
  destruct tmo; simpl; auto 12.
Qed.

(** The attempt counter is a byte in every reachable state, whatever the
    limit. *)
Lemma reachable_attempt_count_byte d :
  reachable cfg d -> 0 <= esptouch_attempt_count (touch d) < 256.
Proof.
  induction 1 as [g opmode env|d e env d' _ IH Hstep].
  - unfold user_init, wifi_set_opmode. simpl.
    destruct (wifi_set_opmode_ok env); simpl; lia.
  - apply step_session in Hstep. unfold session_flags in Hstep.
    inversion Hstep; subst; try lia; try congruence.
    apply Z.mod_pos_bound. lia.
Qed.

(** A running session belongs to the provisioning phase. *)
Lemma running_phase d :
  reachable cfg d -> esptouch_running (touch d) = true ->
  phase_provisioning cfg d /\ esptouch_success (touch d) = false.
Proof.
  intros Hreach Hrun.
  pose proof (reachable_success_not_running cfg d Hreach) as Hsuc.
  rewrite Hrun in Hsuc. simpl in Hsuc. split; [|exact Hsuc].
  destruct (inv_phase cfg d (reachable_device_inv cfg d Hreach))
    as [Hp|[Hp|Hp]]; [|exact Hp|];
    unfold phase_idle, phase_routing in Hp; destruct_device d;
    simpl in *; intuition congruence.
Qed.

(** X23: when the SDK refuses the station configuration at the link event
    of a running provisioning, the session is aborted on the spot: it no
    longer runs, its timeout timer is released, smartconfig is stopped and
    the station stays disconnected.  The next poll then runs the teardown:
    the device is idle again with the button interrupt enabled, every timer
    released and the LED off. *)
Theorem link_config_failure_tears_down env env' d :
  reachable cfg d -> esptouch_is_running d = true ->
  wifi_station_set_config_ok env = false ->
  esptouch_is_running (esptouch_status_cb cfg SC_STATUS_LINK env d) = false
  /\ esptouch_timeout_timer
       (touch (esptouch_status_cb cfg SC_STATUS_LINK env d)) = None
  /\ smartconfig_active (wifi (esptouch_status_cb cfg SC_STATUS_LINK env d))
     = false
  /\ wifi_station_active (wifi (esptouch_status_cb cfg SC_STATUS_LINK env d))
     = false
  /\ exists d',
       step cfg (Timer_expired (ESPTOUCH_WAIT_TIMER 0)) env'
         (esptouch_status_cb cfg SC_STATUS_LINK env d) = Some d'
       /\ lifecycle d' = Idle
       /\ gpio_intr_enabled (gpio d') = true
       /\ main d' = {| led_blink_timer := None;
                       router_conn_timeout_wdt := None;
                       esptouch_wait_timers := [] |}
       /\ info d' = {| udp_com_socket := None; vital_sign_timer := None |}
       /\ status_led_is_off d' = true.
Proof.
  intros Hreach Hrun Hconf. unfold esptouch_is_running in *.
  destruct (running_phase d Hreach Hrun) as [Hphase Hsuc].
  unfold phase_provisioning in Hphase.
  destruct_device d. unfold_pins. simpl in *. break_hyps.
  unfold esptouch_status_cb. rewrite Hconf.
  unfold esptouch_disable, esptouch_arm_timeout, wifi_station_disconnect,
    smartconfig_stop, poll_timer_armed.
  destruct tmo; simpl;
    (do 4 (split; [reflexivity|]));
    unfold esptouch_over_timerfunc, lifecycle; unfold_handlers; unfold_pins;
    simpl; case_split; (eexists; split; [reflexivity|]); simpl;
    repeat split; try reflexivity; pin_solve.
Qed.

(** X24: while provisioning runs, the status events only move the
    deadline of the one timeout timer: waiting and channel search change
    nothing; receiving the credentials re-arms the timer, once, for
    [ESP_TOUCH_RECV_TIMEOUT_THRESHOLD]; a link event whose station
    configuration is accepted connects the station and re-arms the timer,
    once, for [ESP_TOUCH_CONNECTION_TIMEOUT_THRESHOLD].  When no timer
    could be allocated none appears, and running flag, success flag and
    attempt counter are as before. *)
Theorem status_events_move_the_deadline env d :
  reachable cfg d -> esptouch_is_running d = true ->
  esptouch_status_cb cfg SC_STATUS_WAIT env d = d
  /\ esptouch_status_cb cfg SC_STATUS_FIND_CHANNEL env d = d
  /\ esptouch_status_cb cfg SC_STATUS_GETTING_SSID_PSWD env d
     = upd_touch (set_esptouch_timeout_timer
         (match esptouch_timeout_timer (touch d) with
          | Some _ =>
              Some {| timer_armed := true; timer_func := Some Esptouch_fail_cb;
                      timer_period := ESP_TOUCH_RECV_TIMEOUT_THRESHOLD cfg;
                      timer_repeat := false |}
          | None => None
          end)) d
  /\ (wifi_station_set_config_ok env = true ->
      esptouch_status_cb cfg SC_STATUS_LINK env d
      = upd_touch (set_esptouch_timeout_timer
          (match esptouch_timeout_timer (touch d) with
           | Some _ =>
               Some {| timer_armed := true;
                       timer_func := Some Esptouch_fail_cb;
                       timer_period :=
                         ESP_TOUCH_CONNECTION_TIMEOUT_THRESHOLD cfg;
                       timer_repeat := false |}
           | None => None
           end)) (wifi_station_connect d)).
Proof.
  intros Hreach Hrun. unfold esptouch_is_running in *.
  destruct (running_phase d Hreach Hrun) as [Hphase Hsuc].
  unfold phase_provisioning in Hphase.
  destruct_device d. simpl in *. break_hyps.
  unfold esptouch_status_cb, esptouch_start_cb, esptouch_arm_timeout,
    esptouch_fail_cb_ptr, wifi_station_disconnect, wifi_station_connect.
  simpl.
  repeat split; try (intros ->); destruct tmo; reflexivity.
Qed.

(** X25: the attempt counter is a byte.  With an attempt limit above 255
    the test of [esptouch_fail_cb] never fails: the counter wraps from 255
    to 0, and a running provisioning survives any number of timeouts in a
    row, so that the device never gives up on its own. *)
Theorem attempts_never_end_above_255 envs d :
  255 < ESP_TOUCH_ATTEMPTS_LIMIT cfg ->
  reachable cfg d -> esptouch_is_running d = true ->
  (esptouch_attempt_count (touch d) = 255 ->
   esptouch_attempt_count (touch (esptouch_fail_cb cfg d)) = 0)
  /\ exists d',
       run cfg (timeouts envs) d = Some d'
       /\ esptouch_is_running d' = true
       /\ lifecycle d' = Provisioning.
Proof.
  intros Hlimit Hreach Hrun. unfold esptouch_is_running in *. split.
  { intros Hcnt.
    pose proof (session_flags_fail_cb cfg d) as Hflags.
    rewrite Hcnt in Hflags.
    destruct (Z.ltb_spec 255 (ESP_TOUCH_ATTEMPTS_LIMIT cfg)); [|lia].
    apply session_flags_eq in Hflags as (_ & _ & ->). reflexivity. }
  revert d Hreach Hrun.
  induction envs as [|env envs IH]; intros d Hreach Hrun;
    unfold timeouts; cbn [map run];
    try change (map (fun env => (Timer_expired ESPTOUCH_TIMEOUT_TIMER, env)) envs)
      with (timeouts envs).
  { exists d. split; [reflexivity|]. split; [exact Hrun|].
    destruct (running_phase d Hreach Hrun) as [Hphase _].
    unfold phase_provisioning in Hphase. unfold lifecycle.
    destruct Hphase as (_ & _ & _ & -> & _). reflexivity. }
  assert (exists d1,
    step cfg (Timer_expired ESPTOUCH_TIMEOUT_TIMER) env d = Some d1
    /\ esptouch_running (touch d1) = true) as (d1 & Hstep & Hrun1).
  { pose proof (reachable_attempt_count_byte d Hreach) as Hbyte.
    destruct (running_phase d Hreach Hrun) as [Hphase _].
    unfold phase_provisioning, timeout_timer_live in Hphase.
    unfold step, get_timer.
    destruct (esptouch_timeout_timer (touch d)) as [t|] eqn:Htmo;
      [|eauto].
    destruct Hphase as (_ & _ & _ & _ & _ & _ & (Harmed & Hfunc & _) & _).
    rewrite Harmed, Hfunc. simpl. eexists. split; [reflexivity|].
    pose proof (session_flags_fail_cb cfg
                  (put_timer ESPTOUCH_TIMEOUT_TIMER (timer_fired t) d))
      as Hflags.
    destruct_device d. simpl in *. subst.
    destruct (Z.ltb_spec cnt (ESP_TOUCH_ATTEMPTS_LIMIT cfg)); [|lia].
    apply session_flags_eq in Hflags as (-> & _). reflexivity. }
  rewrite Hstep. simpl.
  apply IH; [|exact Hrun1].
  eapply reachable_step; eassumption.
Qed.

(** X26: [esptouch_init] starts a session from any state: running, not
    successful, attempt 1, the three callbacks assigned, the station
    disconnected and smartconfig started.  The timeout timer is a fresh one
    armed once for [ESP_TOUCH_CONFIG_TIMEOUT_THRESHOLD], or none when the
    allocation fails, in which case the session runs without deadline.  A
    timer the handle still pointed to is not released but left behind. *)
Theorem esptouch_init_state env d :
  session_flags (esptouch_init cfg env d) = (true, false, 1)
  /\ esptouch_timeout_timer (touch (esptouch_init cfg env d))
     = (if zalloc_esptouch_timeout_timer env
        then Some (timeout_timer_armed cfg) else None)
  /\ esptouch_func (touch (esptouch_init cfg env d))
     = {| esptouch_start_cb_set := true; esptouch_fail_cb_set := true;
          esptouch_suc_cb_set := true |}
  /\ smartconfig_active (wifi (esptouch_init cfg env d)) = true
  /\ wifi_station_active (wifi (esptouch_init cfg env d)) = false
  /\ wifi_opmode (wifi (esptouch_init cfg env d))
     = (if wifi_set_opmode_ok env then STATION_MODE else wifi_opmode (wifi d))
  /\ orphan_timers (esptouch_init cfg env d)
     = orphan_timers d
       ++ match esptouch_timeout_timer (touch d) with
          | Some old => [old]
          | None => []
          end.
Proof.
  destruct_device d.
  unfold session_flags, esptouch_init, esptouch_arm_timeout,
    esptouch_fail_cb_ptr, wifi_set_opmode, wifi_station_disconnect,
    smartconfig_start, timeout_timer_armed.
  destruct (wifi_set_opmode_ok env), (zalloc_esptouch_timeout_timer env), tmo;
    simpl; rewrite ?app_nil_r; auto 10.
Qed.

End Touch.

(** ** The responder *)

Section DeviceInfo.

Context {lw : lwip_napt}.
Variable cfg : user_config.

(** X27: [device_info_init] faults exactly when the socket exists or can be
    allocated, has no [proto.udp] yet, and [proto.udp] cannot be allocated.
    Without a socket and without memory for one it returns with nothing
    changed.  Otherwise the socket is bound to [DEVICE_COM_PORT], the
    receive callback is registered when [espconn_create] succeeds, and the
    vital-sign timer and everything outside the responder are as before. *)
Theorem device_info_init_outcome env d :
  (device_info_init env d = None <->
   zalloc_proto_udp env = false
   /\ match udp_com_socket (info d) with
      | Some s => proto_udp s = None
      | None => zalloc_udp_com_socket env = true
      end)
  /\ (udp_com_socket (info d) = None -> zalloc_udp_com_socket env = false ->
      device_info_init env d = Some d)
  /\ (forall d', device_info_init env d = Some d' ->
        vital_sign_timer (info d') = vital_sign_timer (info d)
        /\ main d' = main d /\ touch d' = touch d /\ gpio d' = gpio d
        /\ wifi d' = wifi d /\ router_connected d' = router_connected d
        /\ ip_portmap_table d' = ip_portmap_table d
        /\ match udp_com_socket (info d') with
           | Some s =>
               proto_udp s = Some DEVICE_COM_PORT
               /\ (espconn_create_ok env = true -> recv_cb_registered s = true)
           | None => d' = d
           end).
Proof.
  destruct_device d. unfold device_info_init. simpl.
  destruct sock as [[[p|] r]|]; simpl;
    destruct (zalloc_udp_com_socket env), (zalloc_proto_udp env); simpl;
    (split; [split; [try discriminate; auto|intros [? ?]; congruence]|]);
    (split; [intros; congruence|]);
    intros d' [= <-]; simpl; repeat split;
    destruct (espconn_create_ok env); auto; discriminate.
Qed.

(** X28: [vital_sign_bcast_start] does nothing without a socket.  With a
    socket it leaves the vital-sign timer armed periodically for
    [VITAL_SIGN_TIME_INTERVAL] when a timer exists or can be allocated and
    leaves none otherwise; it never touches the socket; starting twice is
    starting once; and [vital_sign_bcast_stop] after it leaves no timer. *)
Theorem vital_sign_bcast_start_outcome env d :
  (udp_com_socket (info d) = None -> vital_sign_bcast_start cfg env d = d)
  /\ (udp_com_socket (info d) <> None ->
      vital_sign_timer (info (vital_sign_bcast_start cfg env d))
      = (if ptr_true (vital_sign_timer (info d)) || zalloc_vital_sign_timer env
         then Some (vital_sign_timer_armed cfg) else None))
  /\ udp_com_socket (info (vital_sign_bcast_start cfg env d))
     = udp_com_socket (info d)
  /\ vital_sign_bcast_start cfg env (vital_sign_bcast_start cfg env d)
     = vital_sign_bcast_start cfg env d
  /\ vital_sign_timer
       (info (vital_sign_bcast_stop (vital_sign_bcast_start cfg env d))) = None.
Proof.
  destruct_device d.
  unfold vital_sign_bcast_start, vital_sign_bcast_stop, vital_sign_timer_armed.
  destruct sock, vt, (zalloc_vital_sign_timer env); simpl;
    repeat split; auto; congruence.
Qed.


End DeviceInfo.

(** ** The further properties on the shipped configuration *)

Lemma routing_device_reachable :
  @reachable lwip_appending shipped_config routing_device.
Proof.
  apply (run_reachable shipped_config
           [(Button_edge, env_ok);
            (Smartconfig_status SC_STATUS_LINK_OVER, env_ok);
            (Timer_expired (ESPTOUCH_WAIT_TIMER 0), env_ok)] booted);
    [apply booted_reachable|vm_compute; reflexivity].
Qed.

Lemma patient_device_reachable :
  @reachable lwip_appending config_many_attempts patient_device.
Proof.
  apply (run_reachable config_many_attempts [(Button_edge, env_ok)] booted);
    [apply reachable_boot|vm_compute; reflexivity].
Qed.

Lemma idle_holds_no_resource_witness :
  @reachable lwip_appending shipped_config booted
  /\ (gpio_intr_enabled (gpio booted) = true <-> lifecycle booted = Idle).
Proof.
  split; [exact booted_reachable|].
  exact (proj1 (@idle_holds_no_resource lwip_appending shipped_config booted
                  booted_reachable)).
Defined.

Lemma provisioning_resources_witness :
  @reachable lwip_appending shipped_config provisioning_device
  /\ lifecycle provisioning_device = Provisioning
  /\ esptouch_wait_timers (main provisioning_device) = [poll_timer_armed]
  /\ router_conn_timeout_wdt (main provisioning_device) = Some os_zalloc_timer.
Proof.
  assert (lifecycle provisioning_device = Provisioning) as Hlife
    by (vm_compute; reflexivity).
  split; [exact provisioning_device_reachable|]. split; [exact Hlife|].
  destruct (@provisioning_resources lwip_appending shipped_config
              provisioning_device provisioning_device_reachable Hlife)
    as (Hpoll & Hwdt & _).
  split; [exact Hpoll|exact Hwdt].
Defined.

Lemma routing_resources_witness :
  @reachable lwip_appending shipped_config routing_device
  /\ lifecycle routing_device = Routing
  /\ router_conn_timeout_wdt (main routing_device)
     = Some (watchdog_armed shipped_config)
  /\ led_blink_timer (main routing_device) = None.
Proof.
  assert (lifecycle routing_device = Routing) as Hlife
    by (vm_compute; reflexivity).
  split; [exact routing_device_reachable|]. split; [exact Hlife|].
  destruct (@routing_resources lwip_appending shipped_config
              routing_device routing_device_reachable Hlife)
    as (Hwdt & Hled & _).
  split; [exact Hwdt|exact Hled].
Defined.

Lemma output_power_stays_on_witness :
  @reachable lwip_appending shipped_config routing_device
  /\ output_power routing_device = true.
Proof.
  split; [exact routing_device_reachable|].
  exact (@output_power_stays_on lwip_appending shipped_config routing_device
           routing_device_reachable).
Defined.

Lemma no_timer_is_orphaned_witness :
  @reachable lwip_appending shipped_config linked_device
  /\ orphan_timers linked_device = [].
Proof.
  split; [exact linked_device_reachable|].
  exact (@no_timer_is_orphaned lwip_appending shipped_config linked_device
           linked_device_reachable).
Defined.

Lemma fault_only_in_device_info_init_witness :
  @reachable lwip_appending shipped_config linked_device
  /\ @step lwip_appending shipped_config
       (Timer_expired (ESPTOUCH_WAIT_TIMER 0)) env_no_proto_udp linked_device
     = None
  /\ @step lwip_appending shipped_config
       (Timer_expired (ESPTOUCH_WAIT_TIMER 0)) env_ok linked_device
     <> None.
Proof.
  split; [exact linked_device_reachable|]. split.
  - apply (proj2 (@fault_only_in_device_info_init lwip_appending
                    shipped_config (Timer_expired (ESPTOUCH_WAIT_TIMER 0))
                    env_no_proto_udp linked_device linked_device_reachable)).
    vm_compute. repeat split; reflexivity.
  - intros Hfault.
    apply (proj1 (@fault_only_in_device_info_init lwip_appending
                    shipped_config (Timer_expired (ESPTOUCH_WAIT_TIMER 0))
                    env_ok linked_device linked_device_reachable)) in Hfault.
    destruct Hfault as (_ & _ & _ & _ & _ & Hproto). discriminate Hproto.
Defined.

Lemma poll_after_success_starts_routing_witness :
  @reachable lwip_appending shipped_config linked_device
  /\ lifecycle linked_device = Provisioning
  /\ esptouch_is_running linked_device = false
  /\ esptouch_was_successful linked_device = true
  /\ (zalloc_udp_com_socket env_ok = false \/ zalloc_proto_udp env_ok = true)
  /\ exists d',
       @step lwip_appending shipped_config
         (Timer_expired (ESPTOUCH_WAIT_TIMER 0)) env_ok linked_device = Some d'
       /\ lifecycle d' = Routing.
Proof.
  assert (lifecycle linked_device = Provisioning) as Hlife
    by (vm_compute; reflexivity).
  assert (esptouch_is_running linked_device = false) as Hrun
    by (vm_compute; reflexivity).
  assert (esptouch_was_successful linked_device = true) as Hsuc
    by (vm_compute; reflexivity).
  assert (zalloc_udp_com_socket env_ok = false \/ zalloc_proto_udp env_ok = true)
    as Hmem by (right; reflexivity).
  split; [exact linked_device_reachable|]. split; [exact Hlife|].
  split; [exact Hrun|]. split; [exact Hsuc|]. split; [exact Hmem|].
  destruct (@poll_after_success_starts_routing lwip_appending shipped_config
              env_ok linked_device linked_device_reachable Hlife Hrun Hsuc Hmem)
    as (d' & Hstep & Hrouting & _).
  exists d'. split; [exact Hstep|exact Hrouting].
Defined.

Lemma disconnect_then_watchdog_tears_down_witness :
  @reachable lwip_appending shipped_config routing_device
  /\ lifecycle routing_device = Routing
  /\ exists d',
       @run lwip_appending shipped_config
         [ (Wifi_event EVENT_STAMODE_DISCONNECTED, env_ok);
           (Timer_expired ROUTER_CONN_TIMEOUT_WDT, env_ok) ] routing_device
       = Some d'
       /\ lifecycle d' = Idle.
Proof.
  assert (lifecycle routing_device = Routing) as Hlife
    by (vm_compute; reflexivity).
  split; [exact routing_device_reachable|]. split; [exact Hlife|].
  destruct (@disconnect_then_watchdog_tears_down lwip_appending shipped_config
              env_ok env_ok routing_device routing_device_reachable Hlife)
    as (_ & d' & Hrun & Hidle & _).
  exists d'. split; [exact Hrun|exact Hidle].
Defined.

Lemma link_over_ends_running_session_witness :
  @reachable lwip_appending shipped_config provisioning_device
  /\ esptouch_is_running provisioning_device = true
  /\ esptouch_is_running
       (esptouch_status_cb shipped_config SC_STATUS_LINK_OVER env_ok
          provisioning_device) = false
  /\ esptouch_was_successful
       (esptouch_status_cb shipped_config SC_STATUS_LINK_OVER env_ok
          provisioning_device) = true.
Proof.
  assert (esptouch_is_running provisioning_device = true) as Hrun
    by (vm_compute; reflexivity).
  split; [exact provisioning_device_reachable|]. split; [exact Hrun|].
  destruct (@link_over_ends_running_session lwip_appending shipped_config
              env_ok provisioning_device provisioning_device_reachable Hrun)
    as (Hstopped & Hsuc & _).
  split; [exact Hstopped|exact Hsuc].
Defined.

Lemma router_enable_success_state_witness :
  snd (@router_enable lwip_appending shipped_config env_ok booted) = true
  /\ esptouch_wait_timers
       (main (fst (@router_enable lwip_appending shipped_config env_ok booted)))
     = esptouch_wait_timers (main booted) ++ [poll_timer_armed]
  /\ session_flags
       (fst (@router_enable lwip_appending shipped_config env_ok booted))
     = (true, false, 1).
Proof.
  assert (snd (@router_enable lwip_appending shipped_config env_ok booted)
          = true) as Hok by (vm_compute; reflexivity).
  split; [exact Hok|].
  destruct (@router_enable_success_state lwip_appending shipped_config
              env_ok booted Hok) as (Hpoll & _ & _ & Hflags & _).
  split; [exact Hpoll|exact Hflags].
Defined.

Lemma portmap_init_installs_every_loadable_slot_witness :
  (forall t p ma mp da dp di,
     snd (@ip_portmap_add lwip_appending t p ma mp da dp di) <> 0)
  /\ load_ok (@portmap_init lwip_appending
                (config_with_slots slot_mqtt slot_no_mport slot_http) None)
     = true
  /\ map call_slot
       (load_calls (@portmap_init lwip_appending
                      (config_with_slots slot_mqtt slot_no_mport slot_http)
                      None))
     = map fst
         (List.filter (fun ns => portmap_slot_loadable (snd ns))
            (portmap_slots
               (config_with_slots slot_mqtt slot_no_mport slot_http))).
Proof.
  assert (forall t p ma mp da dp di,
            snd (@ip_portmap_add lwip_appending t p ma mp da dp di) <> 0)
    as Hadd by (intros; simpl; lia).
  split; [exact Hadd|].
  exact (@portmap_init_installs_every_loadable_slot lwip_appending
           (config_with_slots slot_mqtt slot_no_mport slot_http) None Hadd).
Defined.

Lemma link_config_failure_tears_down_witness :
  @reachable lwip_appending shipped_config provisioning_device
  /\ esptouch_is_running provisioning_device = true
  /\ wifi_station_set_config_ok env_out_of_memory = false
  /\ exists d',
       @step lwip_appending shipped_config
         (Timer_expired (ESPTOUCH_WAIT_TIMER 0)) env_ok
         (esptouch_status_cb shipped_config SC_STATUS_LINK env_out_of_memory
            provisioning_device) = Some d'
       /\ lifecycle d' = Idle.
Proof.
  assert (esptouch_is_running provisioning_device = true) as Hrun
    by (vm_compute; reflexivity).
  assert (wifi_station_set_config_ok env_out_of_memory = false) as Hconf
    by reflexivity.
  split; [exact provisioning_device_reachable|]. split; [exact Hrun|].
  split; [exact Hconf|].
  destruct (@link_config_failure_tears_down lwip_appending shipped_config
              env_out_of_memory env_ok provisioning_device
              provisioning_device_reachable Hrun Hconf)
    as (_ & _ & _ & _ & d' & Hstep & Hidle & _).
  exists d'. split; [exact Hstep|exact Hidle].
Defined.

Lemma status_events_move_the_deadline_witness :
  @reachable lwip_appending shipped_config provisioning_device
  /\ esptouch_is_running provisioning_device = true
  /\ esptouch_status_cb shipped_config SC_STATUS_WAIT env_ok provisioning_device
     = provisioning_device
  /\ esptouch_status_cb shipped_config SC_STATUS_FIND_CHANNEL env_ok
       provisioning_device
     = provisioning_device.
Proof.
  assert (esptouch_is_running provisioning_device = true) as Hrun
    by (vm_compute; reflexivity).
  split; [exact provisioning_device_reachable|]. split; [exact Hrun|].
  destruct (@status_events_move_the_deadline lwip_appending shipped_config
              env_ok provisioning_device provisioning_device_reachable Hrun)
    as (Hwait & Hfind & _).
  split; [exact Hwait|exact Hfind].
Defined.

Lemma attempts_never_end_above_255_witness :
  255 < ESP_TOUCH_ATTEMPTS_LIMIT config_many_attempts
  /\ @reachable lwip_appending config_many_attempts patient_device
  /\ esptouch_is_running patient_device = true
  /\ exists d',
       @run lwip_appending config_many_attempts
         (timeouts [env_ok; env_ok; env_ok; env_ok; env_ok]) patient_device
       = Some d'
       /\ esptouch_is_running d' = true
       /\ lifecycle d' = Provisioning.
Proof.
  assert (255 < ESP_TOUCH_ATTEMPTS_LIMIT config_many_attempts) as Hlimit
    by (simpl; lia).
  assert (esptouch_is_running patient_device = true) as Hrun
    by (vm_compute; reflexivity).
  split; [exact Hlimit|]. split; [exact patient_device_reachable|].
  split; [exact Hrun|].
  exact (proj2 (@attempts_never_end_above_255 lwip_appending
                  config_many_attempts
                  [env_ok; env_ok; env_ok; env_ok; env_ok] patient_device
                  Hlimit patient_device_reachable Hrun)).
Defined.



